(** * Point-cloud dataset loaders ([dataloader/pc_dataset.py])

    A shallow embedding of the dataset registry, the four dataset
    variants ([SemKITTI_sk], [Dense], [CycleDense], [SemKITTI_nusc]), the
    [SemKITTI2train] post-processing helper and the label-name helpers,
    followed by the properties the specification states about them.

    Python code that can raise or that touches state outside its
    arguments (the module-level registry, the file system, arrays updated
    in place) is written in a state-and-exception monad [M S]; everything
    else is a plain function. *)

From Stdlib Require Import ZArith String Ascii.
From Stdlib.Strings Require Import Byte.
From stdpp Require Import base option list gmap strings sorting pretty.

Local Open Scope string_scope.

(** ** Python values the module handles *)

(** A class object, as far as the registry can tell classes apart. *)
Record pyclass := PyClass { cls_module : string; cls_name : string }.

Global Instance pyclass_eq_dec : EqDecision pyclass.
Proof. solve_decision. Defined.

(** Keys that a failed dictionary access reports. *)
Inductive key := KInt (z : Z) | KStr (s : string).

Global Instance key_eq_dec : EqDecision key.
Proof. solve_decision. Defined.

(** The exceptions that can leave the module.  [AssertionError] carries
    the literal prefix of its f-string and the dictionary the f-string
    formats after it. *)
Inductive exn :=
| AssertionError (msg : string) (shown : gmap string pyclass)
| Exception (msg : string)
| KeyError (k : key)
| FileNotFoundError (path : string)
| OSError (path : string)
| ParseError (path : string)
| ValueError (msg : string)
| IndexError
| TypeError
| AttributeError (attr : string).

(** ** Results and the monad

    Code that can raise but touches nothing outside its arguments
    returns a [result]; code that also reads or changes state of type [S]
    lives in [M S]. *)

Inductive result (A : Type) := Ok (a : A) | Err (e : exn).
Arguments Ok {A} _.
Arguments Err {A} _.

Global Instance result_ret : MRet result := λ A a, Ok a.

Global Instance result_bind : MBind result :=
  λ A B f r, match r with Ok a => f a | Err e => Err e end.

Record M (S A : Type) := MkM { run : S → S * result A }.
Arguments MkM {S A} _.
Arguments run {S A} _ _.

Global Instance M_ret {S} : MRet (M S) :=
  λ A a, MkM (λ s, (s, Ok a)).

Global Instance M_bind {S} : MBind (M S) :=
  λ A B f m, MkM (λ s,
    match run m s with
    | (s', Err e) => (s', Err e)
    | (s', Ok a) => run (f a) s'
    end).

Definition lift {S A} (r : result A) : M S A := MkM (λ s, (s, r)).
Definition raise {S A} (e : exn) : M S A := lift (Err e).
Definition get_state {S} : M S S := MkM (λ s, (s, Ok s)).
Definition put_state {S} (s : S) : M S unit := MkM (λ _, (s, Ok tt)).

(** [d[k]] on a dictionary: the value, or [KeyError]. *)
Definition dict_getitem {K V} `{Countable K} (repr : K → key)
    (d : gmap K V) (k : K) : result V :=
  match d !! k with
  | Some v => Ok v
  | None => Err (KeyError (repr k))
  end.

(** [l[i]] on a list: negative indices count from the end. *)
Definition py_index {A} (l : list A) (i : Z) : option A :=
  let n := Z.of_nat (length l) in
  let j := if decide (i < 0)%Z then (n + i)%Z else i in
  if decide (0 ≤ j < n)%Z then l !! Z.to_nat j else None.

Definition list_getitem {A} (l : list A) (i : Z) : result A :=
  match py_index l i with
  | Some x => Ok x
  | None => Err IndexError
  end.

(** ** The registry of dataset classes *)

(** [REGISTERED_PC_DATASET_CLASSES]: the module-level dictionary. *)
Abbreviation registry := (gmap string pyclass).

Definition register_dataset (cls : pyclass) (name : option string)
    : M registry pyclass :=
  let name := match name with None => cls_name cls | Some n => n end in
  REGISTERED_PC_DATASET_CLASSES ← get_state;
  match REGISTERED_PC_DATASET_CLASSES !! name with
  | Some _ => raise (AssertionError "exist class: " REGISTERED_PC_DATASET_CLASSES)
  | None =>
      put_state (<[name := cls]> REGISTERED_PC_DATASET_CLASSES) ;;
      mret cls
  end.

Definition get_pc_model_class (name : string) : M registry pyclass :=
  REGISTERED_PC_DATASET_CLASSES ← get_state;
  match REGISTERED_PC_DATASET_CLASSES !! name with
  | None => raise (AssertionError "available class: " REGISTERED_PC_DATASET_CLASSES)
  | Some cls => mret cls
  end.

(** ** Arrays

    A numpy array is its shape and its elements in row-major (C) order. *)

Record ndarray (A : Type) := NdArray { shape : list nat; flat : list A }.
Arguments NdArray {A} _ _.
Arguments shape {A} _.
Arguments flat {A} _.

(** The number of elements a shape holds. *)
Definition numel (sh : list nat) : nat := foldr Nat.mul 1 sh.

(** The element types the module names. *)
Inductive dtype := uint8 | int32 | int64.

Global Instance dtype_eq_dec : EqDecision dtype.
Proof. solve_decision. Defined.

Definition dtype_bits (dt : dtype) : Z :=
  match dt with uint8 => 8 | int32 => 32 | int64 => 64 end%Z.

Definition dtype_signed (dt : dtype) : bool :=
  match dt with uint8 => false | _ => true end.

(** Conversion of an integer to a dtype keeps the low bits. *)
Definition wrap (dt : dtype) (z : Z) : Z :=
  let m := (2 ^ dtype_bits dt)%Z in
  let u := (z mod m)%Z in
  if dtype_signed dt && bool_decide (m ≤ 2 * u)%Z then (u - m)%Z else u.

Definition map_array {A B} (f : A → B) (a : ndarray A) : ndarray B :=
  NdArray (shape a) (f <$> flat a).

(** [a.astype(dt)] on an integer array. *)
Definition astype (dt : dtype) (a : ndarray Z) : ndarray Z :=
  map_array (wrap dt) a.

(** [np.zeros_like(a, dtype=int)]. *)
Definition zeros_like {A} (a : ndarray A) : ndarray Z :=
  NdArray (shape a) (replicate (length (flat a)) 0%Z).

(** [a.reshape((-1, k))]: the row count is inferred. *)
Definition reshape_rows_auto {A} (k : nat) (a : ndarray A) : result (ndarray A) :=
  let n := length (flat a) in
  if decide (k ≠ 0 ∧ n mod k = 0) then Ok (NdArray [n / k; k] (flat a))
  else Err (ValueError "cannot reshape array").

(** [a.reshape(k, -1)]: the column count is inferred. *)
Definition reshape_cols_auto {A} (k : nat) (a : ndarray A) : result (ndarray A) :=
  let n := length (flat a) in
  if decide (k ≠ 0 ∧ n mod k = 0) then Ok (NdArray [k; n / k] (flat a))
  else Err (ValueError "cannot reshape array").

(** [np.expand_dims(a, axis=1)]. *)
Definition expand_dims_1 {A} (a : ndarray A) : result (ndarray A) :=
  match shape a with
  | [] => Err (ValueError "axis 1 is out of bounds")
  | d :: rest => Ok (NdArray (d :: 1 :: rest) (flat a))
  end.

(** Column [j] of every row, read out of row-major data with [c]
    columns. *)
Definition column {A} (c j r : nat) (l : list A) : list A :=
  omap (λ i, l !! (i * c + j)) (seq 0 r).

(** [a[:, j]] on a two-dimensional array. *)
Definition get_col {A} (a : ndarray A) (j : nat) : result (ndarray A) :=
  match shape a with
  | [r; c] =>
      if decide (j < c) then Ok (NdArray [r] (column c j r (flat a)))
      else Err IndexError
  | _ => Err IndexError
  end.

(** [a[i, :]] on a two-dimensional array. *)
Definition get_row {A} (a : ndarray A) (i : nat) : result (ndarray A) :=
  match shape a with
  | [r; c] =>
      if decide (i < r) then Ok (NdArray [c] (take c (drop (i * c) (flat a))))
      else Err IndexError
  | _ => Err IndexError
  end.

(** [a[:, :k]] on a two-dimensional array; a slice is clipped to the
    array, it never fails. *)
Definition slice_cols {A} (a : ndarray A) (k : nat) : result (ndarray A) :=
  match shape a with
  | [r; c] =>
      Ok (NdArray [r; k `min` c]
              (i ← seq 0 r; take (k `min` c) (drop (i * c) (flat a))))
  | _ => Err IndexError
  end.

(** [a[:k, :]] on a two-dimensional array. *)
Definition slice_rows {A} (a : ndarray A) (k : nat) : result (ndarray A) :=
  match shape a with
  | [r; c] => Ok (NdArray [k `min` r; c] (take ((k `min` r) * c) (flat a)))
  | _ => Err IndexError
  end.

(** [a.transpose(1, 0)]. *)
Definition transpose_10 {A} (a : ndarray A) : result (ndarray A) :=
  match shape a with
  | [r; c] => Ok (NdArray [c; r] (j ← seq 0 c; column c j r (flat a)))
  | _ => Err (ValueError "axes don't match array")
  end.

(** [a.transpose(2, 0, 1)]: the last axis becomes the first. *)
Definition transpose_201 {A} (a : ndarray A) : result (ndarray A) :=
  match shape a with
  | [h; w; c] =>
      Ok (NdArray [c; h; w] (k ← seq 0 c; column c k (h * w) (flat a)))
  | _ => Err (ValueError "axes don't match array")
  end.

(** [np.atleast_3d] on a shape. *)
Definition atleast_3d (sh : list nat) : list nat :=
  match sh with
  | [] => [1; 1; 1]
  | [n] => [1; n; 1]
  | [m; n] => [m; n; 1]
  | _ => sh
  end.

(** [np.dstack(arrs)]: the arrays, seen as at least three-dimensional,
    joined along the third axis.  They must agree on every other axis. *)
Definition np_dstack {A} (arrs : list (ndarray A)) : result (ndarray A) :=
  match arrs with
  | [] => Err (ValueError "need at least one array to concatenate")
  | a0 :: _ =>
      let sh0 := atleast_3d (shape a0) in
      let outer := take 2 sh0 in
      let rest := drop 3 sh0 in
      let depth (a : ndarray A) := default 0 (atleast_3d (shape a) !! 2) in
      if decide (Forall (λ a, take 2 (atleast_3d (shape a)) = outer ∧
                              drop 3 (atleast_3d (shape a)) = rest) arrs)
      then
        Ok (NdArray (outer ++ [sum_list (depth <$> arrs)] ++ rest)%list
                (p ← seq 0 (numel outer);
                 a ← arrs;
                 take (depth a * numel rest)
                      (drop (p * (depth a * numel rest)) (flat a))))
      else Err (ValueError "all the input array dimensions must match")
  end.

(** [np.vectorize(f)(a)]: [f] on every element in order.  Without
    [otypes], numpy refuses an input with no element. *)
Definition np_vectorize {A B} (f : A → result B) (a : ndarray A) : result (ndarray B) :=
  match flat a with
  | [] => Err (ValueError "cannot call `vectorize` on size 0 inputs unless `otypes` is set")
  | _ => ys ← mapM f (flat a); Ok (NdArray (shape a) ys)
  end.

(** ** Strings and paths *)

(** [s.replace(old, new)] for a non-empty [old]: every occurrence, left
    to right, without overlap.  [skip] counts the characters of a matched
    occurrence still to be dropped. *)
Fixpoint str_replace_from (old new : string) (skip : nat) (s : string) : string :=
  match s with
  | EmptyString => EmptyString
  | String c s' =>
      match skip with
      | S k => str_replace_from old new k s'
      | O =>
          if String.prefix old s
          then new +:+ str_replace_from old new (String.length old - 1) s'
          else String c (str_replace_from old new 0 s')
      end
  end.

Definition str_replace (old new s : string) : string :=
  str_replace_from old new 0 s.

(** [s[:-k]] and [s[k:]]. *)
Definition str_drop_last (k : nat) (s : string) : string :=
  substring 0 (String.length s - k) s.

Definition str_drop (k : nat) (s : string) : string :=
  substring k (String.length s - k) s.

(** [s.zfill(width)]: zeros go after a leading sign. *)
Definition str_zfill (width : nat) (s : string) : string :=
  let pad := string_of_list_ascii (replicate (width - String.length s) "0"%char) in
  match s with
  | String c s' =>
      if bool_decide (c = "+"%char ∨ c = "-"%char)
      then String c (pad +:+ s')
      else pad +:+ s
  | EmptyString => pad
  end.

(** [sep.join(parts)]. *)
Definition str_join (sep : string) (parts : list string) : string :=
  String.concat sep parts.

(** The last character of a string, if any. *)
Definition str_last (s : string) : option ascii :=
  last (list_ascii_of_string s).

(** [os.path.join(a, b)] (POSIX). *)
Definition os_path_join (a b : string) : string :=
  if String.prefix "/" b then b
  else if bool_decide (a = "" ∨ str_last a = Some "/"%char) then a +:+ b
  else a +:+ "/" +:+ b.

(** ** What the module reads: configuration documents and files *)

(** An entry of a split list: YAML gives integers or strings. *)
Inductive yaml_scalar := YInt (z : Z) | YStr (s : string).

(** [str(x)]. *)
Definition py_str (x : yaml_scalar) : string :=
  match x with YInt z => pretty z | YStr s => s end.

(** A label-mapping document, by the top-level keys the module reads;
    [None] is a missing key. *)
Record yaml_doc := YamlDoc {
  y_learning_map : option (gmap Z Z);
  y_split : option (gmap string (list yaml_scalar));
  y_labels : option (gmap Z string);
  y_labels_16 : option (gmap Z string);
}.

(** The pickled index of the nuScenes variant: a dictionary whose
    ['infos'] entry is a list of records with string fields. *)
Abbreviation pickle_doc := (gmap string (list (gmap string string))).

(** A record of the nuScenes catalogue: its ['data'] and ['filename']
    entries, when it has them. *)
Record nusc_record := NuscRecord {
  rec_data : option (gmap string string);
  rec_filename : option string;
}.

(** The [NuScenes] object handed to the nuScenes variant. *)
Record NuScenes := MkNuScenes {
  dataroot : string;
  nusc_table : string → string → option nusc_record;
}.

(** Everything outside the module that it relies on: the float32 values
    and their conversions (left abstract), the contents of the file
    system, the directory walk, and the parsers of the three container
    formats. *)
Record env := Env {
  float32 : Type;
  h5val : Type;
  f32_of_bytes : list byte → float32;
  h5_to_f32 : h5val → float32;
  f32_to_i32 : float32 → Z;
  fs : gmap string (list byte);
  os_walk : string → list (string * list string);
  os_path_abspath : string → string;
  yaml_safe_load : list byte → option yaml_doc;
  pickle_load : list byte → option pickle_doc;
  h5py_File : list byte → option (gmap string (ndarray h5val));
}.

(** What a variant returns: arrays of float32 or of integers. *)
Inductive tensor (E : env) :=
| TFloat (a : ndarray (float32 E))
| TInt (dt : dtype) (a : ndarray Z).
Arguments TFloat {E} _.
Arguments TInt {E} _ _.


(** The accesses to the outside that a run makes, oldest first. *)
Inductive event :=
| EvOpen (path : string)
| EvWalk (directory : string)
| EvDataset (path name : string)
| EvCatalogue (table token : string)
| EvStdout (line : string).

Global Instance event_eq_dec : EqDecision event.
Proof. solve_decision. Defined.

Abbreviation IO := (M (list event)).

Definition emit (e : event) : IO unit := MkM (λ t, ((t ++ [e])%list, Ok tt)).

(** [open(path)] followed by reading the whole file. *)
Definition read_file (E : env) (path : string) : IO (list byte) :=
  emit (EvOpen path) ;;
  match fs E !! path with
  | Some bs => mret bs
  | None => raise (FileNotFoundError path)
  end.

(** [with open(path, 'r') as stream: yaml.safe_load(stream)]. *)
Definition load_yaml (E : env) (path : string) : IO yaml_doc :=
  bs ← read_file E path;
  match yaml_safe_load E bs with
  | Some d => mret d
  | None => raise (ParseError path)
  end.

(** [with open(path, 'rb') as f: pickle.load(f)]. *)
Definition load_pickle (E : env) (path : string) : IO pickle_doc :=
  bs ← read_file E path;
  match pickle_load E bs with
  | Some d => mret d
  | None => raise (ParseError path)
  end.

(** A top-level key of a document. *)
Definition doc_getitem {A} (name : string) (entry : option A) : result A :=
  match entry with
  | Some v => Ok v
  | None => Err (KeyError (KStr name))
  end.

(** ** Binary files *)

Definition byte_val (b : byte) : Z := Z.of_N (Byte.to_N b).

(** Little-endian unsigned value of a byte string. *)
Fixpoint le_unsigned (bs : list byte) : Z :=
  match bs with
  | [] => 0
  | b :: bs' => byte_val b + 256 * le_unsigned bs'
  end%Z.

Definition int32_of_bytes (bs : list byte) : Z := wrap int32 (le_unsigned bs).
Definition uint8_of_bytes (bs : list byte) : Z := le_unsigned bs.

(** The whole items of [k] bytes that a byte string holds, decoded. *)
Definition items {A} (k : nat) (dec : list byte → A) (bs : list byte) : list A :=
  (λ i, dec (take k (drop (i * k) bs))) <$> seq 0 (length bs / k).

(** [np.fromfile(path, dtype)]: a one-dimensional array of the whole
    items in the file. *)
Definition np_fromfile {A} (E : env) (path : string) (itemsize : nat)
    (dec : list byte → A) : IO (ndarray A) :=
  bs ← read_file E path;
  mret (NdArray [length bs / itemsize] (items itemsize dec bs)).

(** The paths [absoluteFilePaths(directory)] yields, in order. *)
Definition walk_files (E : env) (directory : string) : list string :=
  '(dirpath, filenames) ← os_walk E directory;
  f ← filenames;
  [os_path_abspath E (os_path_join dirpath f)].

(** [absoluteFilePaths(directory)], consumed to its end. *)
Definition absoluteFilePaths (E : env) (directory : string) : IO (list string) :=
  emit (EvWalk directory) ;;
  mret (walk_files E directory).

(** [for i_folder in split: self.im_idx += absoluteFilePaths(dir i_folder)]. *)
Fixpoint collect_paths {A} (E : env) (dir : A → result string) (split : list A)
    : IO (list string) :=
  match split with
  | [] => mret []
  | i_folder :: rest =>
      d ← lift (dir i_folder);
      ps ← absoluteFilePaths E d;
      qs ← collect_paths E dir rest;
      mret (ps ++ qs)%list
  end.

(** ** Variant A: [SemKITTI_sk] (flat binary scans, companion label files) *)

Module SemKITTI_sk.

Record t := Build {
  return_ref : bool;
  learning_map : gmap Z Z;
  imageset : string;
  im_idx : list string;
}.

Definition default_return_ref : bool := false.

Definition __init__ (E : env) (data_path : string) (imageset : option string)
    (return_ref : option bool) (label_mapping : option string)
    (nusc : option NuScenes) : IO t :=
  let imageset := default "train" imageset in
  let return_ref := default default_return_ref return_ref in
  let label_mapping := default "semantic-kitti.yaml" label_mapping in
  semkittiyaml ← load_yaml E label_mapping;
  learning_map ← lift (doc_getitem "learning_map" (y_learning_map semkittiyaml));
  split ← lift
    (if decide (imageset = "train") then
       sp ← doc_getitem "split" (y_split semkittiyaml);
       dict_getitem KStr sp "train"
     else if decide (imageset = "val") then
       sp ← doc_getitem "split" (y_split semkittiyaml);
       dict_getitem KStr sp "valid"
     else if decide (imageset = "test") then
       sp ← doc_getitem "split" (y_split semkittiyaml);
       dict_getitem KStr sp "test"
     else Err (Exception "Split must be train/val/test"));
  im_idx ← collect_paths E
    (λ i_folder,
       Ok (str_join "/" [data_path; str_zfill 2 (py_str i_folder); "velodyne"]))
    split;
  mret (Build return_ref learning_map imageset im_idx).

Definition __len__ (self : t) : nat := length (im_idx self).

(** The label file that goes with a scan file. *)
Definition label_path (scan : string) : string :=
  str_drop_last 3 (str_replace "velodyne" "labels" scan) +:+ "label".

Definition __getitem__ (E : env) (self : t) (index : Z) : IO (list (tensor E)) :=
  scan ← lift (list_getitem (im_idx self) index);
  raw ← np_fromfile E scan 4 (f32_of_bytes E);
  raw_data ← lift (reshape_rows_auto 4 raw);
  annotated_data ←
    (if decide (imageset self = "test") then
       lift (c0 ← get_col raw_data 0;
             expand_dims_1 (zeros_like c0))
     else
       lab ← np_fromfile E (label_path scan) 4 int32_of_bytes;
       lab ← lift (reshape_rows_auto 1 lab);
       let lab := map_array (λ z, Z.land z 0xFFFF) lab in
       lift (np_vectorize (dict_getitem KInt (learning_map self)) lab));
  xyz ← lift (slice_cols raw_data 3);
  let data_tuple := [TFloat xyz; TInt uint8 (astype uint8 annotated_data)] in
  if return_ref self then
    ref ← lift (get_col raw_data 3);
    mret (data_tuple ++ [TFloat ref])%list
  else mret data_tuple.

End SemKITTI_sk.

(** ** Structured containers (HDF5) *)

Abbreviation h5file E := (gmap string (ndarray (h5val E))).

(** [h5py.File(path, "r")]. *)
Definition open_h5 (E : env) (path : string) : IO (h5file E) :=
  emit (EvOpen path) ;;
  match fs E !! path with
  | None => raise (FileNotFoundError path)
  | Some bs =>
      match h5py_File E bs with
      | Some f => mret f
      | None => raise (OSError path)
      end
  end.

(** [np.array(f[name])].  A stored dataset whose data does not fill its
    dataspace cannot be read. *)
Definition read_dataset (E : env) (path : string) (f : h5file E) (name : string)
    : IO (ndarray (h5val E)) :=
  emit (EvDataset path name) ;;
  d ← lift (dict_getitem KStr f name);
  if decide (length (flat d) = numel (shape d)) then mret d
  else raise (OSError path).

(** The six channels of a container stacked and laid out one channel per
    row: [np.dstack((...)).astype(np.float32).transpose(2,0,1).reshape(6,-1)]. *)
Definition load_channels (E : env) (path : string) : IO (ndarray (float32 E)) :=
  f ← open_h5 E path;
  x ← read_dataset E path f "sensorX_1";
  y ← read_dataset E path f "sensorY_1";
  z ← read_dataset E path f "sensorZ_1";
  distance ← read_dataset E path f "distance_m_1";
  intensity ← read_dataset E path f "intensity_1";
  labels ← read_dataset E path f "labels_1";
  lift (stacked ← np_dstack [x; y; z; distance; intensity; labels];
        moved ← transpose_201 (map_array (h5_to_f32 E) stacked);
        reshape_cols_auto 6 moved).

(** A dataset that is stored whole under a name. *)
Definition stored {E : env} (f : h5file E) (name : string)
    (d : ndarray (h5val E)) : Prop :=
  f !! name = Some d ∧ length (flat d) = numel (shape d).

(** The reads that loading a container makes, in order. *)
Definition container_reads (path : string) : list event :=
  [EvOpen path;
   EvDataset path "sensorX_1"; EvDataset path "sensorY_1";
   EvDataset path "sensorZ_1"; EvDataset path "distance_m_1";
   EvDataset path "intensity_1"; EvDataset path "labels_1"].

(** ** Variant B: [Dense] *)

Module Dense.

Record t := Build {
  return_ref : bool;
  learning_map : gmap Z Z;
  imageset : string;
  im_idx : list string;
}.

Definition default_return_ref : bool := true.

(** ['/'.join([data_path, i_folder])]: only strings can be joined. *)
Definition folder_path (data_path : string) (i_folder : yaml_scalar) : result string :=
  match i_folder with
  | YStr s => Ok (str_join "/" [data_path; s])
  | YInt _ => Err TypeError
  end.

Definition __init__ (E : env) (data_path : string) (imageset : option string)
    (return_ref : option bool) (label_mapping : option string)
    (nusc : option NuScenes) : IO t :=
  let imageset := default "train" imageset in
  let return_ref := default default_return_ref return_ref in
  let label_mapping := default "dense.yaml" label_mapping in
  semkittiyaml ← load_yaml E label_mapping;
  learning_map ← lift (doc_getitem "learning_map" (y_learning_map semkittiyaml));
  split ← lift
    (if decide (imageset = "train") then
       sp ← doc_getitem "split" (y_split semkittiyaml);
       dict_getitem KStr sp "train"
     else if decide (imageset = "val") then
       sp ← doc_getitem "split" (y_split semkittiyaml);
       dict_getitem KStr sp "valid"
     else if decide (imageset = "test") then
       sp ← doc_getitem "split" (y_split semkittiyaml);
       dict_getitem KStr sp "test"
     else Err (Exception "Split must be train/val/test"));
  im_idx ← collect_paths E (folder_path data_path) split;
  mret (Build return_ref learning_map imageset im_idx).

Definition __len__ (self : t) : nat := length (im_idx self).

Definition __getitem__ (E : env) (self : t) (index : Z) : IO (list (tensor E)) :=
  path ← lift (list_getitem (im_idx self) index);
  raw_data ← load_channels E path;
  annotated_data ← lift
    (if decide (imageset self = "test") then
       c0 ← get_col raw_data 0;
       expand_dims_1 (zeros_like c0)
     else
       r5 ← get_row raw_data 5;
       lab ← reshape_rows_auto 1 (map_array (f32_to_i32 E) r5);
       let lab := map_array (λ z, Z.land z 0xFFFF) lab in
       np_vectorize (dict_getitem KInt (learning_map self)) lab);
  top ← lift (slice_rows raw_data 3);
  xyz ← lift (transpose_10 top);
  let data_tuple := [TFloat xyz; TInt uint8 (astype uint8 annotated_data)] in
  if return_ref self then
    r3 ← lift (get_row raw_data 3);
    ref ← lift (reshape_rows_auto 1 r3);
    mret (data_tuple ++ [TFloat ref])%list
  else mret data_tuple.

End Dense.

(** ** Variant C: [CycleDense] *)

Module CycleDense.

Record t := Build {
  return_ref : bool;
  learning_map : gmap Z Z;
  imageset : string;
  im_idx : list string;
}.

Definition default_return_ref : bool := true.

Definition __init__ (E : env) (data_path : string) (imageset : option string)
    (clss : option string) (return_ref : option bool)
    (label_mapping : option string) (nusc : option NuScenes) : IO t :=
  let imageset := default "train" imageset in
  let clss := default "clear" clss in
  let return_ref := default default_return_ref return_ref in
  let label_mapping := default "cycledense.yaml" label_mapping in
  semkittiyaml ← load_yaml E label_mapping;
  learning_map ← lift (doc_getitem "learning_map" (y_learning_map semkittiyaml));
  let pick (name : string) : result (list yaml_scalar) :=
    sp ← doc_getitem "split" (y_split semkittiyaml);
    dict_getitem KStr sp name in
  split ← lift
    (if decide (imageset +:+ clss = "trainclear") then pick "trainclear"
     else if decide (imageset +:+ clss = "trainrain") then pick "trainrain"
     else if decide (imageset +:+ clss = "trainfog") then pick "trainfog"
     else if decide (imageset +:+ clss = "valclear") then pick "valclear"
     else if decide (imageset +:+ clss = "valrain") then pick "valrain"
     else if decide (imageset +:+ clss = "valfog") then pick "valfog"
     else if decide (imageset +:+ clss = "testclear") then pick "testclear"
     else if decide (imageset +:+ clss = "testrain") then pick "testrain"
     else if decide (imageset +:+ clss = "testfog") then pick "testfog"
     else Err (Exception "Split must be train/val/test with class clear/rain/fog"));
  im_idx ← collect_paths E (Dense.folder_path data_path) split;
  mret (Build return_ref learning_map imageset im_idx).

Definition __len__ (self : t) : nat := length (im_idx self).

Definition __getitem__ (E : env) (self : t) (index : Z) : IO (list (tensor E)) :=
  path ← lift (list_getitem (im_idx self) index);
  raw_data ← load_channels E path;
  top ← lift (slice_rows raw_data 3);
  xyz ← lift (transpose_10 top);
  let data_tuple := [TFloat xyz] in
  if return_ref self then
    r3 ← lift (get_row raw_data 3);
    ref ← lift (reshape_rows_auto 1 r3);
    let data_tuple := (data_tuple ++ [TFloat ref])%list in
    emit (EvStdout (pretty (length data_tuple))) ;;
    mret data_tuple
  else mret data_tuple.

End CycleDense.

(** ** Variant D: [SemKITTI_nusc] *)

Module SemKITTI_nusc.

Record t := Build {
  return_ref : bool;
  learning_map : gmap Z Z;
  nusc_infos : list (gmap string string);
  data_path : string;
  nusc : option NuScenes;
}.

Definition default_return_ref : bool := false.

Definition __init__ (E : env) (data_path : string) (imageset : option string)
    (return_ref : option bool) (label_mapping : option string)
    (nusc : option NuScenes) : IO t :=
  let imageset := default "train" imageset in
  let return_ref := default default_return_ref return_ref in
  let label_mapping := default "nuscenes.yaml" label_mapping in
  data ← load_pickle E imageset;
  nuscenesyaml ← load_yaml E label_mapping;
  learning_map ← lift (doc_getitem "learning_map" (y_learning_map nuscenesyaml));
  nusc_infos ← lift (dict_getitem KStr data "infos");
  mret (Build return_ref learning_map nusc_infos data_path nusc).

Definition __len__ (self : t) : nat := length (nusc_infos self).

(** [nusc.get(table, token)]. *)
Definition nusc_get (nusc : option NuScenes) (table : string)
    (token : result string) : IO nusc_record :=
  n ← match nusc with
      | Some n => mret n
      | None => raise (AttributeError "get")
      end;
  token ← lift token;
  emit (EvCatalogue table token) ;;
  match nusc_table n table token with
  | Some r => mret r
  | None => raise (KeyError (KStr token))
  end.

(** How an index resolves, through the record of the pickled index and
    the two catalogue tables, to the label file and the scan file. *)
Definition resolves (self : t) (index : Z) (token sd labfile scan : string)
    : Prop :=
  ∃ info lp n sample sdata seg filename,
    py_index (nusc_infos self) index = Some info ∧
    info !! "lidar_path" = Some lp ∧
    nusc self = Some n ∧
    info !! "token" = Some token ∧
    nusc_table n "sample" token = Some sample ∧
    rec_data sample = Some sdata ∧
    sdata !! "LIDAR_TOP" = Some sd ∧
    nusc_table n "lidarseg" sd = Some seg ∧
    rec_filename seg = Some filename ∧
    labfile = os_path_join (dataroot n) filename ∧
    scan = os_path_join (data_path self) (str_drop 16 lp).

Definition __getitem__ (E : env) (self : t) (index : Z) : IO (list (tensor E)) :=
  info ← lift (list_getitem (nusc_infos self) index);
  lp ← lift (dict_getitem KStr info "lidar_path");
  let lidar_path := str_drop 16 lp in
  sample ← nusc_get (nusc self) "sample" (dict_getitem KStr info "token");
  sdata ← lift (doc_getitem "data" (rec_data sample));
  lidar_sd_token ← lift (dict_getitem KStr sdata "LIDAR_TOP");
  root ← match nusc self with
         | Some n => mret (dataroot n)
         | None => raise (AttributeError "dataroot")
         end;
  seg ← nusc_get (nusc self) "lidarseg" (Ok lidar_sd_token);
  filename ← lift (doc_getitem "filename" (rec_filename seg));
  let lidarseg_labels_filename := os_path_join root filename in
  lab ← np_fromfile E lidarseg_labels_filename 1 uint8_of_bytes;
  points_label ← lift (reshape_rows_auto 1 lab);
  points_label ← lift (np_vectorize (dict_getitem KInt (learning_map self)) points_label);
  pts ← np_fromfile E (os_path_join (data_path self) lidar_path) 4 (f32_of_bytes E);
  points ← lift (reshape_rows_auto 5 pts);
  xyz ← lift (slice_cols points 3);
  let data_tuple := [TFloat xyz; TInt uint8 (astype uint8 points_label)] in
  if return_ref self then
    ref ← lift (get_col points 3);
    mret (data_tuple ++ [TFloat ref])%list
  else mret data_tuple.

End SemKITTI_nusc.

(** ** [SemKITTI2train]: label arrays updated in place

    The helper changes the arrays it is given, so arrays live in a store
    and the helper receives and returns references to them. *)

Abbreviation loc := positive.

(** An integer array with its dtype. *)
Record larray := LArray { la_dtype : dtype; la_data : ndarray Z }.

Abbreviation store := (gmap loc larray).

(** The argument of [SemKITTI2train]: a list of arrays or one array. *)
Inductive labels_arg := PyList (l : list loc) | PyArray (r : loc).

(** [a[mask] = v]: the elements under a true mask entry are replaced. *)
Definition assign_where (mask : list bool) (v : Z) (l : list Z) : list Z :=
  zip_with (λ (m : bool) x, if m then v else x) mask l.

(** What the three statements of [SemKITTI2train_single] do to the
    array: the mask is taken before the decrement. *)
Definition single_update (label : larray) : larray :=
  let remove_ind := (λ z, bool_decide (z = 0%Z)) <$> flat (la_data label) in
  let label :=
    LArray (la_dtype label)
           (map_array (λ z, wrap (la_dtype label) (z - 1)) (la_data label)) in
  LArray (la_dtype label)
         (NdArray (shape (la_data label))
                  (assign_where remove_ind 255 (flat (la_data label)))).

Definition SemKITTI2train_single (label : loc) : M store loc :=
  σ ← get_state;
  put_state (alter single_update label σ) ;;
  mret label.

Definition SemKITTI2train (label : labels_arg) : M store labels_arg :=
  match label with
  | PyList l => rs ← mapM SemKITTI2train_single l; mret (PyList rs)
  | PyArray r => r' ← SemKITTI2train_single r; mret (PyArray r')
  end.

(** ** Label-name tables *)

(** A loop that threads an accumulator through a list. *)
Fixpoint foldM {A B} (f : B → A → result B) (b : B) (l : list A) : result B :=
  match l with
  | [] => Ok b
  | x :: l' => b' ← f b x; foldM f b' l'
  end.

(** [sorted(list(d.keys()))[::-1]]. *)
Definition keys_descending {V} (d : gmap Z V) : list Z :=
  reverse (merge_sort Z.le (map_to_list d).*1).

Definition get_SemKITTI_label_name (E : env) (label_mapping : string)
    : IO (gmap Z string) :=
  semkittiyaml ← load_yaml E label_mapping;
  learning_map ← lift (doc_getitem "learning_map" (y_learning_map semkittiyaml));
  lift (foldM (λ (SemKITTI_label_name : gmap Z string) i,
                 labels ← doc_getitem "labels" (y_labels semkittiyaml);
                 name ← dict_getitem KInt labels i;
                 mapped ← dict_getitem KInt learning_map i;
                 Ok (<[mapped := name]> SemKITTI_label_name))
              ∅ (keys_descending learning_map)).

Definition get_nuScenes_label_name (E : env) (label_mapping : string)
    : IO (gmap Z string) :=
  nuScenesyaml ← load_yaml E label_mapping;
  learning_map ← lift (doc_getitem "learning_map" (y_learning_map nuScenesyaml));
  lift (foldM (λ (nuScenes_label_name : gmap Z string) i,
                 val_ ← dict_getitem KInt learning_map i;
                 labels_16 ← doc_getitem "labels_16" (y_labels_16 nuScenesyaml);
                 name ← dict_getitem KInt labels_16 val_;
                 Ok (<[val_ := name]> nuScenes_label_name))
              ∅ (keys_descending learning_map)).

(** ** A small concrete world

    One scan of two points with its label file, two containers, a pickled
    index, and the label-mapping documents that go with them.  Floats are
    stood for by the integers their bytes spell. *)

Module Fixture.

Definition learning_map : gmap Z Z :=
  {[ 1%Z := 0%Z; 2%Z := 1%Z; 5%Z := 2%Z ]}.

Definition labels : gmap Z string :=
  {[ 1%Z := "car"; 2%Z := "bicycle"; 5%Z := "person" ]}.

Definition kitti_doc : yaml_doc :=
  YamlDoc (Some learning_map)
          (Some {[ "train" := [YInt 0]; "valid" := [YInt 8]; "test" := [YInt 11] ]})
          (Some labels) None.

(** A document whose validation split is filed under ["val"]. *)
Definition val_doc : yaml_doc :=
  YamlDoc (Some learning_map)
          (Some {[ "train" := [YInt 0]; "val" := [YInt 8]; "test" := [YInt 11] ]})
          (Some labels) None.

Definition dense_doc : yaml_doc :=
  YamlDoc (Some learning_map)
          (Some {[ "train" := [YStr "train_01"]; "valid" := [YStr "val_01"];
                   "test" := [YStr "test_01"]; "trainclear" := [YStr "train_01"] ]})
          (Some labels) None.

(** Two raw ids share the training label 0; [labels_16] names training
    labels. *)
Definition nusc_doc : yaml_doc :=
  YamlDoc (Some {[ 1%Z := 0%Z; 2%Z := 0%Z; 5%Z := 2%Z ]})
          None
          (Some {[ 1%Z := "animal"; 2%Z := "debris"; 5%Z := "car" ]})
          (Some {[ 0%Z := "noise"; 1%Z := "barrier"; 2%Z := "bicycle" ]}).

Definition yaml_safe_load (bs : list byte) : option yaml_doc :=
  match bs with
  | [x01] => Some kitti_doc
  | [x02] => Some val_doc
  | [x03] => Some dense_doc
  | [x04] => Some nusc_doc
  | _ => None
  end.

Definition grid (a b : Z) : ndarray Z := NdArray [1; 2] [a; b].

Definition container : gmap string (ndarray Z) :=
  {[ "sensorX_1" := grid 10 11; "sensorY_1" := grid 20 21;
     "sensorZ_1" := grid 30 31; "distance_m_1" := grid 40 41;
     "intensity_1" := grid 50 51; "labels_1" := grid 65537 5 ]}.

(** A container of a test split, stored without a label channel. *)
Definition unlabelled_container : gmap string (ndarray Z) :=
  delete "labels_1" container.

(** A container whose label channel holds the raw id 3, which the
    learning map does not know. *)
Definition stray_container : gmap string (ndarray Z) :=
  <["labels_1" := grid 1 3]> container.

Definition h5py_File (bs : list byte) : option (gmap string (ndarray Z)) :=
  match bs with
  | [x10] => Some container
  | [x11] => Some unlabelled_container
  | [x12] => Some stray_container
  | _ => None
  end.

Definition infos : list (gmap string string) :=
  [ {[ "lidar_path" := "./data/nuscenes/samples/LIDAR_TOP/0.bin";
       "token" := "tok0" ]};
    {[ "lidar_path" := "./data/nuscenes/samples/LIDAR_TOP/1.bin";
       "token" := "tok1" ]} ].

Definition pickle_load (bs : list byte) : option pickle_doc :=
  match bs with
  | [x20] => Some {[ "infos" := infos ]}
  | _ => None
  end.

(** Two points: sixteen bytes each, four little-endian words. *)
Definition scan_bytes : list byte :=
  [x01;x00;x00;x00; x02;x00;x00;x00; x03;x00;x00;x00; x04;x00;x00;x00;
   x05;x00;x00;x00; x06;x00;x00;x00; x07;x00;x00;x00; x08;x00;x00;x00].

(** Two labels: raw id 1 under instance id 7, raw id 5 under a high
    instance bit. *)
Definition label_bytes : list byte :=
  [x01;x00;x07;x00; x05;x00;x00;x80].

(** Two labels again, the second a raw id the learning map does not
    know. *)
Definition stray_label_bytes : list byte :=
  [x01;x00;x00;x00; x03;x00;x00;x00].

(** Two points of five words each, and their one-byte labels. *)
Definition nusc_scan_bytes : list byte :=
  [x01;x00;x00;x00; x02;x00;x00;x00; x03;x00;x00;x00; x04;x00;x00;x00; x00;x00;x00;x00;
   x05;x00;x00;x00; x06;x00;x00;x00; x07;x00;x00;x00; x08;x00;x00;x00; x00;x00;x00;x00].

Definition files : gmap string (list byte) :=
  list_to_map
    [ ("semantic-kitti.yaml", [x01]);
      ("val-only.yaml", [x02]);
      ("dense.yaml", [x03]);
      ("cycledense.yaml", [x03]);
      ("nuscenes.yaml", [x04]);
      ("/data/00/velodyne/000000.bin", scan_bytes);
      ("/data/00/labels/000000.label", label_bytes);
      ("/data/00/velodyne/000001.bin", scan_bytes);
      ("/data/00/labels/000001.label", stray_label_bytes);
      ("/data/11/velodyne/000000.bin", scan_bytes);
      ("/dense/train_01/a.hdf5", [x10]);
      ("/dense/train_01/c.hdf5", [x12]);
      ("/dense/test_01/a.hdf5", [x10]);
      ("/dense/test_01/b.hdf5", [x11]);
      ("infos_train.pkl", [x20]);
      ("/nusc/samples/LIDAR_TOP/0.bin", nusc_scan_bytes);
      ("/nusc/lidarseg/0_lidarseg.bin", [x01; x05]);
      ("/nusc/lidarseg/1_lidarseg.bin", [x01; x09]) ].

Definition os_walk (directory : string) : list (string * list string) :=
  if decide (directory = "/data/00/velodyne")
  then [("/data/00/velodyne", ["000000.bin"; "000001.bin"])]
  else if decide (directory = "/data/11/velodyne") then [("/data/11/velodyne", ["000000.bin"])]
  else if decide (directory = "/dense/train_01")
  then [("/dense/train_01", ["a.hdf5"; "c.hdf5"])]
  else if decide (directory = "/dense/test_01") then [("/dense/test_01", ["a.hdf5"; "b.hdf5"])]
  else [].

Definition E : env :=
  Env Z Z le_unsigned id (wrap int32) files os_walk id
      yaml_safe_load pickle_load h5py_File.

Definition nusc : NuScenes :=
  MkNuScenes "/nusc"
    (λ table token,
       if decide (table = "sample" ∧ token = "tok0")
       then Some (NuscRecord (Some {[ "LIDAR_TOP" := "sd0" ]}) None)
       else if decide (table = "lidarseg" ∧ token = "sd0")
       then Some (NuscRecord None (Some "lidarseg/0_lidarseg.bin"))
       else if decide (table = "sample" ∧ token = "tok1")
       then Some (NuscRecord (Some {[ "LIDAR_TOP" := "sd1" ]}) None)
       else if decide (table = "lidarseg" ∧ token = "sd1")
       then Some (NuscRecord None (Some "lidarseg/1_lidarseg.bin"))
       else None).

(** The dataset objects the constructors build over these files. *)
Definition sk (imageset : string) (return_ref : bool) (im_idx : list string)
    : SemKITTI_sk.t :=
  SemKITTI_sk.Build return_ref learning_map imageset im_idx.

Definition dense (imageset : string) (return_ref : bool) (im_idx : list string)
    : Dense.t :=
  Dense.Build return_ref learning_map imageset im_idx.

Definition cycledense (return_ref : bool) : CycleDense.t :=
  CycleDense.Build return_ref learning_map "train" ["/dense/train_01/a.hdf5"].

Definition nuscenes (return_ref : bool) : SemKITTI_nusc.t :=
  SemKITTI_nusc.Build return_ref
    {[ 1%Z := 0%Z; 2%Z := 0%Z; 5%Z := 2%Z ]} infos "/nusc" (Some nusc).

End Fixture.

(** ** The module at import *)

Definition module_name : string := "dataloader.pc_dataset".

Definition dataset_classes : list string :=
  ["SemKITTI_sk"; "Dense"; "CycleDense"; "SemKITTI_nusc"].

(** The registry starts empty and the four class definitions are
    decorated in the order of the file. *)
Definition import_module : M registry unit :=
  put_state ∅ ;;
  register_dataset (PyClass module_name "SemKITTI_sk") None ;;
  register_dataset (PyClass module_name "Dense") None ;;
  register_dataset (PyClass module_name "CycleDense") None ;;
  register_dataset (PyClass module_name "SemKITTI_nusc") None ;;
  mret tt.

(** ** The module run as a script *)




(** ** What properties are stated with *)


(** The split a three-way constructor takes: its key for every
    recognised [imageset]. *)
Definition split_keys : list (string * string) :=
  [("train", "train"); ("val", "valid"); ("test", "test")].

(** The splits of the class-partitioned variant. *)
Definition cycle_keys : list string :=
  ["trainclear"; "trainrain"; "trainfog"; "valclear"; "valrain"; "valfog";
   "testclear"; "testrain"; "testfog"].

(** The datasets a container is read for, in the order of the reads. *)
Definition channel_names : list string :=
  ["sensorX_1"; "sensorY_1"; "sensorZ_1"; "distance_m_1"; "intensity_1";
   "labels_1"].

(** What a run has printed. *)
Definition stdout (t : list event) : list string :=
  omap (λ e, match e with EvStdout line => Some line | _ => None end) t.

(** A computation that prints nothing, however it ends. *)
Definition quiet {A} (m : IO A) : Prop :=
  ∀ t t' r, run m t = (t', r) → stdout t' = stdout t.

(** ** Malformed inputs

    The concrete world again, with files that are cut short or empty,
    containers that miss a channel or do not agree on a shape, and
    documents that miss an entry. *)

Module Broken.

(** A class-partitioned split that lists a folder by number. *)
Definition numbered_doc : yaml_doc :=
  YamlDoc (Some Fixture.learning_map)
          (Some {[ "train" := [YStr "train_01"; YInt 2; YStr "train_03"];
                   "trainclear" := [YStr "train_01"; YInt 2] ]})
          (Some Fixture.labels) None.

(** Raw id 5 has no name, and training label 2 has none either. *)
Definition nameless_doc : yaml_doc :=
  YamlDoc (Some Fixture.learning_map)
          None
          (Some {[ 1%Z := "car"; 2%Z := "bicycle" ]})
          (Some {[ 0%Z := "noise"; 1%Z := "barrier" ]}).

(** An empty learning map, and nothing else. *)
Definition blank_doc : yaml_doc := YamlDoc (Some ∅) None None None.

Definition yaml_safe_load (bs : list byte) : option yaml_doc :=
  match bs with
  | [x05] => Some numbered_doc
  | [x06] => Some nameless_doc
  | [x07] => Some blank_doc
  | _ => Fixture.yaml_safe_load bs
  end.

(** The depth channel is missing. *)
Definition shallow_container : gmap string (ndarray Z) :=
  delete "sensorZ_1" Fixture.container.

(** The intensity channel has another shape than the rest. *)
Definition ragged_container : gmap string (ndarray Z) :=
  <["intensity_1" := NdArray [2; 1] [50; 51]%Z]> Fixture.container.

(** Six channels of no pixel. *)
Definition void_container : gmap string (ndarray Z) :=
  list_to_map ((λ n, (n, NdArray [0; 2] [])) <$> channel_names).

Definition h5py_File (bs : list byte) : option (gmap string (ndarray Z)) :=
  match bs with
  | [x13] => Some shallow_container
  | [x14] => Some ragged_container
  | [x15] => Some void_container
  | _ => Fixture.h5py_File bs
  end.

Definition files : gmap string (list byte) :=
  list_to_map
    [ ("numbered.yaml", [x05]);
      ("nameless.yaml", [x06]);
      ("blank.yaml", [x07]);
      ("/bad/00/velodyne/cut.bin", take 20 Fixture.scan_bytes);
      ("/bad/00/velodyne/empty.bin", []);
      ("/bad/00/velodyne/000000.bin", Fixture.scan_bytes);
      ("/bad/00/labels/000000.label", [x01; x00]);
      ("/bad/shallow.hdf5", [x13]);
      ("/bad/ragged.hdf5", [x14]);
      ("/bad/void.hdf5", [x15]);
      ("/bad/noise.hdf5", [x00]) ] ∪ Fixture.files.

Definition E : env :=
  Env Z Z le_unsigned id (wrap int32) files Fixture.os_walk id
      yaml_safe_load Fixture.pickle_load h5py_File.

End Broken.

(** ** The files of the script *)

(** The files the script names, over a data root that holds one
    container ([populated]) or nothing ([bare]). *)
Module Script.

Definition mapping : string :=
  "/home/jinwei/Cylinder3D/config/label_mapping/cycledense.yaml".

Definition files : gmap string (list byte) :=
  {[ mapping := [x03]; "/home/jinwei/dense/train_01/a.hdf5" := [x10] ]}.

Definition os_walk (directory : string) : list (string * list string) :=
  if decide (directory = "/home/jinwei/dense/train_01")
  then [("/home/jinwei/dense/train_01", ["a.hdf5"])]
  else [].



End Script.

(** * Properties *)

(** ** Running monadic code *)

Section run_lemmas.
Context {S : Type}.
Implicit Types s : S.

Lemma run_ret {A} (a : A) s : run (mret a) s = (s, Ok a).
Proof. reflexivity. Qed.

Lemma run_lift {A} (r : result A) s : run (lift r) s = (s, r).
Proof. reflexivity. Qed.

Lemma run_raise {A} (e : exn) s : run (raise e : M S A) s = (s, Err e).
Proof. reflexivity. Qed.

Lemma run_bind {A B} (m : M S A) (f : A → M S B) s :
  run (m ≫= f) s =
  match run m s with
  | (s', Err e) => (s', Err e)
  | (s', Ok a) => run (f a) s'
  end.
Proof. reflexivity. Qed.

Lemma run_bind_inv {A B} (m : M S A) (f : A → M S B) s s2 b :
  run (m ≫= f) s = (s2, Ok b) →
  ∃ s1 a, run m s = (s1, Ok a) ∧ run (f a) s1 = (s2, Ok b).
Proof.
  rewrite run_bind. destruct (run m s) as [s1 [a|e]]; [eauto|discriminate].
Qed.

End run_lemmas.

(** ** Tactics for concrete runs and for constructors *)

(** A run on concrete inputs: evaluate it, and give its final trace and
    result as the witnesses. *)
Ltac run_eq :=
  lazymatch goal with
  | |- _ = ?v => vm_cast_no_check (eq_refl v)
  end.

Ltac run_exists :=
  lazymatch goal with
  | |- ∃ t' r, run ?m ?t = (t', Ok r) ∧ _ =>
      let v := eval vm_compute in (run m t) in
      lazymatch v with
      | (?a, Ok ?b) =>
          let H := fresh "Hrun" in
          assert (H : run m t = (a, Ok b)) by run_eq;
          exists a, b; split; [exact H|]
      end
  end.

(** A decidable fact about concrete data. *)
Ltac by_decide := apply (bool_decide_unpack _); vm_compute; exact I.

(** A constructor that returned: its last step built the object. *)
Ltac inv_init H :=
  repeat (apply run_bind_inv in H as (? & ? & _ & H));
  rewrite run_ret in H; injection H as _ <-.

Lemma bind_Ok_inv {A B} (r : result A) (f : A → result B) b :
  r ≫= f = Ok b → ∃ a, r = Ok a ∧ f a = Ok b.
Proof. destruct r as [a|e]; [eauto|discriminate]. Qed.

Lemma run_emit e t : run (emit e) t = ((t ++ [e])%list, Ok tt).
Proof. reflexivity. Qed.

Lemma run_read_file E path t :
  run (read_file E path) t =
  ((t ++ [EvOpen path])%list,
   match fs E !! path with
   | Some bs => Ok bs
   | None => Err (FileNotFoundError path)
   end).
Proof.
  unfold read_file. rewrite run_bind, run_emit.
  destruct (fs E !! path); reflexivity.
Qed.

Lemma run_np_fromfile {A} E path k (dec : list byte → A) t :
  run (np_fromfile E path k dec) t =
  ((t ++ [EvOpen path])%list,
   match fs E !! path with
   | Some bs => Ok (NdArray [length bs / k] (items k dec bs))
   | None => Err (FileNotFoundError path)
   end).
Proof.
  unfold np_fromfile. rewrite run_bind, run_read_file.
  destruct (fs E !! path); reflexivity.
Qed.

Lemma run_load_yaml E path t :
  run (load_yaml E path) t =
  ((t ++ [EvOpen path])%list,
   match fs E !! path with
   | Some bs =>
       match yaml_safe_load E bs with
       | Some d => Ok d
       | None => Err (ParseError path)
       end
   | None => Err (FileNotFoundError path)
   end).
Proof.
  unfold load_yaml. rewrite run_bind, run_read_file.
  destruct (fs E !! path) as [bs|]; [|reflexivity].
  destruct (yaml_safe_load E bs); reflexivity.
Qed.

(** ** Dictionary lookups over a list *)

Section lookups.
Context `{Countable K} {V : Type}.
Implicit Types (d : gmap K V) (l : list K).






End lookups.

(** ** Lists and arrays *)

Lemma length_items {A} k (dec : list byte → A) bs :
  length (items k dec bs) = length bs / k.
Proof. unfold items. by rewrite length_fmap, length_seq. Qed.

Lemma omap_length_all {A B} (f : A → option B) (l : list A) :
  Forall (λ x, is_Some (f x)) l → length (omap f l) = length l.
Proof.
  induction 1 as [|x l [y Hy] _ IH]; [done|].
  cbn. rewrite Hy. cbn. by rewrite IH.
Qed.

Lemma length_column {A} c j r (l : list A) :
  j < c → (r * c ≤ length l)%nat → length (column c j r l) = r.
Proof.
  intros Hj Hl. unfold column.
  rewrite omap_length_all; [by rewrite length_seq|].
  apply Forall_forall. intros i Hi. apply elem_of_seq in Hi.
  apply lookup_lt_is_Some. nia.
Qed.

Lemma div_mul_exact n k : k ≠ 0 → n mod k = 0 → n / k * k = n.
Proof.
  intros Hk Hmod. pose proof (Nat.div_mod n k Hk). lia.
Qed.

(** ** Variant A *)

Section SemKITTI_sk_lemmas.
Import SemKITTI_sk.
Context (E : env).
Implicit Types (self : SemKITTI_sk.t) (t : list event).

Lemma sk_getitem_scan self index t t' r :
  run (__getitem__ E self index) t = (t', Ok r) →
  ∃ scan bs,
    py_index (im_idx self) index = Some scan ∧
    fs E !! scan = Some bs ∧
    (length bs / 4) mod 4 = 0.
Proof.
  unfold __getitem__.
  rewrite run_bind, run_lift. unfold list_getitem.
  destruct (py_index _ _) as [scan|] eqn:Hidx; [|discriminate].
  rewrite run_bind, run_np_fromfile.
  destruct (fs E !! scan) as [bs|] eqn:Hbs; [|discriminate].
  rewrite run_bind, run_lift. unfold reshape_rows_auto. cbn [flat].
  rewrite length_items.
  case_decide as Hmod; [|discriminate].
  intros _. exists scan, bs. tauto.
Qed.

Lemma sk_getitem_eq self index t scan bs :
  py_index (im_idx self) index = Some scan →
  fs E !! scan = Some bs →
  (length bs / 4) mod 4 = 0 →
  ∃ xyz ref : ndarray (float32 E),
    shape xyz = [length bs / 4 / 4; 3] ∧
    shape ref = [length bs / 4 / 4] ∧
    run (__getitem__ E self index) t =
    if decide (imageset self = "test") then
      ((t ++ [EvOpen scan])%list,
       Ok (TFloat xyz
           :: TInt uint8 (astype uint8
                (NdArray [length bs / 4 / 4; 1] (replicate (length bs / 4 / 4) 0%Z)))
           :: (if return_ref self then [TFloat ref] else [])))
    else
      ((t ++ [EvOpen scan; EvOpen (label_path scan)])%list,
       match fs E !! label_path scan with
       | None => Err (FileNotFoundError (label_path scan))
       | Some lbs =>
           match np_vectorize (dict_getitem KInt (learning_map self))
                   (NdArray [length lbs / 4; 1]
                      ((λ z, Z.land z 0xFFFF) <$> items 4 int32_of_bytes lbs)) with
           | Err e => Err e
           | Ok ann =>
               Ok (TFloat xyz :: TInt uint8 (astype uint8 ann)
                   :: (if return_ref self then [TFloat ref] else []))
           end
       end).
Proof.
  intros Hidx Hbs Hmod.
  eexists (NdArray _ _), (NdArray _ _). split; [|split]; cycle 2.
  - unfold __getitem__.
    rewrite run_bind, run_lift. unfold list_getitem. rewrite Hidx.
    rewrite run_bind, run_np_fromfile, Hbs.
    rewrite run_bind, run_lift. unfold reshape_rows_auto. cbn [flat].
    rewrite length_items.
    rewrite decide_True by (split; [lia|done]).
    rewrite run_bind.
    case_decide as Htest.
    + rewrite run_lift. unfold get_col. cbn [shape flat].
      rewrite decide_True by lia. cbn [mbind result_bind].
      unfold expand_dims_1, zeros_like. cbn [shape flat].
      rewrite length_column; [|lia|].
      2:{ rewrite length_items, div_mul_exact by done. lia. }
      rewrite run_bind, run_lift. unfold slice_cols. cbn [shape flat].
      change (3 `min` 4) with 3.
      destruct (return_ref self).
      * rewrite run_bind, run_lift. unfold get_col. cbn [shape flat].
        rewrite decide_True by lia. rewrite run_ret. reflexivity.
      * rewrite run_ret. reflexivity.
    + rewrite run_bind, run_np_fromfile.
      rewrite <- (assoc_L (++)). cbn [app].
      destruct (fs E !! label_path scan) as [lbs|]; [|reflexivity].
      rewrite run_bind, run_lift. cbn [flat]. rewrite length_items.
      rewrite decide_True by (split; [lia|apply Nat.mod_1_r]).
      rewrite Nat.div_1_r. rewrite run_lift.
      unfold map_array at 1. cbn [shape flat].
      destruct (np_vectorize _ _) as [ann|e]; [|reflexivity].
      rewrite run_bind, run_lift. unfold slice_cols. cbn [shape flat].
      change (3 `min` 4) with 3.
      destruct (return_ref self).
      * rewrite run_bind, run_lift. unfold get_col. cbn [shape flat].
        rewrite decide_True by lia. rewrite run_ret. reflexivity.
      * rewrite run_ret. reflexivity.
  - reflexivity.
  - reflexivity.
Qed.

End SemKITTI_sk_lemmas.

(** ** Interleaving and its inverse

    [np.dstack] interleaves its channels element by element;
    [transpose(2,0,1)] reads every channel back out. *)

Lemma omap_lookup_seq {A} (l : list A) :
  omap (λ i, l !! i) (seq 0 (length l)) = l.
Proof.
  induction l as [|x l IH] using rev_ind; [done|].
  rewrite length_app. cbn [length].
  rewrite Nat.add_1_r, seq_S, omap_app. cbn.
  rewrite lookup_app_r, Nat.sub_diag by done. cbn.
  f_equal. rewrite <- IH at 2.
  apply list_omap_ext, Forall2_same_length_lookup.
  split; [done|]. intros i a b Ha Hb.
  assert (a = b) as -> by congruence.
  apply lookup_seq in Hb as [-> Hb].
  by rewrite lookup_app_l.
Qed.

Lemma column_fmap {A B} (f : A → B) c j r (l : list A) :
  column c j r (f <$> l) = f <$> column c j r l.
Proof.
  unfold column. rewrite list_fmap_omap.
  apply list_omap_ext, Forall2_same_length_lookup.
  split; [done|]. intros i a b Ha Hb.
  assert (a = b) as -> by congruence.
  apply list_lookup_fmap.
Qed.

Lemma lookup_bind_blocks {A B} (f : A → list B) c (xs : list A) i k :
  (∀ x, x ∈ xs → length (f x) = c) → k < c →
  (xs ≫= f) !! (i * c + k)%nat = xs !! i ≫= λ x, f x !! k.
Proof.
  revert i. induction xs as [|x xs IH]; intros i Hlen Hk; [done|].
  cbn [mbind list_bind]. change (foldr _ _ _) with (xs ≫= f).
  assert (Hx : length (f x) = c) by (apply Hlen; by left).
  destruct i as [|i].
  - cbn. rewrite lookup_app_l by lia. done.
  - rewrite lookup_app_r by (rewrite Hx; lia).
    replace (S i * c + k - length (f x))%nat with (i * c + k)%nat
      by (rewrite Hx; lia).
    cbn [lookup list_lookup]. apply IH; [|done].
    intros y Hy. apply Hlen. by right.
Qed.

Lemma take_1_drop {A} (l : list A) p :
  take 1 (drop p l) = option_list (l !! p).
Proof.
  revert p. induction l as [|x l IH]; intros [|p]; try done.
  cbn. apply IH.
Qed.

(** Element [p] of every channel, channel after channel. *)
Lemma lookup_pixel {A} (ls : list (list A)) P p k l :
  Forall (λ l, length l = P) ls → p < P → ls !! k = Some l →
  (ls ≫= λ a, take 1 (drop p a)) !! k = l !! p.
Proof.
  intros Hlen Hp Hk.
  pose proof (lookup_bind_blocks (λ a, take 1 (drop p a)) 1 ls k 0) as Hb.
  rewrite Nat.mul_1_r, Nat.add_0_r in Hb. rewrite Hb; [|clear Hb|lia].
  - rewrite Hk. cbn. rewrite take_1_drop.
    assert (Hl : length l = P).
    { rewrite Forall_forall in Hlen. apply Hlen.
      by eapply list_elem_of_lookup_2. }
    destruct (lookup_lt_is_Some_2 l p) as [v Hv]; [lia|]. by rewrite Hv.
  - intros a Ha. rewrite Forall_forall in Hlen.
    rewrite take_1_drop.
    destruct (lookup_lt_is_Some_2 a p) as [v Hv]; [rewrite Hlen by done; lia|].
    by rewrite Hv.
Qed.

Lemma column_interleave {A} (ls : list (list A)) P k l :
  Forall (λ l, length l = P) ls → ls !! k = Some l →
  column (length ls) k P (seq 0 P ≫= λ p, ls ≫= λ a, take 1 (drop p a)) = l.
Proof.
  intros Hlen Hk.
  assert (Hl : length l = P).
  { rewrite Forall_forall in Hlen. apply Hlen.
    by eapply list_elem_of_lookup_2. }
  transitivity (omap (λ i, l !! i) (seq 0 P));
    [|rewrite <- Hl; apply omap_lookup_seq].
  unfold column.
  apply list_omap_ext, Forall2_same_length_lookup.
  split; [done|]. intros i a b Ha Hb.
  assert (a = b) as -> by congruence.
  apply lookup_seq in Hb as [-> Hb]. cbn.
  rewrite lookup_bind_blocks.
  - rewrite lookup_seq_lt by done. cbn.
    by apply (lookup_pixel ls P).
  - intros p Hp. apply elem_of_seq in Hp.
    clear Hk Ha. induction Hlen as [|a' ls' Ha' _ IH]; [done|].
    cbn. rewrite length_app, IH. rewrite take_1_drop.
    destruct (lookup_lt_is_Some_2 a' p) as [v Hv]; [lia|]. by rewrite Hv.
  - by eapply lookup_lt_Some.
Qed.

(** ** Containers *)

Section container_lemmas.
Context (E : env).
Implicit Types (t : list event) (f : h5file E).

Lemma run_open_h5 path t :
  run (open_h5 E path) t =
  ((t ++ [EvOpen path])%list,
   match fs E !! path with
   | None => Err (FileNotFoundError path)
   | Some bs =>
       match h5py_File E bs with
       | Some f => Ok f
       | None => Err (OSError path)
       end
   end).
Proof.
  unfold open_h5. rewrite run_bind, run_emit.
  destruct (fs E !! path) as [bs|]; [|reflexivity].
  destruct (h5py_File E bs); reflexivity.
Qed.

Lemma run_read_dataset path f name t :
  run (read_dataset E path f name) t =
  ((t ++ [EvDataset path name])%list,
   match f !! name with
   | None => Err (KeyError (KStr name))
   | Some d =>
       if decide (length (flat d) = numel (shape d)) then Ok d
       else Err (OSError path)
   end).
Proof.
  unfold read_dataset. rewrite run_bind, run_emit.
  rewrite run_bind, run_lift. unfold dict_getitem.
  destruct (f !! name) as [d|]; [|reflexivity].
  case_decide; reflexivity.
Qed.

Lemma reshape_cols_auto_Ok {A} k (a b : ndarray A) :
  reshape_cols_auto k a = Ok b →
  shape b = [k; length (flat a) / k] ∧ flat b = flat a ∧
  length (flat a) = (k * (length (flat a) / k))%nat.
Proof.
  unfold reshape_cols_auto. case_decide as Hk; [|discriminate].
  intros [= <-]. cbn. split; [done|]. split; [done|].
  destruct Hk as [Hk Hmod]. pose proof (Nat.div_mod (length (flat a)) k Hk). lia.
Qed.

(** A container that loads gives six rows of equal length, and every
    channel, the label channel included, has been read. *)
Lemma load_channels_Ok path t t' raw :
  run (load_channels E path) t = (t', Ok raw) →
  ∃ P bs f,
    shape raw = [6; P] ∧ length (flat raw) = (6 * P)%nat ∧
    t' = (t ++ container_reads path)%list ∧
    fs E !! path = Some bs ∧ h5py_File E bs = Some f ∧
    is_Some (f !! "labels_1").
Proof.
  unfold load_channels.
  rewrite run_bind, run_open_h5.
  destruct (fs E !! path) as [bs|] eqn:Hbs; [|discriminate].
  destruct (h5py_File E bs) as [f|] eqn:Hf; [|discriminate].
  do 6 (rewrite run_bind, run_read_dataset;
        match goal with
        | |- context [f !! ?n] =>
            let H := fresh "Hd" in
            destruct (f !! n) eqn:H; [|discriminate]
        end;
        case_decide; [|discriminate]).
  rewrite run_lift. intros [= <- Hraw].
  apply bind_Ok_inv in Hraw as (stacked & _ & Hraw).
  apply bind_Ok_inv in Hraw as (moved & _ & Hraw).
  apply reshape_cols_auto_Ok in Hraw as (Hsh & Hfl & Hlen).
  exists (length (flat moved) / 6), bs, f.
  rewrite Hfl. split; [done|]. split; [done|]. split.
  { rewrite <- !(assoc_L (++)). reflexivity. }
  split; [done|]. split; [done|]. rewrite Hd4. eauto.
Qed.

(** Without a label channel the container does not load. *)
Lemma load_channels_unlabelled path t bs f x y z distance intensity :
  fs E !! path = Some bs → h5py_File E bs = Some f →
  stored f "sensorX_1" x → stored f "sensorY_1" y → stored f "sensorZ_1" z →
  stored f "distance_m_1" distance → stored f "intensity_1" intensity →
  f !! "labels_1" = None →
  run (load_channels E path) t =
  ((t ++ container_reads path)%list, Err (KeyError (KStr "labels_1"))).
Proof.
  intros Hbs Hf [Hx Hx'] [Hy Hy'] [Hz Hz'] [Hd Hd'] [Hi Hi'] Hlab.
  unfold load_channels.
  rewrite run_bind, run_open_h5, Hbs, Hf.
  rewrite run_bind, run_read_dataset, Hx, decide_True by done.
  rewrite run_bind, run_read_dataset, Hy, decide_True by done.
  rewrite run_bind, run_read_dataset, Hz, decide_True by done.
  rewrite run_bind, run_read_dataset, Hd, decide_True by done.
  rewrite run_bind, run_read_dataset, Hi, decide_True by done.
  rewrite run_bind, run_read_dataset, Hlab.
  rewrite <- !(assoc_L (++)). reflexivity.
Qed.

(** Stacking grids of one shape. *)
Lemma np_dstack_grids {A} (arrs : list (ndarray A)) h w :
  arrs ≠ [] → Forall (λ a, shape a = [h; w]) arrs →
  np_dstack arrs =
  Ok (NdArray [h; w; length arrs]
        (seq 0 (h * w) ≫= λ p, (flat <$> arrs) ≫= λ a, take 1 (drop p a))).
Proof.
  intros Hne Hsh. unfold np_dstack.
  destruct arrs as [|a0 arrs']; [done|].
  assert (H0 : shape a0 = [h; w]) by (by apply Forall_cons in Hsh as [? _]).
  rewrite H0. cbn [atleast_3d take drop].
  rewrite decide_True.
  2:{ eapply Forall_impl; [exact Hsh|]. intros a Ha. cbn beta in Ha.
      rewrite Ha. done. }
  f_equal. f_equal.
  - cbn [app]. do 2 f_equal.
    rewrite (sum_list_fmap_same 1).
    + by rewrite Nat.mul_1_r.
    + eapply Forall_impl; [exact Hsh|]. intros a Ha. cbn beta in Ha.
      by rewrite Ha.
  - cbn [numel foldr]. rewrite Nat.mul_1_r.
    apply list_bind_ext; [|done]. intros p.
    rewrite list_fmap_bind.
    apply Forall_bind_ext.
    eapply Forall_impl; [exact Hsh|]. intros a Ha. cbn beta in Ha.
    cbn. rewrite Ha. cbn. by rewrite Nat.mul_1_r.
Qed.

(** What loading a well-formed container gives: one row per channel. *)
Lemma load_channels_eq path t bs f h w x y z distance intensity labels :
  fs E !! path = Some bs → h5py_File E bs = Some f →
  stored f "sensorX_1" x → stored f "sensorY_1" y → stored f "sensorZ_1" z →
  stored f "distance_m_1" distance → stored f "intensity_1" intensity →
  stored f "labels_1" labels →
  Forall (λ d, shape d = [h; w]) [x; y; z; distance; intensity; labels] →
  run (load_channels E path) t =
  ((t ++ container_reads path)%list,
   Ok (NdArray [6; h * w]
         (h5_to_f32 E <$>
            (flat x ++ flat y ++ flat z ++ flat distance ++ flat intensity
                    ++ flat labels)%list))).
Proof.
  intros Hbs Hf [Hx Hx'] [Hy Hy'] [Hz Hz'] [Hd Hd'] [Hi Hi'] [Hl Hl'] Hsh.
  unfold load_channels.
  rewrite run_bind, run_open_h5, Hbs, Hf.
  rewrite run_bind, run_read_dataset, Hx, decide_True by done.
  rewrite run_bind, run_read_dataset, Hy, decide_True by done.
  rewrite run_bind, run_read_dataset, Hz, decide_True by done.
  rewrite run_bind, run_read_dataset, Hd, decide_True by done.
  rewrite run_bind, run_read_dataset, Hi, decide_True by done.
  rewrite run_bind, run_read_dataset, Hl, decide_True by done.
  rewrite run_lift, <- !(assoc_L (++)). cbn [app]. f_equal.
  rewrite (np_dstack_grids _ h w) by done.
  match goal with |- context [NdArray [h; w; _] ?d] => set (D := d) end.
  cbn [mbind result_bind length]. unfold transpose_201, map_array.
  cbn [shape flat mbind result_bind].
  assert (Hlen : Forall (λ l : list (h5val E), length l = (h * w)%nat)
            (flat <$> [x; y; z; distance; intensity; labels])).
  { assert (Haux : ∀ d : ndarray (h5val E),
              shape d = [h; w] → length (flat d) = numel (shape d) →
              length (flat d) = (h * w)%nat)
      by (intros d Hs Hn; rewrite Hn, Hs; cbn; lia).
    pose proof Hsh as Hsh'.
    repeat (apply Forall_cons in Hsh' as [? Hsh']).
    apply Forall_fmap. repeat constructor; cbn; by apply Haux. }
  pose proof (λ k l, column_interleave
                (flat <$> [x; y; z; distance; intensity; labels])
                (h * w) k l Hlen) as Hcol.
  fold D in Hcol. cbn [length fmap list_fmap] in Hcol.
  cbn [seq mbind list_bind foldr].
  rewrite !column_fmap.
  rewrite (Hcol 0 (flat x)), (Hcol 1 (flat y)), (Hcol 2 (flat z)),
    (Hcol 3 (flat distance)), (Hcol 4 (flat intensity)),
    (Hcol 5 (flat labels)) by reflexivity.
  rewrite app_nil_r, <- !fmap_app.
  unfold reshape_cols_auto. cbn [flat].
  rewrite length_fmap, !length_app.
  apply Forall_fmap in Hlen. cbn in Hlen.
  repeat (apply Forall_cons in Hlen as [Hlen1 Hlen]; cbn in Hlen1;
          rewrite Hlen1; clear Hlen1).
  replace (h * w + _)%nat with (h * w * 6)%nat by lia.
  rewrite decide_True.
  2:{ split; [lia|]. apply Nat.Div0.mod_mul. }
  rewrite Nat.div_mul by lia. reflexivity.
Qed.

End container_lemmas.

(** ** Variants B and C *)

Lemma reshape_column_vector {A} (l : list A) (n : nat) :
  length l = n →
  reshape_rows_auto 1 (NdArray [n] l) = Ok (NdArray [n; 1] l).
Proof.
  intros Hl. unfold reshape_rows_auto. cbn [flat].
  rewrite decide_True by (split; [lia|apply Nat.mod_1_r]).
  by rewrite Nat.div_1_r, Hl.
Qed.

Lemma length_row {A} (l : list A) P i :
  length l = (6 * P)%nat → i < 6 → length (take P (drop (i * P) l)) = P.
Proof. intros Hl Hi. rewrite length_take, length_drop. nia. Qed.

Section Dense_lemmas.
Import Dense.
Context (E : env).
Implicit Types (self : Dense.t) (t : list event).

Lemma dense_getitem_loads self index t t' r :
  run (__getitem__ E self index) t = (t', Ok r) →
  ∃ path t1 raw,
    py_index (im_idx self) index = Some path ∧
    run (load_channels E path) t = (t1, Ok raw).
Proof.
  unfold __getitem__.
  rewrite run_bind, run_lift. unfold list_getitem.
  destruct (py_index _ _) as [path|] eqn:Hidx; [|discriminate].
  rewrite run_bind.
  destruct (run (load_channels E path) t) as [t1 [raw|e]] eqn:Hload;
    [|discriminate].
  intros _. eauto.
Qed.

Lemma dense_getitem_eq self index t path t1 raw P :
  py_index (im_idx self) index = Some path →
  run (load_channels E path) t = (t1, Ok raw) →
  shape raw = [6; P] → length (flat raw) = (6 * P)%nat →
  ∃ xyz ref : ndarray (float32 E),
    shape xyz = [P; 3] ∧
    ref = NdArray [P; 1] (take P (drop (3 * P) (flat raw))) ∧
    run (__getitem__ E self index) t =
    (t1,
     if decide (imageset self = "test") then
       if decide (0 < P) then
         Ok (TFloat xyz
             :: TInt uint8 (astype uint8 (NdArray [6; 1] (replicate 6 0%Z)))
             :: (if return_ref self then [TFloat ref] else []))
       else Err IndexError
     else
       match np_vectorize (dict_getitem KInt (learning_map self))
               (NdArray [P; 1]
                  ((λ z, Z.land z 0xFFFF) <$>
                   (f32_to_i32 E <$> take P (drop (5 * P) (flat raw))))) with
       | Err e => Err e
       | Ok ann =>
           Ok (TFloat xyz :: TInt uint8 (astype uint8 ann)
               :: (if return_ref self then [TFloat ref] else []))
       end).
Proof.
  intros Hidx Hload Hsh Hlen. destruct raw as [sh fl]. cbn in Hsh, Hlen.
  subst sh. cbn [flat].
  eexists (NdArray _ _), _. split; [|split]; cycle 2.
  - unfold __getitem__.
    rewrite run_bind, run_lift. unfold list_getitem. rewrite Hidx.
    rewrite run_bind, Hload.
    rewrite run_bind, run_lift.
    assert (Htail : ∀ ann : ndarray Z,
      run (lift (slice_rows (NdArray [6; P] fl) 3) ≫= λ top,
           lift (transpose_10 top) ≫= λ xyz,
           let data_tuple := [TFloat xyz; TInt uint8 (astype uint8 ann)] in
           if return_ref self
           then lift (get_row (NdArray [6; P] fl) 3) ≫= λ r3,
                lift (reshape_rows_auto 1 r3) ≫= λ ref,
                mret (data_tuple ++ [TFloat ref])%list
           else mret data_tuple) t1
      = (t1, Ok (TFloat (NdArray [P; 3]
                   (seq 0 P ≫= λ j, column P j 3 (take (3 * P) fl)))
                 :: TInt uint8 (astype uint8 ann)
                 :: (if return_ref self
                     then [TFloat (NdArray [P; 1] (take P (drop (3 * P) fl)))]
                     else [])))).
    { intros ann. rewrite run_bind, run_lift.
      unfold slice_rows. cbn [shape flat]. change (3 `min` 6) with 3.
      rewrite run_bind, run_lift. unfold transpose_10. cbn [shape flat].
      cbn zeta. destruct (return_ref self).
      - rewrite run_bind, run_lift. unfold get_row. cbn [shape flat].
        rewrite decide_True by lia.
        rewrite run_bind, run_lift.
        rewrite reshape_column_vector by (by apply length_row; [|lia]).
        rewrite run_ret. reflexivity.
      - rewrite run_ret. reflexivity. }
    case_decide as Htest.
    + unfold get_col. cbn [shape flat].
      case_decide as HP; [|reflexivity].
      cbn [mbind result_bind]. unfold expand_dims_1, zeros_like.
      cbn [shape flat].
      rewrite length_column by (lia || (rewrite Hlen; lia)).
      apply Htail.
    + unfold get_row. cbn [shape flat]. rewrite decide_True by lia.
      cbn [mbind result_bind]. unfold map_array at 2. cbn [shape flat].
      rewrite reshape_column_vector
        by (rewrite length_fmap; by apply length_row; [|lia]).
      cbn [mbind result_bind]. unfold map_array at 1. cbn [shape flat].
      destruct (np_vectorize _ _) as [ann|e]; [|reflexivity].
      apply Htail.
  - reflexivity.
  - reflexivity.
Qed.

End Dense_lemmas.

Section CycleDense_lemmas.
Import CycleDense.
Context (E : env).
Implicit Types (self : CycleDense.t) (t : list event).

Lemma cycledense_getitem_loads self index t t' r :
  run (__getitem__ E self index) t = (t', Ok r) →
  ∃ path t1 raw,
    py_index (im_idx self) index = Some path ∧
    run (load_channels E path) t = (t1, Ok raw).
Proof.
  unfold __getitem__.
  rewrite run_bind, run_lift. unfold list_getitem.
  destruct (py_index _ _) as [path|] eqn:Hidx; [|discriminate].
  rewrite run_bind.
  destruct (run (load_channels E path) t) as [t1 [raw|e]] eqn:Hload;
    [|discriminate].
  intros _. eauto.
Qed.

Lemma cycledense_getitem_eq self index t path t1 raw P :
  py_index (im_idx self) index = Some path →
  run (load_channels E path) t = (t1, Ok raw) →
  shape raw = [6; P] → length (flat raw) = (6 * P)%nat →
  ∃ xyz : ndarray (float32 E),
    shape xyz = [P; 3] ∧
    run (__getitem__ E self index) t =
    if return_ref self then
      ((t1 ++ [EvStdout "2"])%list,
       Ok [TFloat xyz;
           TFloat (NdArray [P; 1] (take P (drop (3 * P) (flat raw))))])
    else (t1, Ok [TFloat xyz]).
Proof.
  intros Hidx Hload Hsh Hlen. destruct raw as [sh fl]. cbn in Hsh, Hlen.
  subst sh. cbn [flat].
  eexists (NdArray _ _). split; cycle 1.
  - unfold __getitem__.
    rewrite run_bind, run_lift. unfold list_getitem. rewrite Hidx.
    rewrite run_bind, Hload.
    rewrite run_bind, run_lift.
    unfold slice_rows. cbn [shape flat]. change (3 `min` 6) with 3.
    rewrite run_bind, run_lift. unfold transpose_10. cbn [shape flat].
    cbn zeta. destruct (return_ref self).
    + rewrite run_bind, run_lift. unfold get_row. cbn [shape flat].
      rewrite decide_True by lia.
      rewrite run_bind, run_lift.
      rewrite reshape_column_vector by (by apply length_row; [|lia]).
      rewrite run_bind, run_emit, run_ret. reflexivity.
    + rewrite run_ret. reflexivity.
  - reflexivity.
Qed.

End CycleDense_lemmas.

(** ** Variant D *)

Section SemKITTI_nusc_lemmas.
Import SemKITTI_nusc.
Context (E : env).
Implicit Types (self : SemKITTI_nusc.t) (t : list event).

Lemma nusc_getitem_resolves self index t t' r :
  run (__getitem__ E self index) t = (t', Ok r) →
  ∃ token sd labfile scan lbs bs,
    resolves self index token sd labfile scan ∧
    fs E !! labfile = Some lbs ∧ fs E !! scan = Some bs ∧
    (length bs / 4) mod 5 = 0.
Proof.
  unfold __getitem__.
  rewrite run_bind, run_lift. unfold list_getitem.
  destruct (py_index _ _) as [info|] eqn:Hidx; [|discriminate].
  rewrite run_bind, run_lift. unfold dict_getitem at 1.
  destruct (info !! "lidar_path") as [lp|] eqn:Hlp; [|discriminate].
  rewrite run_bind. unfold nusc_get at 1.
  destruct (nusc self) as [n|] eqn:Hn; [|discriminate].
  rewrite run_bind, run_ret, run_bind, run_lift. unfold dict_getitem at 1.
  destruct (info !! "token") as [token|] eqn:Htok; [|discriminate].
  rewrite run_bind, run_emit.
  destruct (nusc_table n "sample" token) as [sample|] eqn:Hsample;
    [|discriminate].
  rewrite run_ret, run_bind, run_lift. unfold doc_getitem at 1.
  destruct (rec_data sample) as [sdata|] eqn:Hdata; [|discriminate].
  rewrite run_bind, run_lift. unfold dict_getitem at 1.
  destruct (sdata !! "LIDAR_TOP") as [sd|] eqn:Hsd; [|discriminate].
  rewrite run_bind, run_ret, run_bind. unfold nusc_get.
  rewrite run_bind, run_ret, run_bind, run_lift, run_bind, run_emit.
  destruct (nusc_table n "lidarseg" sd) as [seg|] eqn:Hseg; [|discriminate].
  rewrite run_ret, run_bind, run_lift. unfold doc_getitem.
  destruct (rec_filename seg) as [filename|] eqn:Hfn; [|discriminate].
  rewrite run_bind, run_np_fromfile.
  destruct (fs E !! os_path_join (dataroot n) filename) as [lbs|] eqn:Hlbs;
    [|discriminate].
  rewrite run_bind, run_lift.
  destruct (reshape_rows_auto 1 _) as [lab|e]; [|discriminate].
  rewrite run_bind, run_lift.
  destruct (np_vectorize _ lab) as [ann|e]; [|discriminate].
  rewrite run_bind, run_np_fromfile.
  destruct (fs E !! os_path_join (data_path self) (str_drop 16 lp))
    as [bs|] eqn:Hbs; [|discriminate].
  rewrite run_bind, run_lift. unfold reshape_rows_auto. cbn [flat].
  rewrite length_items. case_decide as Hmod; [|discriminate].
  intros _. eexists token, sd, _, _, lbs, bs.
  split; [|split; [exact Hlbs|split; [exact Hbs|tauto]]].
  unfold resolves. eexists info, lp, n, sample, sdata, seg, filename.
  repeat (split; [done|]). done.
Qed.

Lemma nusc_getitem_eq self index t token sd labfile scan lbs :
  resolves self index token sd labfile scan →
  fs E !! labfile = Some lbs →
  run (__getitem__ E self index) t =
  match np_vectorize (dict_getitem KInt (learning_map self))
          (NdArray [length lbs; 1] (items 1 uint8_of_bytes lbs)) with
  | Err e =>
      ((t ++ [EvCatalogue "sample" token; EvCatalogue "lidarseg" sd;
              EvOpen labfile])%list, Err e)
  | Ok ann =>
      ((t ++ [EvCatalogue "sample" token; EvCatalogue "lidarseg" sd;
              EvOpen labfile; EvOpen scan])%list,
       match fs E !! scan with
       | None => Err (FileNotFoundError scan)
       | Some bs =>
           if decide ((length bs / 4) mod 5 = 0) then
             Ok (TFloat (NdArray [length bs / 4 / 5; 3]
                           (seq 0 (length bs / 4 / 5) ≫= λ i,
                            take 3 (drop (i * 5) (items 4 (f32_of_bytes E) bs))))
                 :: TInt uint8 (astype uint8 ann)
                 :: (if return_ref self
                     then [TFloat (NdArray [length bs / 4 / 5]
                                     (column 5 3 (length bs / 4 / 5)
                                        (items 4 (f32_of_bytes E) bs)))]
                     else []))
           else Err (ValueError "cannot reshape array")
       end)
  end.
Proof.
  intros (info & lp & n & sample & sdata & seg & filename & Hidx & Hlp & Hn
          & Htok & Hsample & Hdata & Hsd & Hseg & Hfn & -> & ->) Hlbs.
  unfold __getitem__.
  rewrite run_bind, run_lift. unfold list_getitem. rewrite Hidx.
  rewrite run_bind, run_lift. unfold dict_getitem at 1. rewrite Hlp.
  rewrite run_bind. unfold nusc_get at 1. rewrite Hn.
  rewrite run_bind, run_ret, run_bind, run_lift. unfold dict_getitem at 1.
  rewrite Htok, run_bind, run_emit, Hsample.
  rewrite run_ret, run_bind, run_lift. unfold doc_getitem at 1. rewrite Hdata.
  rewrite run_bind, run_lift. unfold dict_getitem at 1. rewrite Hsd.
  rewrite run_bind, run_ret, run_bind. unfold nusc_get.
  rewrite run_bind, run_ret, run_bind, run_lift, run_bind, run_emit, Hseg.
  rewrite run_ret, run_bind, run_lift. unfold doc_getitem. rewrite Hfn.
  rewrite run_bind, run_np_fromfile, Hlbs.
  rewrite run_bind, run_lift.
  rewrite Nat.div_1_r.
  rewrite reshape_column_vector by (by rewrite length_items, Nat.div_1_r).
  rewrite run_bind, run_lift.
  rewrite <- !(assoc_L (++)). cbn [app].
  destruct (np_vectorize _ _) as [ann|e]; [|reflexivity].
  rewrite run_bind, run_np_fromfile.
  rewrite <- !(assoc_L (++)). cbn [app].
  destruct (fs E !! os_path_join (data_path self) (str_drop 16 lp))
    as [bs|]; [|reflexivity].
  rewrite run_bind, run_lift. unfold reshape_rows_auto. cbn [flat].
  rewrite length_items. case_decide as Hmod.
  - rewrite decide_True by tauto.
    rewrite run_bind, run_lift. unfold slice_cols. cbn [shape flat].
    change (3 `min` 5) with 3.
    destruct (return_ref self).
    + rewrite run_bind, run_lift. unfold get_col. cbn [shape flat].
      rewrite decide_True by lia. rewrite run_ret. reflexivity.
    + rewrite run_ret. reflexivity.
  - rewrite decide_False by (intros ?; apply Hmod; split; [lia|done]).
    reflexivity.
Qed.

End SemKITTI_nusc_lemmas.

(** ** Construction *)

Lemma run_collect_paths {A} E (dir : A → result string) split ds t :
  Forall2 (λ x d, dir x = Ok d) split ds →
  run (collect_paths E dir split) t =
  ((t ++ (EvWalk <$> ds))%list, Ok (ds ≫= walk_files E)).
Proof.
  intros HF. revert t. induction HF as [|x d split ds Hx _ IH]; intros t.
  - cbn. by rewrite app_nil_r.
  - cbn [collect_paths]. rewrite run_bind, run_lift, Hx.
    rewrite run_bind. unfold absoluteFilePaths at 1.
    rewrite run_bind, run_emit, run_ret.
    rewrite run_bind, IH, run_ret.
    rewrite <- (assoc_L (++)). reflexivity.
Qed.

(** The same when the directory of a split entry is always defined. *)
Lemma run_collect_paths_total {A} E (dir : A → string) split t :
  run (collect_paths E (λ x, Ok (dir x)) split) t =
  ((t ++ (EvWalk <$> (dir <$> split)))%list,
   Ok ((dir <$> split) ≫= walk_files E)).
Proof.
  apply run_collect_paths. apply Forall2_fmap_r, Forall_Forall2_diag.
  by apply Forall_true.
Qed.

Section constructors.
Context (E : env).
Implicit Types (t : list event) (doc : yaml_doc).

(** The three-way constructors up to the choice of the split. *)
Lemma sk_init_unrecognized data_path imageset return_ref label_mapping nusc t :
  default "train" imageset ∉ ["train"; "val"; "test"] →
  run (SemKITTI_sk.__init__ E data_path imageset return_ref label_mapping nusc) t =
  ((t ++ [EvOpen (default "semantic-kitti.yaml" label_mapping)])%list,
   match fs E !! default "semantic-kitti.yaml" label_mapping with
   | None => Err (FileNotFoundError (default "semantic-kitti.yaml" label_mapping))
   | Some bs =>
       match yaml_safe_load E bs with
       | None => Err (ParseError (default "semantic-kitti.yaml" label_mapping))
       | Some doc =>
           match y_learning_map doc with
           | None => Err (KeyError (KStr "learning_map"))
           | Some _ => Err (Exception "Split must be train/val/test")
           end
       end
   end).
Proof.
  intros Hnot. rewrite !not_elem_of_cons in Hnot.
  destruct Hnot as (? & ? & ? & _).
  unfold SemKITTI_sk.__init__. cbn zeta.
  rewrite run_bind, run_load_yaml.
  destruct (fs E !! _) as [bs|]; [|reflexivity].
  destruct (yaml_safe_load E bs) as [doc|]; [|reflexivity].
  rewrite run_bind, run_lift.
  destruct (y_learning_map doc); [|reflexivity]. cbn [doc_getitem].
  rewrite run_bind, run_lift.
  rewrite !decide_False by done. reflexivity.
Qed.

Lemma dense_init_unrecognized data_path imageset return_ref label_mapping nusc t :
  default "train" imageset ∉ ["train"; "val"; "test"] →
  run (Dense.__init__ E data_path imageset return_ref label_mapping nusc) t =
  ((t ++ [EvOpen (default "dense.yaml" label_mapping)])%list,
   match fs E !! default "dense.yaml" label_mapping with
   | None => Err (FileNotFoundError (default "dense.yaml" label_mapping))
   | Some bs =>
       match yaml_safe_load E bs with
       | None => Err (ParseError (default "dense.yaml" label_mapping))
       | Some doc =>
           match y_learning_map doc with
           | None => Err (KeyError (KStr "learning_map"))
           | Some _ => Err (Exception "Split must be train/val/test")
           end
       end
   end).
Proof.
  intros Hnot. rewrite !not_elem_of_cons in Hnot.
  destruct Hnot as (? & ? & ? & _).
  unfold Dense.__init__. cbn zeta.
  rewrite run_bind, run_load_yaml.
  destruct (fs E !! _) as [bs|]; [|reflexivity].
  destruct (yaml_safe_load E bs) as [doc|]; [|reflexivity].
  rewrite run_bind, run_lift.
  destruct (y_learning_map doc); [|reflexivity]. cbn [doc_getitem].
  rewrite run_bind, run_lift.
  rewrite !decide_False by done. reflexivity.
Qed.

Lemma cycledense_init_unrecognized data_path imageset clss return_ref
    label_mapping nusc t :
  default "train" imageset +:+ default "clear" clss
    ∉ ["trainclear"; "trainrain"; "trainfog"; "valclear"; "valrain"; "valfog";
       "testclear"; "testrain"; "testfog"] →
  run (CycleDense.__init__ E data_path imageset clss return_ref label_mapping nusc) t =
  ((t ++ [EvOpen (default "cycledense.yaml" label_mapping)])%list,
   match fs E !! default "cycledense.yaml" label_mapping with
   | None => Err (FileNotFoundError (default "cycledense.yaml" label_mapping))
   | Some bs =>
       match yaml_safe_load E bs with
       | None => Err (ParseError (default "cycledense.yaml" label_mapping))
       | Some doc =>
           match y_learning_map doc with
           | None => Err (KeyError (KStr "learning_map"))
           | Some _ =>
               Err (Exception "Split must be train/val/test with class clear/rain/fog")
           end
       end
   end).
Proof.
  intros Hnot. rewrite !not_elem_of_cons in Hnot.
  destruct Hnot as (? & ? & ? & ? & ? & ? & ? & ? & ? & _).
  unfold CycleDense.__init__. cbn zeta.
  rewrite run_bind, run_load_yaml.
  destruct (fs E !! _) as [bs|]; [|reflexivity].
  destruct (yaml_safe_load E bs) as [doc|]; [|reflexivity].
  rewrite run_bind, run_lift.
  destruct (y_learning_map doc); [|reflexivity]. cbn [doc_getitem].
  rewrite run_bind, run_lift.
  rewrite !decide_False by done. reflexivity.
Qed.

End constructors.

(** ** What a successful access returns *)

Lemma sk_getitem_Ok E (self : SemKITTI_sk.t) index t t' r :
  run (SemKITTI_sk.__getitem__ E self index) t = (t', Ok r) →
  ∃ scan bs (xyz ref : ndarray (float32 E)) (ann : ndarray Z),
    py_index (SemKITTI_sk.im_idx self) index = Some scan ∧
    fs E !! scan = Some bs ∧
    shape xyz = [length bs / 4 / 4; 3] ∧
    shape ref = [length bs / 4 / 4] ∧
    r = TFloat xyz :: TInt uint8 (astype uint8 ann)
        :: (if SemKITTI_sk.return_ref self then [TFloat ref] else []) ∧
    if decide (SemKITTI_sk.imageset self = "test") then
      t' = (t ++ [EvOpen scan])%list ∧
      ann = NdArray [length bs / 4 / 4; 1] (replicate (length bs / 4 / 4) 0%Z)
    else
      ∃ lbs,
        fs E !! SemKITTI_sk.label_path scan = Some lbs ∧
        t' = (t ++ [EvOpen scan; EvOpen (SemKITTI_sk.label_path scan)])%list ∧
        np_vectorize (dict_getitem KInt (SemKITTI_sk.learning_map self))
          (NdArray [length lbs / 4; 1]
             ((λ z, Z.land z 0xFFFF) <$> items 4 int32_of_bytes lbs)) = Ok ann.
Proof.
  intros Hrun.
  destruct (sk_getitem_scan _ _ _ _ _ _ Hrun) as (scan & bs & Hidx & Hbs & Hmod).
  destruct (sk_getitem_eq E self index t scan bs Hidx Hbs Hmod)
    as (xyz & ref & Hxyz & Href & Heq).
  rewrite Heq in Hrun. clear Heq.
  exists scan, bs, xyz, ref.
  case_decide as Htest.
  - injection Hrun as <- <-. eexists. repeat (split; [done|]). done.
  - destruct (fs E !! SemKITTI_sk.label_path scan) as [lbs|] eqn:Hlbs;
      [|discriminate].
    destruct (np_vectorize _ _) as [ann|e] eqn:Hvec; [|discriminate].
    injection Hrun as <- <-. exists ann. repeat (split; [done|]). eauto.
Qed.

Lemma dense_getitem_Ok E (self : Dense.t) index t t' r :
  run (Dense.__getitem__ E self index) t = (t', Ok r) →
  ∃ path P (raw xyz : ndarray (float32 E)) (ann : ndarray Z),
    py_index (Dense.im_idx self) index = Some path ∧
    run (load_channels E path) t = (t', Ok raw) ∧
    shape raw = [6; P] ∧ length (flat raw) = (6 * P)%nat ∧
    shape xyz = [P; 3] ∧
    r = TFloat xyz :: TInt uint8 (astype uint8 ann)
        :: (if Dense.return_ref self
            then [TFloat (NdArray [P; 1] (take P (drop (3 * P) (flat raw))))]
            else []) ∧
    if decide (Dense.imageset self = "test") then
      0 < P ∧ ann = NdArray [6; 1] (replicate 6 0%Z)
    else
      np_vectorize (dict_getitem KInt (Dense.learning_map self))
        (NdArray [P; 1]
           ((λ z, Z.land z 0xFFFF) <$>
            (f32_to_i32 E <$> take P (drop (5 * P) (flat raw))))) = Ok ann.
Proof.
  intros Hrun.
  destruct (dense_getitem_loads _ _ _ _ _ _ Hrun) as (path & t1 & raw & Hidx & Hload).
  destruct (load_channels_Ok _ _ _ _ _ Hload) as (P & bs & f & Hsh & Hlen & _).
  destruct (dense_getitem_eq E self index t path t1 raw P Hidx Hload Hsh Hlen)
    as (xyz & ref & Hxyz & -> & Heq).
  rewrite Heq in Hrun. clear Heq.
  exists path, P, raw, xyz.
  case_decide as Htest.
  - case_decide as HP; [|discriminate].
    injection Hrun as <- <-. eexists. repeat (split; [done|]). done.
  - destruct (np_vectorize _ _) as [ann|e] eqn:Hvec; [|discriminate].
    injection Hrun as <- <-. exists ann. repeat (split; [done|]). done.
Qed.

Lemma cycledense_getitem_Ok E (self : CycleDense.t) index t t' r :
  run (CycleDense.__getitem__ E self index) t = (t', Ok r) →
  ∃ path t1 P (raw xyz : ndarray (float32 E)),
    py_index (CycleDense.im_idx self) index = Some path ∧
    run (load_channels E path) t = (t1, Ok raw) ∧
    shape raw = [6; P] ∧ length (flat raw) = (6 * P)%nat ∧
    shape xyz = [P; 3] ∧
    if CycleDense.return_ref self then
      t' = (t1 ++ [EvStdout "2"])%list ∧
      r = [TFloat xyz;
           TFloat (NdArray [P; 1] (take P (drop (3 * P) (flat raw))))]
    else t' = t1 ∧ r = [TFloat xyz].
Proof.
  intros Hrun.
  destruct (cycledense_getitem_loads _ _ _ _ _ _ Hrun)
    as (path & t1 & raw & Hidx & Hload).
  destruct (load_channels_Ok _ _ _ _ _ Hload) as (P & bs & f & Hsh & Hlen & _).
  destruct (cycledense_getitem_eq E self index t path t1 raw P Hidx Hload Hsh Hlen)
    as (xyz & Hxyz & Heq).
  rewrite Heq in Hrun. clear Heq.
  exists path, t1, P, raw, xyz. repeat (split; [done|]).
  destruct (CycleDense.return_ref self); injection Hrun as <- <-; done.
Qed.

Lemma nusc_getitem_Ok E (self : SemKITTI_nusc.t) index t t' r :
  run (SemKITTI_nusc.__getitem__ E self index) t = (t', Ok r) →
  ∃ token sd labfile scan lbs bs (xyz ref : ndarray (float32 E)) (ann : ndarray Z),
    SemKITTI_nusc.resolves self index token sd labfile scan ∧
    fs E !! labfile = Some lbs ∧ fs E !! scan = Some bs ∧
    shape xyz = [length bs / 4 / 5; 3] ∧
    shape ref = [length bs / 4 / 5] ∧
    r = TFloat xyz :: TInt uint8 (astype uint8 ann)
        :: (if SemKITTI_nusc.return_ref self then [TFloat ref] else []) ∧
    t' = (t ++ [EvCatalogue "sample" token; EvCatalogue "lidarseg" sd;
                EvOpen labfile; EvOpen scan])%list ∧
    np_vectorize (dict_getitem KInt (SemKITTI_nusc.learning_map self))
      (NdArray [length lbs; 1] (items 1 uint8_of_bytes lbs)) = Ok ann.
Proof.
  intros Hrun.
  destruct (nusc_getitem_resolves _ _ _ _ _ _ Hrun)
    as (token & sd & labfile & scan & lbs & bs & Hres & Hlbs & Hbs & Hmod).
  rewrite (nusc_getitem_eq E self index t token sd labfile scan lbs Hres Hlbs)
    in Hrun.
  destruct (np_vectorize _ _) as [ann|e] eqn:Hvec; [|discriminate].
  rewrite Hbs, decide_True in Hrun by done.
  injection Hrun as <- <-.
  eexists token, sd, labfile, scan, lbs, bs, (NdArray _ _), (NdArray _ _), ann.
  repeat (split; [done|]). done.
Qed.

(** * The claims *)

(** C3 (as the code has it).  A split the variant does not recognise
    ([imageset], or [imageset + clss] for the class-partitioned variant)
    makes the constructor fail, but only after it has opened and parsed
    the label-mapping file and taken its [learning_map]: when that load
    succeeds the failure is the "must be train/val/test" error, raised
    with the mapping file as the only file touched, whatever the data
    root is (it is never walked, so it need not exist); when the mapping
    file cannot be opened, the failure is the file error instead. *)
Theorem unrecognized_split_fails_after_mapping (E : env) (data_path : string)
    (imageset clss : option string) (return_ref : option bool)
    (label_mapping : option string) (nusc : option NuScenes)
    (t : list event) (bs : list byte) (doc : yaml_doc) :
  (default "train" imageset ∉ ["train"; "val"; "test"] →
   (fs E !! default "semantic-kitti.yaml" label_mapping = Some bs →
    yaml_safe_load E bs = Some doc → is_Some (y_learning_map doc) →
    run (SemKITTI_sk.__init__ E data_path imageset return_ref label_mapping nusc) t
    = ((t ++ [EvOpen (default "semantic-kitti.yaml" label_mapping)])%list,
       Err (Exception "Split must be train/val/test"))) ∧
   (fs E !! default "semantic-kitti.yaml" label_mapping = None →
    run (SemKITTI_sk.__init__ E data_path imageset return_ref label_mapping nusc) t
    = ((t ++ [EvOpen (default "semantic-kitti.yaml" label_mapping)])%list,
       Err (FileNotFoundError (default "semantic-kitti.yaml" label_mapping)))) ∧
   (fs E !! default "dense.yaml" label_mapping = Some bs →
    yaml_safe_load E bs = Some doc → is_Some (y_learning_map doc) →
    run (Dense.__init__ E data_path imageset return_ref label_mapping nusc) t
    = ((t ++ [EvOpen (default "dense.yaml" label_mapping)])%list,
       Err (Exception "Split must be train/val/test"))) ∧
   (fs E !! default "dense.yaml" label_mapping = None →
    run (Dense.__init__ E data_path imageset return_ref label_mapping nusc) t
    = ((t ++ [EvOpen (default "dense.yaml" label_mapping)])%list,
       Err (FileNotFoundError (default "dense.yaml" label_mapping))))) ∧
  (default "train" imageset +:+ default "clear" clss
     ∉ ["trainclear"; "trainrain"; "trainfog"; "valclear"; "valrain"; "valfog";
        "testclear"; "testrain"; "testfog"] →
   (fs E !! default "cycledense.yaml" label_mapping = Some bs →
    yaml_safe_load E bs = Some doc → is_Some (y_learning_map doc) →
    run (CycleDense.__init__ E data_path imageset clss return_ref label_mapping nusc) t
    = ((t ++ [EvOpen (default "cycledense.yaml" label_mapping)])%list,
       Err (Exception "Split must be train/val/test with class clear/rain/fog"))) ∧
   (fs E !! default "cycledense.yaml" label_mapping = None →
    run (CycleDense.__init__ E data_path imageset clss return_ref label_mapping nusc) t
    = ((t ++ [EvOpen (default "cycledense.yaml" label_mapping)])%list,
       Err (FileNotFoundError (default "cycledense.yaml" label_mapping))))).
Proof.
  split.
  - intros Hnot. repeat split.
    + intros Hfs Hy [lm Hlm].
      by rewrite sk_init_unrecognized, Hfs, Hy, Hlm.
    + intros Hfs. by rewrite sk_init_unrecognized, Hfs.
    + intros Hfs Hy [lm Hlm].
      by rewrite dense_init_unrecognized, Hfs, Hy, Hlm.
    + intros Hfs. by rewrite dense_init_unrecognized, Hfs.
  - intros Hnot. split.
    + intros Hfs Hy [lm Hlm].
      by rewrite cycledense_init_unrecognized, Hfs, Hy, Hlm.
    + intros Hfs. by rewrite cycledense_init_unrecognized, Hfs.
Qed.

Lemma unrecognized_split_fails_after_mapping_witness :
  run (SemKITTI_sk.__init__ Fixture.E "/no/such/root" (Some "bogus") None None None) []
    = ([EvOpen "semantic-kitti.yaml"], Err (Exception "Split must be train/val/test")) ∧
  run (Dense.__init__ Fixture.E "/no/such/root" (Some "bogus") None None None) []
    = ([EvOpen "dense.yaml"], Err (Exception "Split must be train/val/test")) ∧
  run (CycleDense.__init__ Fixture.E "/no/such/root" (Some "train") (Some "snow")
         None None None) []
    = ([EvOpen "cycledense.yaml"],
       Err (Exception "Split must be train/val/test with class clear/rain/fog")).
Proof.
  split; [|split].
  - apply (unrecognized_split_fails_after_mapping Fixture.E "/no/such/root"
             (Some "bogus") None None None None [] [x01] Fixture.kitti_doc).
    + apply (bool_decide_unpack _). vm_compute. exact I.
    + reflexivity.
    + reflexivity.
    + eexists. reflexivity.
  - apply (unrecognized_split_fails_after_mapping Fixture.E "/no/such/root"
             (Some "bogus") None None None None [] [x03] Fixture.dense_doc).
    + apply (bool_decide_unpack _). vm_compute. exact I.
    + reflexivity.
    + reflexivity.
    + eexists. reflexivity.
  - apply (unrecognized_split_fails_after_mapping Fixture.E "/no/such/root"
             (Some "train") (Some "snow") None None None [] [x03] Fixture.dense_doc).
    + apply (bool_decide_unpack _). vm_compute. exact I.
    + reflexivity.
    + reflexivity.
    + eexists. reflexivity.
Defined.

(** C3, as stated, fails: with an unrecognised split the constructor
    still opens the label-mapping file first, and when that file is
    missing the error is the file error, not the split error. *)
Lemma split_check_follows_mapping_load :
  run (SemKITTI_sk.__init__ Fixture.E "/no/such/root" (Some "bogus") None None None) []
    = ([EvOpen "semantic-kitti.yaml"], Err (Exception "Split must be train/val/test")) ∧
  run (SemKITTI_sk.__init__ Fixture.E "/no/such/root" (Some "bogus") None
         (Some "missing.yaml") None) []
    = ([EvOpen "missing.yaml"], Err (FileNotFoundError "missing.yaml")).
Proof. split; vm_compute; reflexivity. Qed.








Lemma astype_zeros sh n :
  astype uint8 (NdArray sh (replicate n 0%Z)) = NdArray sh (replicate n 0%Z).
Proof. unfold astype, map_array. cbn [shape flat]. by rewrite fmap_replicate. Qed.

(** C8 (as the code has it).  On the test split [SemKITTI_sk] opens the
    scan file and nothing else, no label file, and returns as labels an
    array of zeros of shape (N,1); it returns whenever the scan file can
    be read and reshaped.  [Dense] on the test split returns as labels an
    array of zeros as well, whatever the stored label channel holds, but
    it does read that channel from the container with the other five: a
    container stored without it fails with [KeyError]. *)
Theorem test_split_labels (E : env) (index : Z) (t : list event) :
  (∀ self : SemKITTI_sk.t,
     SemKITTI_sk.imageset self = "test" →
     (∀ t' r,
        run (SemKITTI_sk.__getitem__ E self index) t = (t', Ok r) →
        ∃ scan bs lab,
          py_index (SemKITTI_sk.im_idx self) index = Some scan ∧
          fs E !! scan = Some bs ∧
          t' = (t ++ [EvOpen scan])%list ∧
          r !! 1 = Some (TInt uint8 lab) ∧
          lab = NdArray [length bs / 4 / 4; 1] (replicate (length bs / 4 / 4) 0%Z)) ∧
     (∀ scan bs,
        py_index (SemKITTI_sk.im_idx self) index = Some scan →
        fs E !! scan = Some bs → (length bs / 4) mod 4 = 0 →
        ∃ r, run (SemKITTI_sk.__getitem__ E self index) t
             = ((t ++ [EvOpen scan])%list, Ok r))) ∧
  (∀ self : Dense.t,
     Dense.imageset self = "test" →
     (∀ t' r,
        run (Dense.__getitem__ E self index) t = (t', Ok r) →
        ∃ path lab,
          py_index (Dense.im_idx self) index = Some path ∧
          t' = (t ++ container_reads path)%list ∧
          EvDataset path "labels_1" ∈ t' ∧
          r !! 1 = Some (TInt uint8 lab) ∧
          Forall (λ z, z = 0%Z) (flat lab)) ∧
     (∀ path bs f x y z distance intensity,
        py_index (Dense.im_idx self) index = Some path →
        fs E !! path = Some bs → h5py_File E bs = Some f →
        stored f "sensorX_1" x → stored f "sensorY_1" y →
        stored f "sensorZ_1" z → stored f "distance_m_1" distance →
        stored f "intensity_1" intensity →
        f !! "labels_1" = None →
        run (Dense.__getitem__ E self index) t
        = ((t ++ container_reads path)%list, Err (KeyError (KStr "labels_1"))))).
Proof.
  split.
  - intros self Htest. split.
    + intros t' r Hrun.
      destruct (sk_getitem_Ok _ _ _ _ _ _ Hrun)
        as (scan & bs & xyz & ref & ann & Hidx & Hbs & Hxyz & Href & -> & Hann).
      rewrite decide_True in Hann by done. destruct Hann as [-> ->].
      exists scan, bs,
        (NdArray [length bs / 4 / 4; 1] (replicate (length bs / 4 / 4) 0%Z)).
      repeat (split; [done|]). split; [|done].
      cbn. by rewrite astype_zeros.
    + intros scan bs Hidx Hbs Hmod.
      destruct (sk_getitem_eq E self index t scan bs Hidx Hbs Hmod)
        as (xyz & ref & _ & _ & Heq).
      rewrite Heq, decide_True by done. eauto.
  - intros self Htest. split.
    + intros t' r Hrun.
      destruct (dense_getitem_Ok _ _ _ _ _ _ Hrun)
        as (path & P & raw & xyz & ann & Hidx & Hload & Hsh & Hlen & Hxyz
            & -> & Hann).
      rewrite decide_True in Hann by done. destruct Hann as [_ ->].
      destruct (load_channels_Ok _ _ _ _ _ Hload)
        as (P' & bs & f & _ & _ & -> & _).
      exists path, (NdArray [6; 1] (replicate 6 0%Z)).
      split; [done|]. split; [done|]. split.
      * apply elem_of_app. right. unfold container_reads.
        rewrite !elem_of_cons. tauto.
      * split; [reflexivity|].
        cbn. by repeat constructor.
    + intros path bs f x y z distance intensity Hidx Hbs Hf Hx Hy Hz Hd Hi Hl.
      unfold Dense.__getitem__.
      rewrite run_bind, run_lift. unfold list_getitem. rewrite Hidx.
      rewrite run_bind.
      by rewrite (load_channels_unlabelled E path t bs f x y z distance intensity).
Qed.

Lemma test_split_labels_witness :
  (∃ t' r,
     run (SemKITTI_sk.__getitem__ Fixture.E
            (Fixture.sk "test" false ["/data/11/velodyne/000000.bin"]) 0) []
       = (t', Ok r) ∧
     ∃ scan bs lab,
       py_index ["/data/11/velodyne/000000.bin"] 0 = Some scan ∧
       fs Fixture.E !! scan = Some bs ∧
       t' = ([] ++ [EvOpen scan])%list ∧
       r !! 1 = Some (TInt uint8 lab) ∧
       lab = NdArray [length bs / 4 / 4; 1] (replicate (length bs / 4 / 4) 0%Z)) ∧
  (∃ r,
     run (SemKITTI_sk.__getitem__ Fixture.E
            (Fixture.sk "test" false ["/data/11/velodyne/000000.bin"]) 0) []
       = (([] ++ [EvOpen "/data/11/velodyne/000000.bin"])%list, Ok r)) ∧
  (∃ t' r,
     run (Dense.__getitem__ Fixture.E
            (Fixture.dense "test" true
               ["/dense/test_01/a.hdf5"; "/dense/test_01/b.hdf5"]) 0) []
       = (t', Ok r) ∧
     ∃ path lab,
       py_index ["/dense/test_01/a.hdf5"; "/dense/test_01/b.hdf5"] 0 = Some path ∧
       t' = ([] ++ container_reads path)%list ∧
       EvDataset path "labels_1" ∈ t' ∧
       r !! 1 = Some (TInt uint8 lab) ∧
       Forall (λ z, z = 0%Z) (flat lab)) ∧
  run (Dense.__getitem__ Fixture.E
         (Fixture.dense "test" true
            ["/dense/test_01/a.hdf5"; "/dense/test_01/b.hdf5"]) 1) []
    = (([] ++ container_reads "/dense/test_01/b.hdf5")%list,
       Err (KeyError (KStr "labels_1"))).
Proof.
  split; [|split; [|split]].
  - run_exists.
    exact (proj1 (proj1 (test_split_labels Fixture.E 0 [])
                    (Fixture.sk "test" false ["/data/11/velodyne/000000.bin"])
                    eq_refl) _ _ Hrun).
  - apply (proj2 (proj1 (test_split_labels Fixture.E 0 [])
                    (Fixture.sk "test" false ["/data/11/velodyne/000000.bin"])
                    eq_refl)
             "/data/11/velodyne/000000.bin" Fixture.scan_bytes);
      reflexivity.
  - run_exists.
    exact (proj1 (proj2 (test_split_labels Fixture.E 0 [])
                    (Fixture.dense "test" true
                       ["/dense/test_01/a.hdf5"; "/dense/test_01/b.hdf5"])
                    eq_refl) _ _ Hrun).
  - apply (proj2 (proj2 (test_split_labels Fixture.E 1 [])
                    (Fixture.dense "test" true
                       ["/dense/test_01/a.hdf5"; "/dense/test_01/b.hdf5"])
                    eq_refl)
             "/dense/test_01/b.hdf5" [x11] Fixture.unlabelled_container
             (Fixture.grid 10 11) (Fixture.grid 20 21) (Fixture.grid 30 31)
             (Fixture.grid 40 41) (Fixture.grid 50 51));
      try (split; reflexivity); reflexivity.
Defined.

(** C8, as stated, fails for [Dense]: on the test split the stored label
    channel is read from the container, and a container that has none
    makes the access fail instead of returning zeros. *)
Lemma dense_test_reads_label_channel :
  (∃ t' r,
     run (Dense.__getitem__ Fixture.E
            (Fixture.dense "test" true
               ["/dense/test_01/a.hdf5"; "/dense/test_01/b.hdf5"]) 0) []
       = (t', Ok r) ∧
     EvDataset "/dense/test_01/a.hdf5" "labels_1" ∈ t') ∧
  run (Dense.__getitem__ Fixture.E
         (Fixture.dense "test" true
            ["/dense/test_01/a.hdf5"; "/dense/test_01/b.hdf5"]) 1) []
    = (container_reads "/dense/test_01/b.hdf5",
       Err (KeyError (KStr "labels_1"))).
Proof.
  split.
  - run_exists. rewrite !elem_of_cons. tauto.
  - run_eq.
Qed.

(** ** Defaults of the constructors *)

Lemma sk_init_return_ref E dp im rr lm nusc t t' ds :
  run (SemKITTI_sk.__init__ E dp im rr lm nusc) t = (t', Ok ds) →
  SemKITTI_sk.return_ref ds = default SemKITTI_sk.default_return_ref rr.
Proof. unfold SemKITTI_sk.__init__. cbn zeta. intros H. by inv_init H. Qed.

Lemma dense_init_return_ref E dp im rr lm nusc t t' ds :
  run (Dense.__init__ E dp im rr lm nusc) t = (t', Ok ds) →
  Dense.return_ref ds = default Dense.default_return_ref rr.
Proof. unfold Dense.__init__. cbn zeta. intros H. by inv_init H. Qed.

Lemma cycledense_init_return_ref E dp im clss rr lm nusc t t' ds :
  run (CycleDense.__init__ E dp im clss rr lm nusc) t = (t', Ok ds) →
  CycleDense.return_ref ds = default CycleDense.default_return_ref rr.
Proof. unfold CycleDense.__init__. cbn zeta. intros H. by inv_init H. Qed.

Lemma nusc_init_return_ref E dp im rr lm nusc t t' ds :
  run (SemKITTI_nusc.__init__ E dp im rr lm nusc) t = (t', Ok ds) →
  SemKITTI_nusc.return_ref ds = default SemKITTI_nusc.default_return_ref rr.
Proof. unfold SemKITTI_nusc.__init__. cbn zeta. intros H. by inv_init H. Qed.

(** C10.  When [return_ref] is left out, [SemKITTI_sk] and
    [SemKITTI_nusc] are built with it false, so their accesses return
    two-element tuples, while [Dense] and [CycleDense] are built with it
    true, so theirs end in the reference channel (three elements for
    [Dense], two, coordinates and reference, for [CycleDense]). *)
Theorem return_ref_defaults (E : env) (data_path : string)
    (imageset clss label_mapping : option string) (nusc : option NuScenes)
    (t t' : list event) :
  (∀ ds, run (SemKITTI_sk.__init__ E data_path imageset None label_mapping nusc) t
           = (t', Ok ds) →
         SemKITTI_sk.return_ref ds = false ∧
         ∀ index t1 t2 r,
           run (SemKITTI_sk.__getitem__ E ds index) t1 = (t2, Ok r) →
           length r = 2) ∧
  (∀ ds, run (SemKITTI_nusc.__init__ E data_path imageset None label_mapping nusc) t
           = (t', Ok ds) →
         SemKITTI_nusc.return_ref ds = false ∧
         ∀ index t1 t2 r,
           run (SemKITTI_nusc.__getitem__ E ds index) t1 = (t2, Ok r) →
           length r = 2) ∧
  (∀ ds, run (Dense.__init__ E data_path imageset None label_mapping nusc) t
           = (t', Ok ds) →
         Dense.return_ref ds = true ∧
         ∀ index t1 t2 r,
           run (Dense.__getitem__ E ds index) t1 = (t2, Ok r) →
           ∃ xyz lab ref, r = [xyz; lab; TFloat ref]) ∧
  (∀ ds, run (CycleDense.__init__ E data_path imageset clss None label_mapping nusc) t
           = (t', Ok ds) →
         CycleDense.return_ref ds = true ∧
         ∀ index t1 t2 r,
           run (CycleDense.__getitem__ E ds index) t1 = (t2, Ok r) →
           ∃ xyz ref, r = [TFloat xyz; TFloat ref]).
Proof.
  split; [|split; [|split]].
  - intros ds Hinit. apply sk_init_return_ref in Hinit. cbn in Hinit.
    split; [done|]. intros index t1 t2 r Hrun.
    destruct (sk_getitem_Ok _ _ _ _ _ _ Hrun)
      as (scan & bs & xyz & ref & ann & _ & _ & _ & _ & -> & _).
    by rewrite Hinit.
  - intros ds Hinit. apply nusc_init_return_ref in Hinit. cbn in Hinit.
    split; [done|]. intros index t1 t2 r Hrun.
    destruct (nusc_getitem_Ok _ _ _ _ _ _ Hrun)
      as (token & sd & labfile & scan & lbs & bs & xyz & ref & ann & _
          & _ & _ & _ & _ & -> & _).
    by rewrite Hinit.
  - intros ds Hinit. apply dense_init_return_ref in Hinit. cbn in Hinit.
    split; [done|]. intros index t1 t2 r Hrun.
    destruct (dense_getitem_Ok _ _ _ _ _ _ Hrun)
      as (path & P & raw & xyz & ann & _ & _ & _ & _ & _ & -> & _).
    rewrite Hinit. by eexists _, _, _.
  - intros ds Hinit. apply cycledense_init_return_ref in Hinit. cbn in Hinit.
    split; [done|]. intros index t1 t2 r Hrun.
    destruct (cycledense_getitem_Ok _ _ _ _ _ _ Hrun)
      as (path & t3 & P & raw & xyz & _ & _ & _ & _ & _ & Hr).
    rewrite Hinit in Hr. destruct Hr as [_ ->]. by eexists _, _.
Qed.

Lemma return_ref_defaults_witness :
  (∃ t' ds,
     run (SemKITTI_sk.__init__ Fixture.E "/data" (Some "train") None None None) []
       = (t', Ok ds) ∧
     SemKITTI_sk.return_ref ds = false ∧
     ∀ index t1 t2 r,
       run (SemKITTI_sk.__getitem__ Fixture.E ds index) t1 = (t2, Ok r) →
       length r = 2) ∧
  (∃ t' ds,
     run (SemKITTI_nusc.__init__ Fixture.E "/nusc" (Some "infos_train.pkl") None
            None (Some Fixture.nusc)) []
       = (t', Ok ds) ∧
     SemKITTI_nusc.return_ref ds = false ∧
     ∀ index t1 t2 r,
       run (SemKITTI_nusc.__getitem__ Fixture.E ds index) t1 = (t2, Ok r) →
       length r = 2) ∧
  (∃ t' ds,
     run (Dense.__init__ Fixture.E "/dense" (Some "train") None None None) []
       = (t', Ok ds) ∧
     Dense.return_ref ds = true ∧
     ∀ index t1 t2 r,
       run (Dense.__getitem__ Fixture.E ds index) t1 = (t2, Ok r) →
       ∃ xyz lab ref, r = [xyz; lab; TFloat ref]) ∧
  (∃ t' ds,
     run (CycleDense.__init__ Fixture.E "/dense" None None None None None) []
       = (t', Ok ds) ∧
     CycleDense.return_ref ds = true ∧
     ∀ index t1 t2 r,
       run (CycleDense.__getitem__ Fixture.E ds index) t1 = (t2, Ok r) →
       ∃ xyz ref, r = [TFloat xyz; TFloat ref]).
Proof.
  split; [|split; [|split]].
  - run_exists.
    exact (proj1 (return_ref_defaults Fixture.E "/data" (Some "train") None
                    None None [] _) _ Hrun).
  - run_exists.
    exact (proj1 (proj2 (return_ref_defaults Fixture.E "/nusc"
                           (Some "infos_train.pkl") None None
                           (Some Fixture.nusc) [] _)) _ Hrun).
  - run_exists.
    exact (proj1 (proj2 (proj2 (return_ref_defaults Fixture.E "/dense"
                                  (Some "train") None None None [] _))) _ Hrun).
  - run_exists.
    exact (proj2 (proj2 (proj2 (return_ref_defaults Fixture.E "/dense"
                                  None None None None [] _))) _ Hrun).
Defined.

(** C9.  With [imageset = 'val'], [SemKITTI_sk] and [Dense] take the
    split list from the document's split key ['valid']: when the split
    section has that key, its list is what the sample index is built
    from; when it has not, a section that files the validation split
    under ['val'] included, construction fails with [KeyError] on
    ['valid']. *)
Theorem validation_split_is_valid_key (E : env) (data_path : string)
    (return_ref : option bool) (label_mapping : option string)
    (nusc : option NuScenes) (t : list event)
    (bs : list byte) (doc : yaml_doc) (lm : gmap Z Z)
    (sp : gmap string (list yaml_scalar)) :
  yaml_safe_load E bs = Some doc →
  y_learning_map doc = Some lm →
  y_split doc = Some sp →
  (fs E !! default "semantic-kitti.yaml" label_mapping = Some bs →
   (sp !! "valid" = None →
    run (SemKITTI_sk.__init__ E data_path (Some "val") return_ref label_mapping nusc) t
    = ((t ++ [EvOpen (default "semantic-kitti.yaml" label_mapping)])%list,
       Err (KeyError (KStr "valid")))) ∧
   (∀ l, sp !! "valid" = Some l →
    run (SemKITTI_sk.__init__ E data_path (Some "val") return_ref label_mapping nusc) t
    = ((t ++ EvOpen (default "semantic-kitti.yaml" label_mapping)
          :: (EvWalk <$>
              ((λ x, str_join "/" [data_path; str_zfill 2 (py_str x); "velodyne"])
                 <$> l)))%list,
       Ok (SemKITTI_sk.Build (default false return_ref) lm "val"
             (((λ x, str_join "/" [data_path; str_zfill 2 (py_str x); "velodyne"])
                 <$> l) ≫= walk_files E))))) ∧
  (fs E !! default "dense.yaml" label_mapping = Some bs →
   (sp !! "valid" = None →
    run (Dense.__init__ E data_path (Some "val") return_ref label_mapping nusc) t
    = ((t ++ [EvOpen (default "dense.yaml" label_mapping)])%list,
       Err (KeyError (KStr "valid")))) ∧
   (∀ names, sp !! "valid" = Some (YStr <$> names) →
    run (Dense.__init__ E data_path (Some "val") return_ref label_mapping nusc) t
    = ((t ++ EvOpen (default "dense.yaml" label_mapping)
          :: (EvWalk <$> ((λ s, str_join "/" [data_path; s]) <$> names)))%list,
       Ok (Dense.Build (default true return_ref) lm "val"
             (((λ s, str_join "/" [data_path; s]) <$> names) ≫= walk_files E))))).
Proof.
  intros Hy Hlm Hsp. split.
  - intros Hfs.
    assert (Hpre : ∀ k : list yaml_scalar → IO SemKITTI_sk.t,
      run (SemKITTI_sk.__init__ E data_path (Some "val") return_ref label_mapping nusc) t
      = match sp !! "valid" with
        | None => ((t ++ [EvOpen (default "semantic-kitti.yaml" label_mapping)])%list,
                   Err (KeyError (KStr "valid")))
        | Some l =>
            run (collect_paths E
                   (λ i_folder, Ok (str_join "/"
                      [data_path; str_zfill 2 (py_str i_folder); "velodyne"])) l
                 ≫= λ im_idx,
                 mret (SemKITTI_sk.Build (default false return_ref) lm "val" im_idx))
                (t ++ [EvOpen (default "semantic-kitti.yaml" label_mapping)])%list
        end).
    { intros _. unfold SemKITTI_sk.__init__. cbn zeta.
      rewrite run_bind, run_load_yaml, Hfs, Hy.
      rewrite run_bind, run_lift, Hlm. cbn [doc_getitem].
      rewrite run_bind, run_lift. cbn [default].
      rewrite decide_False, decide_True by done.
      rewrite Hsp. cbn [doc_getitem mbind result_bind]. unfold dict_getitem.
      destruct (sp !! "valid"); reflexivity. }
    specialize (Hpre (λ _, raise TypeError)). rewrite Hpre. split.
    + by intros ->.
    + intros l ->. rewrite run_bind, run_collect_paths_total, run_ret.
      by rewrite <- (assoc_L (++)).
  - intros Hfs.
    assert (Hpre :
      run (Dense.__init__ E data_path (Some "val") return_ref label_mapping nusc) t
      = match sp !! "valid" with
        | None => ((t ++ [EvOpen (default "dense.yaml" label_mapping)])%list,
                   Err (KeyError (KStr "valid")))
        | Some l =>
            run (collect_paths E (Dense.folder_path data_path) l
                 ≫= λ im_idx,
                 mret (Dense.Build (default true return_ref) lm "val" im_idx))
                (t ++ [EvOpen (default "dense.yaml" label_mapping)])%list
        end).
    { unfold Dense.__init__. cbn zeta.
      rewrite run_bind, run_load_yaml, Hfs, Hy.
      rewrite run_bind, run_lift, Hlm. cbn [doc_getitem].
      rewrite run_bind, run_lift. cbn [default].
      rewrite decide_False, decide_True by done.
      rewrite Hsp. cbn [doc_getitem mbind result_bind]. unfold dict_getitem.
      destruct (sp !! "valid"); reflexivity. }
    rewrite Hpre. split.
    + by intros ->.
    + intros names ->.
      rewrite run_bind,
        (run_collect_paths E _ _ ((λ s, str_join "/" [data_path; s]) <$> names)).
      * rewrite run_ret. by rewrite <- (assoc_L (++)).
      * apply Forall2_fmap, Forall_Forall2_diag, Forall_true. done.
Qed.

Lemma validation_split_is_valid_key_witness :
  run (SemKITTI_sk.__init__ Fixture.E "/data" (Some "val") None
         (Some "val-only.yaml") None) []
    = (([] ++ [EvOpen "val-only.yaml"])%list, Err (KeyError (KStr "valid"))) ∧
  run (SemKITTI_sk.__init__ Fixture.E "/data" (Some "val") None None None) []
    = (([] ++ EvOpen "semantic-kitti.yaml"
           :: (EvWalk <$>
               ((λ x, str_join "/" ["/data"; str_zfill 2 (py_str x); "velodyne"])
                  <$> [YInt 8])))%list,
       Ok (SemKITTI_sk.Build false Fixture.learning_map "val"
             (((λ x, str_join "/" ["/data"; str_zfill 2 (py_str x); "velodyne"])
                 <$> [YInt 8]) ≫= walk_files Fixture.E))) ∧
  run (Dense.__init__ Fixture.E "/dense" (Some "val") None
         (Some "val-only.yaml") None) []
    = (([] ++ [EvOpen "val-only.yaml"])%list, Err (KeyError (KStr "valid"))) ∧
  run (Dense.__init__ Fixture.E "/dense" (Some "val") None None None) []
    = (([] ++ EvOpen "dense.yaml"
           :: (EvWalk <$> ((λ s, str_join "/" ["/dense"; s]) <$> ["val_01"])))%list,
       Ok (Dense.Build true Fixture.learning_map "val"
             (((λ s, str_join "/" ["/dense"; s]) <$> ["val_01"])
                ≫= walk_files Fixture.E))).
Proof.
  split; [|split; [|split]].
  - apply (validation_split_is_valid_key Fixture.E "/data" None
             (Some "val-only.yaml") None [] [x02] Fixture.val_doc
             Fixture.learning_map
             {[ "train" := [YInt 0]; "val" := [YInt 8]; "test" := [YInt 11] ]});
      reflexivity.
  - apply (validation_split_is_valid_key Fixture.E "/data" None None None []
             [x01] Fixture.kitti_doc Fixture.learning_map
             {[ "train" := [YInt 0]; "valid" := [YInt 8]; "test" := [YInt 11] ]});
      reflexivity.
  - apply (validation_split_is_valid_key Fixture.E "/dense" None
             (Some "val-only.yaml") None [] [x02] Fixture.val_doc
             Fixture.learning_map
             {[ "train" := [YInt 0]; "val" := [YInt 8]; "test" := [YInt 11] ]});
      reflexivity.
  - refine (proj2 (proj2 (validation_split_is_valid_key Fixture.E "/dense" None
                            None None [] [x03] Fixture.dense_doc
                            Fixture.learning_map
                            {[ "train" := [YStr "train_01"];
                               "valid" := [YStr "val_01"];
                               "test" := [YStr "test_01"];
                               "trainclear" := [YStr "train_01"] ]}
                            eq_refl eq_refl eq_refl) _) ["val_01"] _);
      reflexivity.
Defined.

(** ** Remapping labels *)







(** ** Label-name tables *)

Lemma foldM_snoc {A B} (f : B → A → result B) b l x :
  foldM f b (l ++ [x]) = foldM f b l ≫= λ b', f b' x.
Proof.
  revert b. induction l as [|y l IH]; intros b; cbn [foldM app].
  - change (Ok b ≫= λ b', f b' x) with (f b x).
    destruct (f b x); reflexivity.
  - destruct (f b y) as [b1|e]; [apply IH|reflexivity].
Qed.

Lemma keys_descending_spec {V} (d : gmap Z V) :
  ∃ asc, keys_descending d = reverse asc ∧
         StronglySorted Z.le asc ∧
         ∀ i, i ∈ asc ↔ is_Some (d !! i).
Proof.
  exists (merge_sort Z.le (map_to_list d).*1). split; [done|]. split.
  - apply StronglySorted_merge_sort; apply _.
  - intros i. rewrite merge_sort_Permutation, list_elem_of_fmap. split.
    + intros ([k v] & -> & Hin). apply elem_of_map_to_list in Hin. by eexists.
    + intros [v Hv]. exists (i, v). split; [done|].
      by apply elem_of_map_to_list.
Qed.

Section label_names.
Context (lm : gmap Z Z) (names : gmap Z string).

(** Filling the table from the raw ids, greatest first, under the key a
    raw id maps to and with the raw id's own name: the least raw id of
    every training label has the last word. *)
Lemma name_table_by_raw_id (labels : option (gmap Z string)) asc :
  labels = Some names →
  StronglySorted Z.le asc →
  (∀ i, i ∈ asc → is_Some (lm !! i) ∧ is_Some (names !! i)) →
  ∃ tbl,
    foldM (λ (tbl : gmap Z string) i,
             labels ← doc_getitem "labels" labels;
             name ← dict_getitem KInt labels i;
             mapped ← dict_getitem KInt lm i;
             Ok (<[mapped := name]> tbl))
          ∅ (reverse asc) = Ok tbl ∧
    ∀ m name,
      tbl !! m = Some name ↔
      ∃ raw, raw ∈ asc ∧ lm !! raw = Some m ∧ names !! raw = Some name ∧
             ∀ raw', raw' ∈ asc → lm !! raw' = Some m → (raw ≤ raw')%Z.
Proof.
  intros -> Hsorted. induction Hsorted as [|x rest Hrest IH Hle]; intros Hall.
  - exists ∅. split; [done|]. intros m name. rewrite lookup_empty. split.
    + discriminate.
    + intros (raw & Hin & _). by apply elem_of_nil in Hin.
  - destruct IH as (tbl & Hfold & Htbl).
    { intros i Hi. apply Hall. by right. }
    destruct (Hall x) as [[mx Hmx] [nx Hnx]]; [by left|].
    exists (<[mx := nx]> tbl). split.
    { rewrite reverse_cons, foldM_snoc, Hfold. cbn.
      unfold dict_getitem. rewrite Hnx. cbn. by rewrite Hmx. }
    intros m name. destruct (decide (m = mx)) as [->|Hne].
    + rewrite lookup_insert_eq. split.
      * intros [= <-]. exists x. split; [by left|]. split; [done|].
        split; [done|]. intros raw' Hin _.
        apply elem_of_cons in Hin as [->|Hin]; [done|].
        rewrite Forall_forall in Hle. by apply Hle.
      * intros (raw & Hin & Hraw & Hname & Hleast).
        assert (raw = x) as ->; [|congruence].
        apply elem_of_cons in Hin as [->|Hin]; [done|].
        rewrite Forall_forall in Hle. specialize (Hle _ Hin).
        specialize (Hleast x (ltac:(by left)) Hmx). lia.
    + rewrite lookup_insert_ne by done. rewrite Htbl. split.
      * intros (raw & Hin & Hraw & Hname & Hleast).
        exists raw. split; [by right|]. split; [done|]. split; [done|].
        intros raw' Hin' Hraw'.
        apply elem_of_cons in Hin' as [->|Hin']; [congruence|].
        by apply Hleast.
      * intros (raw & Hin & Hraw & Hname & Hleast).
        exists raw.
        apply elem_of_cons in Hin as [->|Hin]; [congruence|].
        split; [done|]. split; [done|]. split; [done|].
        intros raw' Hin' Hraw'. apply Hleast; [by right|done].
Qed.

(** Filling the table under the key a raw id maps to, with the name the
    table of training-label names has for that key. *)
Lemma name_table_by_mapped_id (labels_16 : option (gmap Z string)) keys :
  labels_16 = Some names →
  (∀ i, i ∈ keys → ∃ m, lm !! i = Some m ∧ is_Some (names !! m)) →
  ∃ tbl,
    foldM (λ (tbl : gmap Z string) i,
             val_ ← dict_getitem KInt lm i;
             labels_16 ← doc_getitem "labels_16" labels_16;
             name ← dict_getitem KInt labels_16 val_;
             Ok (<[val_ := name]> tbl))
          ∅ keys = Ok tbl ∧
    ∀ m name,
      tbl !! m = Some name ↔
      (∃ raw, raw ∈ keys ∧ lm !! raw = Some m) ∧ names !! m = Some name.
Proof.
  intros ->. induction keys as [|x keys IH] using rev_ind; intros Hall.
  - exists ∅. split; [done|]. intros m name. rewrite lookup_empty. split.
    + discriminate.
    + intros [(raw & Hin & _) _]. by apply elem_of_nil in Hin.
  - destruct IH as (tbl & Hfold & Htbl).
    { intros i Hi. apply Hall, elem_of_app. by left. }
    destruct (Hall x) as (mx & Hmx & [nx Hnx]).
    { apply elem_of_app. right. by left. }
    exists (<[mx := nx]> tbl). split.
    { rewrite foldM_snoc, Hfold. cbn.
      unfold dict_getitem. rewrite Hmx. cbn. by rewrite Hnx. }
    intros m name. destruct (decide (m = mx)) as [->|Hne].
    + rewrite lookup_insert_eq. split.
      * intros [= <-]. split; [|done]. exists x. split; [|done].
        apply elem_of_app. right. by left.
      * intros [_ Hname]. congruence.
    + rewrite lookup_insert_ne by done. rewrite Htbl.
      split; intros [(raw & Hin & Hraw) Hname]; (split; [|done]); exists raw.
      * split; [|done]. apply elem_of_app. by left.
      * split; [|done]. apply elem_of_app in Hin as [Hin|Hin]; [done|].
        apply list_elem_of_singleton in Hin as ->. congruence.
Qed.

End label_names.

(** C6 (as the code has it).  Both helpers go through the raw ids of
    the learning map from the greatest to the least and assign under the
    mapped id as key.  [get_SemKITTI_label_name] assigns the raw id's own
    name (from [labels]), so that a training label shared by several raw
    ids ends up with the name of the least of them.
    [get_nuScenes_label_name] assigns the name that [labels_16] gives for
    the mapped id itself, so that the table does not depend on which raw
    id comes last. *)
Theorem label_name_tables (E : env) (label_mapping : string) (t : list event)
    (bs : list byte) (doc : yaml_doc) (lm : gmap Z Z) :
  fs E !! label_mapping = Some bs →
  yaml_safe_load E bs = Some doc →
  y_learning_map doc = Some lm →
  (∀ labels,
     y_labels doc = Some labels →
     (∀ raw, is_Some (lm !! raw) → is_Some (labels !! raw)) →
     ∃ tbl,
       run (get_SemKITTI_label_name E label_mapping) t
       = ((t ++ [EvOpen label_mapping])%list, Ok tbl) ∧
       ∀ m name,
         tbl !! m = Some name ↔
         ∃ raw, lm !! raw = Some m ∧ labels !! raw = Some name ∧
                ∀ raw', lm !! raw' = Some m → (raw ≤ raw')%Z) ∧
  (∀ labels_16,
     y_labels_16 doc = Some labels_16 →
     (∀ raw m, lm !! raw = Some m → is_Some (labels_16 !! m)) →
     ∃ tbl,
       run (get_nuScenes_label_name E label_mapping) t
       = ((t ++ [EvOpen label_mapping])%list, Ok tbl) ∧
       ∀ m name,
         tbl !! m = Some name ↔
         (∃ raw, lm !! raw = Some m) ∧ labels_16 !! m = Some name).
Proof.
  intros Hfs Hy Hlm.
  destruct (keys_descending_spec lm) as (asc & Hkeys & Hsorted & Hasc).
  split.
  - intros labels Hlabels Hnamed.
    destruct (name_table_by_raw_id lm labels (y_labels doc) asc Hlabels Hsorted)
      as (tbl & Hfold & Htbl).
    { intros i Hi. apply Hasc in Hi. split; [done|]. by apply Hnamed. }
    exists tbl. split.
    + unfold get_SemKITTI_label_name.
      rewrite run_bind, run_load_yaml, Hfs, Hy.
      rewrite run_bind, run_lift, Hlm. cbn [doc_getitem].
      by rewrite run_lift, Hkeys, Hfold.
    + intros m name. rewrite Htbl. split.
      * intros (raw & Hin & Hraw & Hname & Hleast).
        exists raw. split; [done|]. split; [done|].
        intros raw' Hraw'. apply Hleast; [|done]. apply Hasc. by eexists.
      * intros (raw & Hraw & Hname & Hleast).
        exists raw. split; [apply Hasc; by eexists|]. split; [done|].
        split; [done|]. intros raw' _ Hraw'. by apply Hleast.
  - intros labels_16 Hlabels Hnamed.
    destruct (name_table_by_mapped_id lm labels_16 (y_labels_16 doc)
                (reverse asc) Hlabels) as (tbl & Hfold & Htbl).
    { intros i Hi. apply elem_of_reverse, Hasc in Hi as [m Hm].
      exists m. split; [done|]. by eapply Hnamed. }
    exists tbl. split.
    + unfold get_nuScenes_label_name.
      rewrite run_bind, run_load_yaml, Hfs, Hy.
      rewrite run_bind, run_lift, Hlm. cbn [doc_getitem].
      by rewrite run_lift, Hkeys, Hfold.
    + intros m name. rewrite Htbl.
      split; intros [(raw & Hraw) Hname]; (split; [|done]); exists raw.
      * tauto.
      * split; [|done]. apply elem_of_reverse, Hasc. by eexists.
Qed.

Lemma label_name_tables_witness :
  (∃ tbl,
     run (get_SemKITTI_label_name Fixture.E "nuscenes.yaml") []
     = (([] ++ [EvOpen "nuscenes.yaml"])%list, Ok tbl) ∧
     ∀ m name,
       tbl !! m = Some name ↔
       ∃ raw, ({[ 1 := 0; 2 := 0; 5 := 2 ]} : gmap Z Z)%Z !! raw = Some m ∧
              ({[ 1%Z := "animal"; 2%Z := "debris"; 5%Z := "car" ]}
                 : gmap Z string) !! raw = Some name ∧
              ∀ raw', ({[ 1 := 0; 2 := 0; 5 := 2 ]} : gmap Z Z)%Z !! raw' = Some m →
                      (raw ≤ raw')%Z) ∧
  (∃ tbl,
     run (get_nuScenes_label_name Fixture.E "nuscenes.yaml") []
     = (([] ++ [EvOpen "nuscenes.yaml"])%list, Ok tbl) ∧
     ∀ m name,
       tbl !! m = Some name ↔
       (∃ raw, ({[ 1 := 0; 2 := 0; 5 := 2 ]} : gmap Z Z)%Z !! raw = Some m) ∧
       ({[ 0%Z := "noise"; 1%Z := "barrier"; 2%Z := "bicycle" ]}
          : gmap Z string) !! m = Some name).
Proof.
  pose proof (label_name_tables Fixture.E "nuscenes.yaml" [] [x04]
                Fixture.nusc_doc {[ 1 := 0; 2 := 0; 5 := 2 ]}%Z
                eq_refl eq_refl eq_refl) as [Hraw Hmapped].
  split.
  - apply Hraw; [reflexivity|].
    intros raw [m Hm].
    apply lookup_insert_Some in Hm as [[<- _]|[_ Hm]]; [by eexists|].
    apply lookup_insert_Some in Hm as [[<- _]|[_ Hm]]; [by eexists|].
    apply lookup_singleton_Some in Hm as [<- _]. by eexists.
  - apply Hmapped; [reflexivity|].
    intros raw m Hm.
    apply lookup_insert_Some in Hm as [[_ <-]|[_ Hm]]; [by eexists|].
    apply lookup_insert_Some in Hm as [[_ <-]|[_ Hm]]; [by eexists|].
    apply lookup_singleton_Some in Hm as [_ <-]. by eexists.
Defined.

(** C6, as stated, fails for [get_nuScenes_label_name]: raw ids 1
    ("animal") and 2 ("debris") share the training label 0, and the
    table holds for it neither of their names but the name [labels_16]
    has for 0. *)
Lemma nuScenes_names_come_from_mapped_id :
  ∃ t' tbl,
    run (get_nuScenes_label_name Fixture.E "nuscenes.yaml") [] = (t', Ok tbl) ∧
    tbl !! 0%Z = Some "noise" ∧
    y_learning_map Fixture.nusc_doc = Some {[ 1 := 0; 2 := 0; 5 := 2 ]}%Z ∧
    y_labels Fixture.nusc_doc
      = Some {[ 1%Z := "animal"; 2%Z := "debris"; 5%Z := "car" ]} ∧
    y_labels_16 Fixture.nusc_doc
      = Some {[ 0%Z := "noise"; 1%Z := "barrier"; 2%Z := "bicycle" ]}.
Proof.
  run_exists. repeat split; vm_compute; reflexivity.
Qed.

(** ** [SemKITTI2train] *)

Lemma run_SemKITTI2train_single (label : loc) (σ : store) :
  run (SemKITTI2train_single label) σ = (alter single_update label σ, Ok label).
Proof. reflexivity. Qed.

Lemma run_mapM_single (l : list loc) (σ : store) :
  run (mapM SemKITTI2train_single l) σ =
  (foldl (λ σ r, alter single_update r σ) σ l, Ok l).
Proof.
  revert σ. induction l as [|r l IH]; intros σ; [reflexivity|].
  change (mapM SemKITTI2train_single (r :: l))
    with (SemKITTI2train_single r ≫= λ y,
          mapM SemKITTI2train_single l ≫= λ k, mret (y :: k)).
  rewrite run_bind, run_SemKITTI2train_single, run_bind, IH.
  reflexivity.
Qed.

(** After the loop an array has been updated once for every time it
    occurs in the list. *)
Lemma foldl_alter_lookup {V} (f : V → V) (l : list loc) (σ : gmap loc V) r :
  foldl (λ σ r, alter f r σ) σ l !! r =
  Nat.iter (length (filter (λ x, x = r) l)) f <$> σ !! r.
Proof.
  revert σ. induction l as [|x l IH]; intros σ.
  - cbn. by destruct (σ !! r).
  - cbn [foldl]. rewrite IH. rewrite filter_cons.
    destruct (decide (x = r)) as [->|Hne].
    + rewrite lookup_alter_eq. cbn [length].
      destruct (σ !! r) as [a|]; [|done]. cbn [fmap option_fmap option_map].
      by rewrite Nat.iter_succ_r.
    + by rewrite lookup_alter_ne.
Qed.

Lemma filter_eq_absent (l : list loc) r :
  r ∉ l → filter (λ x, x = r) l = [].
Proof.
  induction l as [|x l IH]; intros Hnin; [done|].
  apply not_elem_of_cons in Hnin as [Hne Hnin].
  rewrite filter_cons, decide_False by done. by apply IH.
Qed.

Lemma filter_eq_NoDup (l : list loc) r :
  NoDup l → r ∈ l → length (filter (λ x, x = r) l) = 1.
Proof.
  induction 1 as [|x l Hx Hnd IH]; intros Hin; [by apply elem_of_nil in Hin|].
  rewrite filter_cons. destruct (decide (x = r)) as [->|Hne].
  - by rewrite filter_eq_absent.
  - apply elem_of_cons in Hin as [->|Hin]; [done|]. by apply IH.
Qed.

(** A positive value of a dtype stays in the dtype when decremented. *)
Lemma wrap_pred dt k :
  wrap dt k = k → (0 < k)%Z → wrap dt (k - 1) = (k - 1)%Z.
Proof.
  unfold wrap. intros Hk Hpos.
  set (m := (2 ^ dtype_bits dt)%Z) in *.
  assert (Hm : (0 < m)%Z) by (subst m; by destruct dt).
  pose proof (Z.mod_pos_bound k m Hm) as Hu.
  assert (Hku : (k mod m = k)%Z).
  { destruct (dtype_signed dt && bool_decide (m ≤ 2 * (k `mod` m))%Z); lia. }
  rewrite Hku in Hk, Hu.
  rewrite (Z.mod_small (k - 1) m) by lia.
  destruct (dtype_signed dt); cbn [andb] in *; [|done].
  case_bool_decide; [lia|].
  rewrite bool_decide_eq_false_2 by lia. done.
Qed.

Lemma single_update_lookup (a : larray) i k :
  flat (la_data a) !! i = Some k →
  flat (la_data (single_update a)) !! i =
  Some (if decide (k = 0%Z) then 255%Z else wrap (la_dtype a) (k - 1)).
Proof.
  intros Hk. unfold single_update, assign_where, map_array. cbn [la_data la_dtype flat shape].
  rewrite lookup_zip_with, !list_lookup_fmap, Hk. cbn.
  by destruct (decide (k = 0%Z)); [rewrite bool_decide_eq_true_2|rewrite bool_decide_eq_false_2].
Qed.

(** C4 (as the code has it).  [SemKITTI2train_single] updates the array
    it is given in place and returns it: dtype and shape are kept, an
    element 0 becomes 255 and an element k > 0 becomes k - 1.
    [SemKITTI2train] on a list applies it to the elements in turn and
    returns the same arrays in the same order, so that an array that
    occurs once in the list ends up transformed once, and an array that
    occurs n times, n times over; on a list of distinct arrays every
    element of the result is the single-array transform of its input.
    On a single array it is the single-array transform. *)
Theorem SemKITTI2train_in_place (σ : store) :
  (∀ label,
     run (SemKITTI2train_single label) σ
     = (alter single_update label σ, Ok label)) ∧
  (∀ a : larray,
     la_dtype (single_update a) = la_dtype a ∧
     shape (la_data (single_update a)) = shape (la_data a) ∧
     ∀ i k,
       flat (la_data a) !! i = Some k → wrap (la_dtype a) k = k →
       (k = 0%Z → flat (la_data (single_update a)) !! i = Some 255%Z) ∧
       ((0 < k)%Z → flat (la_data (single_update a)) !! i = Some (k - 1)%Z)) ∧
  (∀ l, ∃ σ',
     run (SemKITTI2train (PyList l)) σ = (σ', Ok (PyList l)) ∧
     (∀ r, σ' !! r
           = Nat.iter (length (filter (λ x, x = r) l)) single_update <$> σ !! r) ∧
     (NoDup l → ∀ r, r ∈ l → σ' !! r = single_update <$> σ !! r)) ∧
  (∀ r,
     run (SemKITTI2train (PyArray r)) σ
     = (alter single_update r σ, Ok (PyArray r))).
Proof.
  split; [|split; [|split]].
  - intros label. apply run_SemKITTI2train_single.
  - intros a. split; [done|]. split; [done|].
    intros i k Hk Hrange. rewrite (single_update_lookup a i k Hk). split.
    + intros ->. done.
    + intros Hpos. rewrite decide_False by lia. by rewrite wrap_pred.
  - intros l. eexists. split; [|split].
    + unfold SemKITTI2train. rewrite run_bind, run_mapM_single. reflexivity.
    + intros r. apply foldl_alter_lookup.
    + intros Hnd r Hin. rewrite foldl_alter_lookup, filter_eq_NoDup by done.
      done.
  - intros r. reflexivity.
Qed.

Lemma SemKITTI2train_in_place_witness :
  flat (la_data (single_update (LArray uint8 (NdArray [3] [0; 1; 2]%Z)))) !! 0
  = Some 255%Z ∧
  flat (la_data (single_update (LArray uint8 (NdArray [3] [0; 1; 2]%Z)))) !! 2
  = Some (2 - 1)%Z ∧
  ∃ σ',
    run (SemKITTI2train (PyList [1; 2]%positive))
        {[ 1%positive := LArray uint8 (NdArray [3] [0; 1; 2]%Z);
           2%positive := LArray uint8 (NdArray [2; 1] [5; 0]%Z) ]}
    = (σ', Ok (PyList [1; 2]%positive)) ∧
    σ' !! 1%positive
    = single_update <$>
        ({[ 1%positive := LArray uint8 (NdArray [3] [0; 1; 2]%Z);
            2%positive := LArray uint8 (NdArray [2; 1] [5; 0]%Z) ]} : store)
        !! 1%positive.
Proof.
  split; [|split].
  - apply (proj2 (proj2 (proj1 (proj2 (SemKITTI2train_in_place ∅))
                           (LArray uint8 (NdArray [3] [0; 1; 2]%Z))))
             0 0%Z eq_refl eq_refl).
    reflexivity.
  - apply (proj2 (proj2 (proj1 (proj2 (SemKITTI2train_in_place ∅))
                           (LArray uint8 (NdArray [3] [0; 1; 2]%Z))))
             2 2%Z eq_refl eq_refl).
    reflexivity.
  - destruct (proj1 (proj2 (proj2 (SemKITTI2train_in_place
                {[ 1%positive := LArray uint8 (NdArray [3] [0; 1; 2]%Z);
                   2%positive := LArray uint8 (NdArray [2; 1] [5; 0]%Z) ]})))
               [1; 2]%positive) as (σ' & Hrun & _ & Hdistinct).
    exists σ'. split; [exact Hrun|].
    apply Hdistinct.
    + by_decide.
    + by_decide.
Defined.

(** C4, as stated, fails on a list that holds the same array twice: the
    array is transformed twice, so neither element of the result is the
    single-array transform of the input. *)
Lemma SemKITTI2train_shared_array :
  run (SemKITTI2train (PyList [1; 1]%positive))
      {[ 1%positive := LArray uint8 (NdArray [3] [0; 1; 2]%Z) ]}
  = ({[ 1%positive := LArray uint8 (NdArray [3] [254; 255; 0]%Z) ]},
     Ok (PyList [1; 1]%positive)) ∧
  single_update (LArray uint8 (NdArray [3] [0; 1; 2]%Z))
  = LArray uint8 (NdArray [3] [255; 0; 1]%Z).
Proof. split; vm_compute; reflexivity. Qed.

(** ** The registry *)

(** C5.  Registering a class [C] under a name that is free (the class's
    own name when none is given) succeeds and binds the name, after which
    resolving the name returns exactly [C]; registering under a name that
    is taken fails with the duplicate-name assertion and leaves the
    registry as it was; resolving a name that is absent fails with an
    assertion whose message shows the registry, hence every registered
    name. *)
Theorem register_then_resolve (C : pyclass) (name : option string) (reg : registry) :
  (reg !! default (cls_name C) name = None →
     run (register_dataset C name) reg
       = (<[default (cls_name C) name := C]> reg, Ok C) ∧
     run (get_pc_model_class (default (cls_name C) name))
         (<[default (cls_name C) name := C]> reg)
       = (<[default (cls_name C) name := C]> reg, Ok C)) ∧
  (is_Some (reg !! default (cls_name C) name) →
     run (register_dataset C name) reg
       = (reg, Err (AssertionError "exist class: " reg))) ∧
  (∀ absent : string, reg !! absent = None →
     run (get_pc_model_class absent) reg
       = (reg, Err (AssertionError "available class: " reg))).
Proof.
  assert (Hname : match name with None => cls_name C | Some n => n end
                  = default (cls_name C) name) by (by destruct name).
  split; [|split].
  - intros Hfree. split.
    + unfold register_dataset. rewrite Hname.
      rewrite run_bind. cbn [get_state run]. by rewrite Hfree.
    + unfold get_pc_model_class.
      rewrite run_bind. cbn [get_state run]. by rewrite lookup_insert_eq.
  - intros [old Hold]. unfold register_dataset. rewrite Hname.
    rewrite run_bind. cbn [get_state run]. by rewrite Hold.
  - intros absent Habsent. unfold get_pc_model_class.
    rewrite run_bind. cbn [get_state run]. by rewrite Habsent.
Qed.

Lemma register_then_resolve_witness :
  (run (register_dataset (PyClass "dataloader.pc_dataset" "Dense") None) ∅
     = ({[ "Dense" := PyClass "dataloader.pc_dataset" "Dense" ]}, Ok (PyClass "dataloader.pc_dataset" "Dense")) ∧
   run (get_pc_model_class "Dense") {[ "Dense" := PyClass "dataloader.pc_dataset" "Dense" ]}
     = ({[ "Dense" := PyClass "dataloader.pc_dataset" "Dense" ]}, Ok (PyClass "dataloader.pc_dataset" "Dense"))) ∧
  run (register_dataset (PyClass "elsewhere" "Other") (Some "Dense"))
      {[ "Dense" := PyClass "dataloader.pc_dataset" "Dense" ]}
    = ({[ "Dense" := PyClass "dataloader.pc_dataset" "Dense" ]},
       Err (AssertionError "exist class: " {[ "Dense" := PyClass "dataloader.pc_dataset" "Dense" ]})) ∧
  run (get_pc_model_class "CycleDense") {[ "Dense" := PyClass "dataloader.pc_dataset" "Dense" ]}
    = ({[ "Dense" := PyClass "dataloader.pc_dataset" "Dense" ]},
       Err (AssertionError "available class: " {[ "Dense" := PyClass "dataloader.pc_dataset" "Dense" ]})).
Proof.
  split; [|split].
  - apply (register_then_resolve (PyClass "dataloader.pc_dataset" "Dense") None ∅).
    reflexivity.
  - apply (register_then_resolve (PyClass "elsewhere" "Other") (Some "Dense")
             {[ "Dense" := PyClass "dataloader.pc_dataset" "Dense" ]}).
    eexists. reflexivity.
  - apply (register_then_resolve (PyClass "elsewhere" "Other") None
             {[ "Dense" := PyClass "dataloader.pc_dataset" "Dense" ]}).
    reflexivity.
Defined.

(** * Further properties *)

(** ** Lookups that are known *)

Lemma dict_getitem_Some {K V} `{Countable K} (repr : K → key) (d : gmap K V) k v :
  d !! k = Some v → dict_getitem repr d k = Ok v.
Proof. unfold dict_getitem. by intros ->. Qed.

Lemma dict_getitem_None {K V} `{Countable K} (repr : K → key) (d : gmap K V) k :
  d !! k = None → dict_getitem repr d k = Err (KeyError (repr k)).
Proof. unfold dict_getitem. by intros ->. Qed.

(** ** Indices *)

Lemma py_index_out_of_range {A} (l : list A) (i : Z) :
  (i < - Z.of_nat (length l) ∨ Z.of_nat (length l) ≤ i)%Z → py_index l i = None.
Proof.
  intros Hi. unfold py_index. cbv zeta.
  destruct (decide (i < 0)%Z); (rewrite decide_False by lia); reflexivity.
Qed.

Lemma py_index_negative {A} (l : list A) (i : Z) :
  (- Z.of_nat (length l) ≤ i < 0)%Z →
  py_index l i = py_index l (Z.of_nat (length l) + i).
Proof.
  intros Hi. unfold py_index. cbv zeta.
  rewrite (decide_True (P := (i < 0)%Z)) by lia.
  rewrite (decide_False (P := (Z.of_nat (length l) + i < 0)%Z)) by lia.
  reflexivity.
Qed.

(** X1.  An index outside [-len, len) makes every variant fail with
    [IndexError] before anything outside the object is touched. *)
Theorem index_out_of_range (E : env) (index : Z) (t : list event) :
  (∀ self : SemKITTI_sk.t,
     (index < - Z.of_nat (SemKITTI_sk.__len__ self)
      ∨ Z.of_nat (SemKITTI_sk.__len__ self) ≤ index)%Z →
     run (SemKITTI_sk.__getitem__ E self index) t = (t, Err IndexError)) ∧
  (∀ self : Dense.t,
     (index < - Z.of_nat (Dense.__len__ self)
      ∨ Z.of_nat (Dense.__len__ self) ≤ index)%Z →
     run (Dense.__getitem__ E self index) t = (t, Err IndexError)) ∧
  (∀ self : CycleDense.t,
     (index < - Z.of_nat (CycleDense.__len__ self)
      ∨ Z.of_nat (CycleDense.__len__ self) ≤ index)%Z →
     run (CycleDense.__getitem__ E self index) t = (t, Err IndexError)) ∧
  (∀ self : SemKITTI_nusc.t,
     (index < - Z.of_nat (SemKITTI_nusc.__len__ self)
      ∨ Z.of_nat (SemKITTI_nusc.__len__ self) ≤ index)%Z →
     run (SemKITTI_nusc.__getitem__ E self index) t = (t, Err IndexError)).
Proof.
  split; [|split; [|split]]; intros self Hi.
  - unfold SemKITTI_sk.__getitem__, list_getitem.
    rewrite run_bind, run_lift, py_index_out_of_range by exact Hi. reflexivity.
  - unfold Dense.__getitem__, list_getitem.
    rewrite run_bind, run_lift, py_index_out_of_range by exact Hi. reflexivity.
  - unfold CycleDense.__getitem__, list_getitem.
    rewrite run_bind, run_lift, py_index_out_of_range by exact Hi. reflexivity.
  - unfold SemKITTI_nusc.__getitem__, list_getitem.
    rewrite run_bind, run_lift, py_index_out_of_range by exact Hi. reflexivity.
Qed.

Lemma index_out_of_range_witness :
  run (SemKITTI_sk.__getitem__ Fixture.E
         (Fixture.sk "train" false ["/data/00/velodyne/000000.bin"]) 1) []
    = ([], Err IndexError) ∧
  run (Dense.__getitem__ Fixture.E
         (Fixture.dense "train" true ["/dense/train_01/a.hdf5"]) (-2)) []
    = ([], Err IndexError) ∧
  run (CycleDense.__getitem__ Fixture.E (Fixture.cycledense true) 1) []
    = ([], Err IndexError) ∧
  run (SemKITTI_nusc.__getitem__ Fixture.E (Fixture.nuscenes false) 2) []
    = ([], Err IndexError).
Proof.
  split; [|split; [|split]].
  - apply (proj1 (index_out_of_range Fixture.E 1 [])). cbn. lia.
  - apply (proj1 (proj2 (index_out_of_range Fixture.E (-2) []))). cbn. lia.
  - apply (proj1 (proj2 (proj2 (index_out_of_range Fixture.E 1 [])))). cbn. lia.
  - apply (proj2 (proj2 (proj2 (index_out_of_range Fixture.E 2 [])))). cbn. lia.
Defined.

(** X2.  A negative index in [-len, 0) is the access at [len + index]: same
    result, same files touched. *)
Theorem negative_index_counts_from_end (E : env) (index : Z) (t : list event) :
  (∀ self : SemKITTI_sk.t,
     (- Z.of_nat (SemKITTI_sk.__len__ self) ≤ index < 0)%Z →
     run (SemKITTI_sk.__getitem__ E self index) t
     = run (SemKITTI_sk.__getitem__ E self
              (Z.of_nat (SemKITTI_sk.__len__ self) + index)) t) ∧
  (∀ self : Dense.t,
     (- Z.of_nat (Dense.__len__ self) ≤ index < 0)%Z →
     run (Dense.__getitem__ E self index) t
     = run (Dense.__getitem__ E self (Z.of_nat (Dense.__len__ self) + index)) t) ∧
  (∀ self : CycleDense.t,
     (- Z.of_nat (CycleDense.__len__ self) ≤ index < 0)%Z →
     run (CycleDense.__getitem__ E self index) t
     = run (CycleDense.__getitem__ E self
              (Z.of_nat (CycleDense.__len__ self) + index)) t) ∧
  (∀ self : SemKITTI_nusc.t,
     (- Z.of_nat (SemKITTI_nusc.__len__ self) ≤ index < 0)%Z →
     run (SemKITTI_nusc.__getitem__ E self index) t
     = run (SemKITTI_nusc.__getitem__ E self
              (Z.of_nat (SemKITTI_nusc.__len__ self) + index)) t).
Proof.
  split; [|split; [|split]]; intros self Hi.
  - unfold SemKITTI_sk.__getitem__, list_getitem.
    rewrite !run_bind, !run_lift.
    by rewrite (py_index_negative _ index) by exact Hi.
  - unfold Dense.__getitem__, list_getitem.
    rewrite !run_bind, !run_lift.
    by rewrite (py_index_negative _ index) by exact Hi.
  - unfold CycleDense.__getitem__, list_getitem.
    rewrite !run_bind, !run_lift.
    by rewrite (py_index_negative _ index) by exact Hi.
  - unfold SemKITTI_nusc.__getitem__, list_getitem.
    rewrite !run_bind, !run_lift.
    by rewrite (py_index_negative _ index) by exact Hi.
Qed.

Lemma negative_index_counts_from_end_witness :
  run (SemKITTI_sk.__getitem__ Fixture.E
         (Fixture.sk "train" false
            ["/data/00/velodyne/000001.bin"; "/data/00/velodyne/000000.bin"]) (-1)) []
  = run (SemKITTI_sk.__getitem__ Fixture.E
           (Fixture.sk "train" false
              ["/data/00/velodyne/000001.bin"; "/data/00/velodyne/000000.bin"])
           (Z.of_nat (SemKITTI_sk.__len__
                        (Fixture.sk "train" false
                           ["/data/00/velodyne/000001.bin";
                            "/data/00/velodyne/000000.bin"])) + -1)) [] ∧
  run (SemKITTI_nusc.__getitem__ Fixture.E (Fixture.nuscenes false) (-2)) []
  = run (SemKITTI_nusc.__getitem__ Fixture.E (Fixture.nuscenes false)
           (Z.of_nat (SemKITTI_nusc.__len__ (Fixture.nuscenes false)) + -2)) [].
Proof.
  split.
  - apply (proj1 (negative_index_counts_from_end Fixture.E (-1) [])). cbn. lia.
  - apply (proj2 (proj2 (proj2 (negative_index_counts_from_end Fixture.E (-2) [])))).
    cbn. lia.
Defined.

(** ** What a constructor collects *)


(** The loop stops at the first entry that has no directory. *)
Lemma run_collect_paths_Err {A} E (dir : A → result string) xs ds x e rest t :
  Forall2 (λ x d, dir x = Ok d) xs ds → dir x = Err e →
  run (collect_paths E dir (xs ++ x :: rest)) t =
  ((t ++ (EvWalk <$> ds))%list, Err e).
Proof.
  intros HF Hx. revert t. induction HF as [|y d xs ds Hy _ IH]; intros t.
  - cbn [app collect_paths]. rewrite run_bind, run_lift, Hx. cbn.
    by rewrite app_nil_r.
  - cbn [app collect_paths]. rewrite run_bind, run_lift, Hy.
    rewrite run_bind. unfold absoluteFilePaths at 1.
    rewrite run_bind, run_emit, run_ret.
    rewrite run_bind, IH. rewrite <- (assoc_L (++)). reflexivity.
Qed.





Section constructed.
Context (E : env) (data_path : string) (return_ref : option bool)
  (label_mapping : option string) (nusc : option NuScenes).




End constructed.



Section split_runs.
Context (E : env) (data_path : string) (return_ref : option bool)
  (label_mapping : option string) (nusc : option NuScenes).
Context (bs : list byte) (doc : yaml_doc) (lmap : gmap Z Z)
  (sp : gmap string (list yaml_scalar)).
Hypothesis Hdoc : yaml_safe_load E bs = Some doc.
Hypothesis Hlmap : y_learning_map doc = Some lmap.
Hypothesis Hsp : y_split doc = Some sp.

Lemma sk_init_split im key l t :
  (im, key) ∈ split_keys →
  fs E !! default "semantic-kitti.yaml" label_mapping = Some bs →
  sp !! key = Some l →
  run (SemKITTI_sk.__init__ E data_path (Some im) return_ref label_mapping nusc) t
  = ((t ++ EvOpen (default "semantic-kitti.yaml" label_mapping)
        :: (EvWalk <$>
            ((λ x, str_join "/" [data_path; str_zfill 2 (py_str x); "velodyne"])
               <$> l)))%list,
     Ok (SemKITTI_sk.Build (default false return_ref) lmap im
           (((λ x, str_join "/" [data_path; str_zfill 2 (py_str x); "velodyne"])
               <$> l) ≫= walk_files E))).
Proof.
  intros Hkey Hfs Hl.
  unfold SemKITTI_sk.__init__. cbn zeta.
  rewrite run_bind, run_load_yaml, Hfs, Hdoc.
  rewrite run_bind, run_lift, Hlmap. cbn [doc_getitem].
  rewrite run_bind, run_lift. cbn [default from_option id].
  assert (Hsplit :
    (if decide (im = "train") then
       sp ← doc_getitem "split" (y_split doc); dict_getitem KStr sp "train"
     else if decide (im = "val") then
       sp ← doc_getitem "split" (y_split doc); dict_getitem KStr sp "valid"
     else if decide (im = "test") then
       sp ← doc_getitem "split" (y_split doc); dict_getitem KStr sp "test"
     else Err (Exception "Split must be train/val/test")) = Ok l).
  { rewrite Hsp. cbn [doc_getitem mbind result_bind]. unfold dict_getitem.
    unfold split_keys in Hkey. rewrite !elem_of_cons, elem_of_nil in Hkey.
    destruct Hkey as [[= -> ->]|[[= -> ->]|[[= -> ->]|[]]]].
    - rewrite decide_True by done. by rewrite Hl.
    - rewrite decide_False, decide_True by done. by rewrite Hl.
    - rewrite !decide_False, decide_True by done. by rewrite Hl. }
  rewrite Hsplit.
  rewrite run_bind, run_collect_paths_total, run_ret.
  by rewrite <- (assoc_L (++)).
Qed.

Lemma dense_init_split im key l t :
  (im, key) ∈ split_keys →
  fs E !! default "dense.yaml" label_mapping = Some bs →
  sp !! key = Some l →
  run (Dense.__init__ E data_path (Some im) return_ref label_mapping nusc) t
  = run (collect_paths E (Dense.folder_path data_path) l ≫= λ im_idx,
         mret (Dense.Build (default true return_ref) lmap im im_idx))
        (t ++ [EvOpen (default "dense.yaml" label_mapping)])%list.
Proof.
  intros Hkey Hfs Hl.
  unfold Dense.__init__. cbn zeta.
  rewrite run_bind, run_load_yaml, Hfs, Hdoc.
  rewrite run_bind, run_lift, Hlmap. cbn [doc_getitem].
  rewrite run_bind, run_lift. cbn [default from_option id].
  assert (Hsplit :
    (if decide (im = "train") then
       sp ← doc_getitem "split" (y_split doc); dict_getitem KStr sp "train"
     else if decide (im = "val") then
       sp ← doc_getitem "split" (y_split doc); dict_getitem KStr sp "valid"
     else if decide (im = "test") then
       sp ← doc_getitem "split" (y_split doc); dict_getitem KStr sp "test"
     else Err (Exception "Split must be train/val/test")) = Ok l).
  { rewrite Hsp. cbn [doc_getitem mbind result_bind]. unfold dict_getitem.
    unfold split_keys in Hkey. rewrite !elem_of_cons, elem_of_nil in Hkey.
    destruct Hkey as [[= -> ->]|[[= -> ->]|[[= -> ->]|[]]]].
    - rewrite decide_True by done. by rewrite Hl.
    - rewrite decide_False, decide_True by done. by rewrite Hl.
    - rewrite !decide_False, decide_True by done. by rewrite Hl. }
  rewrite Hsplit. reflexivity.
Qed.

End split_runs.

(** ** Directories of a split *)

Lemma pretty_N_go_length (x : N) (s : string) :
  (String.length s ≤ String.length (pretty_N_go x s))%nat.
Proof.
  revert s. induction (N.lt_wf_0 x) as [x _ IH]; intros s.
  destruct (decide (x = 0)%N) as [->|Hx]; [by rewrite pretty_N_go_0|].
  rewrite pretty_N_go_step by lia.
  etrans; [|apply IH; apply N.div_lt; lia]. cbn. lia.
Qed.

Lemma pretty_two_digits (z : Z) :
  (10 ≤ z)%Z → (2 ≤ String.length (pretty z))%nat.
Proof.
  intros Hz. destruct z as [|p|p]; try lia.
  change (pretty (Z.pos p)) with (pretty (N.pos p)).
  unfold pretty, pretty_N. rewrite decide_False by done.
  rewrite pretty_N_go_step by lia.
  rewrite pretty_N_go_step by (apply N.div_str_pos; lia).
  etrans; [|apply pretty_N_go_length]. cbn. lia.
Qed.

Lemma zfill2_pretty (z : Z) :
  (0 ≤ z)%Z →
  str_zfill 2 (pretty z) = if decide (z < 10)%Z then "0" +:+ pretty z else pretty z.
Proof.
  intros Hz. case_decide as Hlt.
  - assert (z = 0 ∨ z = 1 ∨ z = 2 ∨ z = 3 ∨ z = 4 ∨ z = 5 ∨ z = 6 ∨ z = 7
            ∨ z = 8 ∨ z = 9)%Z as Hcases by lia.
    repeat (destruct Hcases as [->|Hcases]; [reflexivity|]). by subst.
  - pose proof (pretty_two_digits z ltac:(lia)) as Hlen.
    unfold str_zfill. destruct (pretty z) as [|c s]; [cbn in Hlen; lia|].
    replace (2 - String.length (String c s))%nat with 0%nat
      by (cbn in Hlen |- *; lia).
    cbn. by destruct (bool_decide _).
Qed.

(** X4.  The directory [SemKITTI_sk] walks for a sequence number: the number
    is written with at least two digits. *)
Theorem sk_sequence_folders (E : env) (data_path : string) (im key : string)
    (return_ref : option bool) (label_mapping : option string)
    (nusc : option NuScenes) (t : list event) (bs : list byte) (doc : yaml_doc)
    (lmap : gmap Z Z) (sp : gmap string (list yaml_scalar)) (zs : list Z) :
  (im, key) ∈ split_keys →
  fs E !! default "semantic-kitti.yaml" label_mapping = Some bs →
  yaml_safe_load E bs = Some doc →
  y_learning_map doc = Some lmap →
  y_split doc = Some sp →
  sp !! key = Some (YInt <$> zs) →
  Forall (λ z, 0 ≤ z)%Z zs →
  ∃ ds,
    run (SemKITTI_sk.__init__ E data_path (Some im) return_ref label_mapping nusc) t
    = ((t ++ EvOpen (default "semantic-kitti.yaml" label_mapping)
          :: (EvWalk <$>
              ((λ z : Z, data_path +:+ "/"
                         +:+ (if decide (z < 10)%Z then "0" +:+ pretty z
                              else pretty z)
                         +:+ "/velodyne") <$> zs)))%list,
       Ok ds) ∧
    SemKITTI_sk.im_idx ds
    = ((λ z : Z, data_path +:+ "/"
                 +:+ (if decide (z < 10)%Z then "0" +:+ pretty z else pretty z)
                 +:+ "/velodyne") <$> zs) ≫= walk_files E.
Proof.
  intros Hkey Hfs Hdoc Hlmap Hsp Hl Hzs.
  rewrite (sk_init_split E data_path return_ref label_mapping nusc bs doc lmap
             sp Hdoc Hlmap Hsp im key _ t Hkey Hfs Hl).
  assert (Hdirs :
    (λ x, str_join "/" [data_path; str_zfill 2 (py_str x); "velodyne"])
      <$> (YInt <$> zs)
    = (λ z : Z, data_path +:+ "/"
                +:+ (if decide (z < 10)%Z then "0" +:+ pretty z else pretty z)
                +:+ "/velodyne") <$> zs).
  { rewrite <- list_fmap_compose.
    apply Forall_fmap_ext. eapply Forall_impl; [exact Hzs|].
    intros z Hz. cbn. by rewrite zfill2_pretty. }
  rewrite Hdirs. eexists. split; reflexivity.
Qed.

Lemma sk_sequence_folders_witness :
  ∃ ds,
    run (SemKITTI_sk.__init__ Fixture.E "/data" (Some "test") None None None) []
    = (([] ++ EvOpen (default "semantic-kitti.yaml" None)
           :: (EvWalk <$>
               ((λ z : Z, "/data" +:+ "/"
                          +:+ (if decide (z < 10)%Z then "0" +:+ pretty z
                               else pretty z)
                          +:+ "/velodyne") <$> [11%Z])))%list,
       Ok ds) ∧
    SemKITTI_sk.im_idx ds
    = ((λ z : Z, "/data" +:+ "/"
                 +:+ (if decide (z < 10)%Z then "0" +:+ pretty z else pretty z)
                 +:+ "/velodyne") <$> [11%Z]) ≫= walk_files Fixture.E.
Proof.
  apply (sk_sequence_folders Fixture.E "/data" "test" "test" None None None []
           [x01] Fixture.kitti_doc Fixture.learning_map
           {[ "train" := [YInt 0]; "valid" := [YInt 8]; "test" := [YInt 11] ]}
           [11%Z]).
  - by_decide.
  - reflexivity.
  - reflexivity.
  - reflexivity.
  - reflexivity.
  - reflexivity.
  - repeat constructor. lia.
Defined.

(** ** A data root that holds nothing *)

Lemma bind_walk_files_nil E (dirs : list string) :
  Forall (λ d, os_walk E d = []) dirs → dirs ≫= walk_files E = [].
Proof.
  induction 1 as [|d dirs Hd _ IH]; [done|].
  rewrite bind_cons, IH. unfold walk_files. by rewrite Hd.
Qed.

(** X5.  When the walks under the data root deliver nothing (as [os.walk]
    does for a directory that does not exist), construction still
    succeeds: the dataset is empty and every access is out of range. *)
Theorem missing_data_root_gives_empty_dataset (E : env) (data_path : string)
    (im key : string) (return_ref : option bool) (label_mapping : option string)
    (nusc : option NuScenes) (t : list event) (bs : list byte) (doc : yaml_doc)
    (lmap : gmap Z Z) (sp : gmap string (list yaml_scalar)) :
  (im, key) ∈ split_keys →
  yaml_safe_load E bs = Some doc →
  y_learning_map doc = Some lmap →
  y_split doc = Some sp →
  (∀ sub, os_walk E (data_path +:+ "/" +:+ sub) = []) →
  (∀ l, fs E !! default "semantic-kitti.yaml" label_mapping = Some bs →
        sp !! key = Some l →
        ∃ t' ds,
          run (SemKITTI_sk.__init__ E data_path (Some im) return_ref
                 label_mapping nusc) t = (t', Ok ds) ∧
          SemKITTI_sk.__len__ ds = 0 ∧
          ∀ index t1,
            run (SemKITTI_sk.__getitem__ E ds index) t1 = (t1, Err IndexError)) ∧
  (∀ names, fs E !! default "dense.yaml" label_mapping = Some bs →
        sp !! key = Some (YStr <$> names) →
        ∃ t' ds,
          run (Dense.__init__ E data_path (Some im) return_ref
                 label_mapping nusc) t = (t', Ok ds) ∧
          Dense.__len__ ds = 0 ∧
          ∀ index t1,
            run (Dense.__getitem__ E ds index) t1 = (t1, Err IndexError)).
Proof.
  intros Hkey Hdoc Hlmap Hsp Hwalk. split.
  - intros l Hfs Hl.
    rewrite (sk_init_split E data_path return_ref label_mapping nusc bs doc lmap
               sp Hdoc Hlmap Hsp im key l t Hkey Hfs Hl).
    rewrite bind_walk_files_nil.
    2:{ apply Forall_fmap, Forall_true. intros x. cbn. apply Hwalk. }
    eexists _, _. split; [reflexivity|]. split; [reflexivity|].
    intros index t1. unfold SemKITTI_sk.__getitem__, list_getitem.
    rewrite run_bind, run_lift. cbn [SemKITTI_sk.im_idx].
    rewrite py_index_out_of_range by (cbn; lia). reflexivity.
  - intros names Hfs Hl.
    rewrite (dense_init_split E data_path return_ref label_mapping nusc bs doc
               lmap sp Hdoc Hlmap Hsp im key _ t Hkey Hfs Hl).
    rewrite run_bind,
      (run_collect_paths E _ _ ((λ s, str_join "/" [data_path; s]) <$> names)).
    2:{ apply Forall2_fmap, Forall_Forall2_diag, Forall_true. done. }
    rewrite run_ret, bind_walk_files_nil.
    2:{ apply Forall_fmap, Forall_true. intros x. cbn. apply Hwalk. }
    eexists _, _. split; [reflexivity|]. split; [reflexivity|].
    intros index t1. unfold Dense.__getitem__, list_getitem.
    rewrite run_bind, run_lift. cbn [Dense.im_idx].
    rewrite py_index_out_of_range by (cbn; lia). reflexivity.
Qed.

Lemma missing_data_root_gives_empty_dataset_witness :
  (∃ t' ds,
     run (SemKITTI_sk.__init__ Fixture.E "/no/such/root" (Some "train") None None
            None) [] = (t', Ok ds) ∧
     SemKITTI_sk.__len__ ds = 0 ∧
     ∀ index t1,
       run (SemKITTI_sk.__getitem__ Fixture.E ds index) t1 = (t1, Err IndexError)) ∧
  (∃ t' ds,
     run (Dense.__init__ Fixture.E "/no/such/root" (Some "train") None None
            None) [] = (t', Ok ds) ∧
     Dense.__len__ ds = 0 ∧
     ∀ index t1,
       run (Dense.__getitem__ Fixture.E ds index) t1 = (t1, Err IndexError)).
Proof.
  assert (Hwalk : ∀ sub, os_walk Fixture.E ("/no/such/root" +:+ "/" +:+ sub) = [])
    by (intros sub; reflexivity).
  split.
  - apply (proj1 (missing_data_root_gives_empty_dataset Fixture.E "/no/such/root"
                    "train" "train" None None None [] [x01] Fixture.kitti_doc
                    Fixture.learning_map
                    {[ "train" := [YInt 0]; "valid" := [YInt 8];
                       "test" := [YInt 11] ]}
                    ltac:(by_decide) eq_refl eq_refl eq_refl Hwalk) [YInt 0]);
      reflexivity.
  - apply (proj2 (missing_data_root_gives_empty_dataset Fixture.E "/no/such/root"
                    "train" "train" None None None [] [x03] Fixture.dense_doc
                    Fixture.learning_map
                    {[ "train" := [YStr "train_01"]; "valid" := [YStr "val_01"];
                       "test" := [YStr "test_01"];
                       "trainclear" := [YStr "train_01"] ]}
                    ltac:(by_decide) eq_refl eq_refl eq_refl Hwalk) ["train_01"]);
      reflexivity.
Defined.

(** ** Folder names that are not strings *)

Lemma cycledense_init_split (E : env) (data_path : string)
    (return_ref : option bool) (label_mapping : option string)
    (nusc : option NuScenes) (bs : list byte) (doc : yaml_doc) (lmap : gmap Z Z)
    (sp : gmap string (list yaml_scalar)) im clss l t :
  yaml_safe_load E bs = Some doc →
  y_learning_map doc = Some lmap →
  y_split doc = Some sp →
  im +:+ clss ∈ cycle_keys →
  fs E !! default "cycledense.yaml" label_mapping = Some bs →
  sp !! (im +:+ clss) = Some l →
  run (CycleDense.__init__ E data_path (Some im) (Some clss) return_ref
         label_mapping nusc) t
  = run (collect_paths E (Dense.folder_path data_path) l ≫= λ im_idx,
         mret (CycleDense.Build (default true return_ref) lmap im im_idx))
        (t ++ [EvOpen (default "cycledense.yaml" label_mapping)])%list.
Proof.
  intros Hdoc Hlmap Hsp Hkey Hfs Hl.
  unfold CycleDense.__init__. cbn zeta.
  rewrite run_bind, run_load_yaml, Hfs, Hdoc.
  rewrite run_bind, run_lift, Hlmap. cbn [doc_getitem].
  rewrite run_bind, run_lift. cbn [default from_option id].
  rewrite Hsp. cbn [doc_getitem mbind result_bind].
  unfold cycle_keys in Hkey. rewrite !elem_of_cons, elem_of_nil in Hkey.
  revert Hl. generalize (im +:+ clss) Hkey. clear Hkey. intros k Hkey Hl.
  repeat (destruct Hkey as [->|Hkey];
          [repeat (rewrite decide_False by done); rewrite decide_True by done;
           by rewrite (dict_getitem_Some _ _ _ _ Hl)|]).
  done.
Qed.

(** X6.  [Dense] and [CycleDense] join the data root and the split entry as
    they are: an entry that YAML read as an integer makes the constructor
    fail with [TypeError], after the directories of the entries before it
    have been walked. *)
Theorem dense_integer_folder_is_type_error (E : env) (data_path : string)
    (return_ref : option bool) (label_mapping : option string)
    (nusc : option NuScenes) (t : list event) (bs : list byte) (doc : yaml_doc)
    (lmap : gmap Z Z) (sp : gmap string (list yaml_scalar))
    (names : list string) (z : Z) (rest : list yaml_scalar) :
  yaml_safe_load E bs = Some doc →
  y_learning_map doc = Some lmap →
  y_split doc = Some sp →
  (∀ im key,
     (im, key) ∈ split_keys →
     fs E !! default "dense.yaml" label_mapping = Some bs →
     sp !! key = Some ((YStr <$> names) ++ YInt z :: rest)%list →
     run (Dense.__init__ E data_path (Some im) return_ref label_mapping nusc) t
     = ((t ++ EvOpen (default "dense.yaml" label_mapping)
           :: (EvWalk <$> ((λ s, data_path +:+ "/" +:+ s) <$> names)))%list,
        Err TypeError)) ∧
  (∀ im clss,
     im +:+ clss ∈ cycle_keys →
     fs E !! default "cycledense.yaml" label_mapping = Some bs →
     sp !! (im +:+ clss) = Some ((YStr <$> names) ++ YInt z :: rest)%list →
     run (CycleDense.__init__ E data_path (Some im) (Some clss) return_ref
            label_mapping nusc) t
     = ((t ++ EvOpen (default "cycledense.yaml" label_mapping)
           :: (EvWalk <$> ((λ s, data_path +:+ "/" +:+ s) <$> names)))%list,
        Err TypeError)).
Proof.
  intros Hdoc Hlmap Hsp.
  assert (Hloop : ∀ t1 : list event,
    run (collect_paths E (Dense.folder_path data_path)
           ((YStr <$> names) ++ YInt z :: rest)) t1
    = ((t1 ++ (EvWalk <$> ((λ s, data_path +:+ "/" +:+ s) <$> names)))%list,
       Err TypeError)).
  { intros t1. apply run_collect_paths_Err; [|done].
    apply Forall2_fmap, Forall_Forall2_diag, Forall_true. done. }
  split.
  - intros im key Hkey Hfs Hl.
    rewrite (dense_init_split E data_path return_ref label_mapping nusc bs doc
               lmap sp Hdoc Hlmap Hsp im key _ t Hkey Hfs Hl).
    rewrite run_bind, Hloop. by rewrite <- (assoc_L (++)).
  - intros im clss Hkey Hfs Hl.
    rewrite (cycledense_init_split E data_path return_ref label_mapping nusc bs
               doc lmap sp im clss _ t Hdoc Hlmap Hsp Hkey Hfs Hl).
    rewrite run_bind, Hloop. by rewrite <- (assoc_L (++)).
Qed.

Lemma dense_integer_folder_is_type_error_witness :
  run (Dense.__init__ Broken.E "/dense" (Some "train") None (Some "numbered.yaml")
         None) []
  = (([] ++ EvOpen (default "dense.yaml" (Some "numbered.yaml"))
         :: (EvWalk <$> ((λ s, "/dense" +:+ "/" +:+ s) <$> ["train_01"])))%list,
     Err TypeError) ∧
  run (CycleDense.__init__ Broken.E "/dense" (Some "train") (Some "clear") None
         (Some "numbered.yaml") None) []
  = (([] ++ EvOpen (default "cycledense.yaml" (Some "numbered.yaml"))
         :: (EvWalk <$> ((λ s, "/dense" +:+ "/" +:+ s) <$> ["train_01"])))%list,
     Err TypeError).
Proof.
  split.
  - apply (proj1 (dense_integer_folder_is_type_error Broken.E "/dense" None
                    (Some "numbered.yaml") None [] [x05] Broken.numbered_doc
                    Fixture.learning_map
                    {[ "train" := [YStr "train_01"; YInt 2; YStr "train_03"];
                       "trainclear" := [YStr "train_01"; YInt 2] ]}
                    ["train_01"] 2 [YStr "train_03"] eq_refl eq_refl eq_refl)
             "train" "train"); [by_decide|reflexivity|reflexivity].
  - apply (proj2 (dense_integer_folder_is_type_error Broken.E "/dense" None
                    (Some "numbered.yaml") None [] [x05] Broken.numbered_doc
                    Fixture.learning_map
                    {[ "train" := [YStr "train_01"; YInt 2; YStr "train_03"];
                       "trainclear" := [YStr "train_01"; YInt 2] ]}
                    ["train_01"] 2 [] eq_refl eq_refl eq_refl)
             "train" "clear"); [by_decide|reflexivity|reflexivity].
Defined.

(** ** The label file of a scan *)

















(** ** The nuScenes variant *)

Lemma run_load_pickle E path t :
  run (load_pickle E path) t =
  ((t ++ [EvOpen path])%list,
   match fs E !! path with
   | Some bs =>
       match pickle_load E bs with
       | Some d => Ok d
       | None => Err (ParseError path)
       end
   | None => Err (FileNotFoundError path)
   end).
Proof.
  unfold load_pickle. rewrite run_bind, run_read_file.
  destruct (fs E !! path) as [bs|]; [|reflexivity].
  destruct (pickle_load E bs); reflexivity.
Qed.

Lemma nusc_init_inv (E : env) (data_path : string) (imageset : option string)
    (return_ref : option bool) (label_mapping : option string)
    (nusc : option NuScenes) (t t' : list event) (ds : SemKITTI_nusc.t) :
  run (SemKITTI_nusc.__init__ E data_path imageset return_ref label_mapping nusc) t
    = (t', Ok ds) →
  t' = (t ++ [EvOpen (default "train" imageset);
              EvOpen (default "nuscenes.yaml" label_mapping)])%list ∧
  (∃ bs data,
     fs E !! default "train" imageset = Some bs ∧
     pickle_load E bs = Some data ∧
     data !! "infos" = Some (SemKITTI_nusc.nusc_infos ds)) ∧
  SemKITTI_nusc.data_path ds = data_path ∧
  SemKITTI_nusc.nusc ds = nusc.
Proof.
  intros Hrun. unfold SemKITTI_nusc.__init__ in Hrun. cbn zeta in Hrun.
  apply run_bind_inv in Hrun as (t1 & data & Hpk & Hrun).
  rewrite run_load_pickle in Hpk.
  destruct (fs E !! default "train" imageset) as [bs|] eqn:Hfs; [|discriminate].
  destruct (pickle_load E bs) as [data'|] eqn:Hdata; [|discriminate].
  injection Hpk as <- <-.
  apply run_bind_inv in Hrun as (t2 & doc & Hyaml & Hrun).
  rewrite run_load_yaml in Hyaml. injection Hyaml as <- _.
  apply run_bind_inv in Hrun as (? & lmap & [= <- _] & Hrun).
  apply run_bind_inv in Hrun as (? & infos & [= <- Hinfos] & Hrun).
  rewrite run_ret in Hrun. injection Hrun as <- <-.
  rewrite <- (assoc_L (++)). split; [done|]. split; [|done].
  exists bs, data'. split; [done|]. split; [done|].
  unfold dict_getitem in Hinfos. cbn.
  by destruct (data' !! "infos"); simplify_eq.
Qed.

(** X8.  [SemKITTI_nusc] takes [imageset] as the path of the pickled index.
    It opens that file first and the label mapping second, never walks
    the data root, and keeps the records under ['infos'], the data root
    and the catalogue as they are given. *)
Theorem nusc_init_reads_index_then_mapping (E : env) (data_path : string)
    (imageset : option string) (return_ref : option bool)
    (label_mapping : option string) (nusc : option NuScenes) (t : list event) :
  (fs E !! default "train" imageset = None →
   run (SemKITTI_nusc.__init__ E data_path imageset return_ref label_mapping nusc) t
   = ((t ++ [EvOpen (default "train" imageset)])%list,
      Err (FileNotFoundError (default "train" imageset)))) ∧
  (∀ t' ds,
     run (SemKITTI_nusc.__init__ E data_path imageset return_ref label_mapping nusc) t
       = (t', Ok ds) →
     t' = (t ++ [EvOpen (default "train" imageset);
                 EvOpen (default "nuscenes.yaml" label_mapping)])%list ∧
     (∃ bs data,
        fs E !! default "train" imageset = Some bs ∧
        pickle_load E bs = Some data ∧
        data !! "infos" = Some (SemKITTI_nusc.nusc_infos ds)) ∧
     SemKITTI_nusc.data_path ds = data_path ∧
     SemKITTI_nusc.nusc ds = nusc).
Proof.
  split.
  - intros Hfs. unfold SemKITTI_nusc.__init__. cbn zeta.
    rewrite run_bind, run_load_pickle, Hfs. reflexivity.
  - intros t' ds Hrun. by apply nusc_init_inv in Hrun.
Qed.

Lemma nusc_init_reads_index_then_mapping_witness :
  run (SemKITTI_nusc.__init__ Fixture.E "/nusc" None None None None) []
  = (([] ++ [EvOpen (default "train" None)])%list,
     Err (FileNotFoundError (default "train" None))) ∧
  ∃ t' ds,
    run (SemKITTI_nusc.__init__ Fixture.E "/nusc" (Some "infos_train.pkl") None
           None (Some Fixture.nusc)) [] = (t', Ok ds) ∧
    t' = ([] ++ [EvOpen (default "train" (Some "infos_train.pkl"));
                 EvOpen (default "nuscenes.yaml" None)])%list ∧
    (∃ bs data,
       fs Fixture.E !! default "train" (Some "infos_train.pkl") = Some bs ∧
       pickle_load Fixture.E bs = Some data ∧
       data !! "infos" = Some (SemKITTI_nusc.nusc_infos ds)) ∧
    SemKITTI_nusc.data_path ds = "/nusc" ∧
    SemKITTI_nusc.nusc ds = Some Fixture.nusc.
Proof.
  split.
  - apply (proj1 (nusc_init_reads_index_then_mapping Fixture.E "/nusc" None None
                    None None [])). reflexivity.
  - run_exists.
    exact (proj2 (nusc_init_reads_index_then_mapping Fixture.E "/nusc"
                    (Some "infos_train.pkl") None None (Some Fixture.nusc) [])
             _ _ Hrun).
Defined.

(** X9.  Built without a catalogue (the default), [SemKITTI_nusc] can be
    measured but not read: every access fails before anything is opened,
    and an access to a record of the index fails for want of the
    catalogue. *)
Theorem nusc_without_catalogue (E : env) (data_path : string)
    (imageset : option string) (return_ref : option bool)
    (label_mapping : option string) (t t' : list event) (ds : SemKITTI_nusc.t) :
  run (SemKITTI_nusc.__init__ E data_path imageset return_ref label_mapping None) t
    = (t', Ok ds) →
  ∀ index t1,
    (∃ e, run (SemKITTI_nusc.__getitem__ E ds index) t1 = (t1, Err e)) ∧
    (∀ info,
       py_index (SemKITTI_nusc.nusc_infos ds) index = Some info →
       is_Some (info !! "lidar_path") →
       run (SemKITTI_nusc.__getitem__ E ds index) t1
       = (t1, Err (AttributeError "get"))).
Proof.
  intros Hinit index t1.
  apply nusc_init_inv in Hinit as (_ & _ & _ & Hnone).
  assert (Hget : ∀ info lp,
    py_index (SemKITTI_nusc.nusc_infos ds) index = Some info →
    info !! "lidar_path" = Some lp →
    run (SemKITTI_nusc.__getitem__ E ds index) t1
    = (t1, Err (AttributeError "get"))).
  { intros info lp Hidx Hlp. unfold SemKITTI_nusc.__getitem__, list_getitem.
    rewrite run_bind, run_lift, Hidx.
    rewrite run_bind, run_lift. unfold dict_getitem at 1. rewrite Hlp.
    rewrite run_bind. unfold SemKITTI_nusc.nusc_get at 1. rewrite Hnone.
    reflexivity. }
  split.
  - destruct (py_index (SemKITTI_nusc.nusc_infos ds) index) as [info|] eqn:Hidx.
    + destruct (info !! "lidar_path") as [lp|] eqn:Hlp; [by eauto|].
      eexists. unfold SemKITTI_nusc.__getitem__, list_getitem.
      rewrite run_bind, run_lift, Hidx.
      rewrite run_bind, run_lift. unfold dict_getitem at 1. rewrite Hlp.
      reflexivity.
    + eexists. unfold SemKITTI_nusc.__getitem__, list_getitem.
      rewrite run_bind, run_lift, Hidx. reflexivity.
  - intros info Hidx [lp Hlp]. by eapply Hget.
Qed.

Lemma nusc_without_catalogue_witness :
  ∃ t' ds,
    run (SemKITTI_nusc.__init__ Fixture.E "/nusc" (Some "infos_train.pkl") None
           None None) [] = (t', Ok ds) ∧
    ∀ index t1,
      (∃ e, run (SemKITTI_nusc.__getitem__ Fixture.E ds index) t1 = (t1, Err e)) ∧
      (∀ info,
         py_index (SemKITTI_nusc.nusc_infos ds) index = Some info →
         is_Some (info !! "lidar_path") →
         run (SemKITTI_nusc.__getitem__ Fixture.E ds index) t1
         = (t1, Err (AttributeError "get"))).
Proof.
  run_exists.
  exact (nusc_without_catalogue Fixture.E "/nusc" (Some "infos_train.pkl") None
           None [] _ _ Hrun).
Defined.





(** X11.  How an access of [SemKITTI_nusc] fails.  A record without a
    [lidar_path] fails before the catalogue is asked; a token the
    catalogue does not know fails after the one lookup.  The label file
    is read and remapped before the scan file is opened: when it is
    missing, or is empty, or holds a label the learning map does not
    know, the access fails with the scan never opened.  Only then a scan
    that is missing, or whose words do not make whole records of five,
    fails the access. *)
Theorem nusc_access_failures (E : env) (self : SemKITTI_nusc.t) (index : Z)
    (t : list event) (info : gmap string string) :
  py_index (SemKITTI_nusc.nusc_infos self) index = Some info →
  (info !! "lidar_path" = None →
   run (SemKITTI_nusc.__getitem__ E self index) t
   = (t, Err (KeyError (KStr "lidar_path")))) ∧
  (∀ n token,
     is_Some (info !! "lidar_path") →
     SemKITTI_nusc.nusc self = Some n →
     info !! "token" = Some token →
     nusc_table n "sample" token = None →
     run (SemKITTI_nusc.__getitem__ E self index) t
     = ((t ++ [EvCatalogue "sample" token])%list, Err (KeyError (KStr token)))) ∧
  (∀ token sd labfile scan,
     SemKITTI_nusc.resolves self index token sd labfile scan →
     (fs E !! labfile = None →
      run (SemKITTI_nusc.__getitem__ E self index) t
      = ((t ++ [EvCatalogue "sample" token; EvCatalogue "lidarseg" sd;
                EvOpen labfile])%list,
         Err (FileNotFoundError labfile))) ∧
     (∀ lbs e,
        fs E !! labfile = Some lbs →
        np_vectorize (dict_getitem KInt (SemKITTI_nusc.learning_map self))
          (NdArray [length lbs; 1] (items 1 uint8_of_bytes lbs)) = Err e →
        run (SemKITTI_nusc.__getitem__ E self index) t
        = ((t ++ [EvCatalogue "sample" token; EvCatalogue "lidarseg" sd;
                  EvOpen labfile])%list,
           Err e)) ∧
     (∀ lbs ann,
        fs E !! labfile = Some lbs →
        np_vectorize (dict_getitem KInt (SemKITTI_nusc.learning_map self))
          (NdArray [length lbs; 1] (items 1 uint8_of_bytes lbs)) = Ok ann →
        (fs E !! scan = None →
         run (SemKITTI_nusc.__getitem__ E self index) t
         = ((t ++ [EvCatalogue "sample" token; EvCatalogue "lidarseg" sd;
                   EvOpen labfile; EvOpen scan])%list,
            Err (FileNotFoundError scan))) ∧
        (∀ bs, fs E !! scan = Some bs → (length bs / 4) mod 5 ≠ 0 →
         run (SemKITTI_nusc.__getitem__ E self index) t
         = ((t ++ [EvCatalogue "sample" token; EvCatalogue "lidarseg" sd;
                   EvOpen labfile; EvOpen scan])%list,
            Err (ValueError "cannot reshape array"))))).
Proof.
  intros Hidx. split; [|split].
  - intros Hlp. unfold SemKITTI_nusc.__getitem__, list_getitem.
    rewrite run_bind, run_lift, Hidx.
    rewrite run_bind, run_lift, (dict_getitem_None _ _ _ Hlp). reflexivity.
  - intros n token [lp Hlp] Hn Htok Hsample.
    unfold SemKITTI_nusc.__getitem__, list_getitem.
    rewrite run_bind, run_lift, Hidx.
    rewrite run_bind, run_lift, (dict_getitem_Some _ _ _ _ Hlp).
    rewrite run_bind. unfold SemKITTI_nusc.nusc_get at 1. rewrite Hn.
    rewrite run_bind, run_ret, run_bind, run_lift.
    rewrite (dict_getitem_Some _ _ _ _ Htok).
    rewrite run_bind, run_emit, Hsample. reflexivity.
  - intros token sd labfile scan Hres. split; [|split].
    + intros Hlab.
      destruct Hres as (info' & lp & n & sample & sdata & seg & filename & Hidx'
                        & Hlp & Hn & Htok & Hsample & Hdata & Hsd & Hseg & Hfn
                        & -> & ->).
      unfold SemKITTI_nusc.__getitem__, list_getitem.
      rewrite run_bind, run_lift, Hidx'.
      rewrite run_bind, run_lift, (dict_getitem_Some _ _ _ _ Hlp).
      rewrite run_bind. unfold SemKITTI_nusc.nusc_get at 1. rewrite Hn.
      rewrite run_bind, run_ret, run_bind, run_lift.
      rewrite (dict_getitem_Some _ _ _ _ Htok).
      rewrite run_bind, run_emit, Hsample.
      rewrite run_ret, run_bind, run_lift. unfold doc_getitem at 1. rewrite Hdata.
      rewrite run_bind, run_lift, (dict_getitem_Some _ _ _ _ Hsd).
      rewrite run_bind, run_ret, run_bind. unfold SemKITTI_nusc.nusc_get.
      rewrite run_bind, run_ret, run_bind, run_lift, run_bind, run_emit, Hseg.
      rewrite run_ret, run_bind, run_lift. unfold doc_getitem. rewrite Hfn.
      rewrite run_bind, run_np_fromfile, Hlab.
      by rewrite <- !(assoc_L (++)).
    + intros lbs e Hlbs Hvec.
      by rewrite (nusc_getitem_eq E self index t token sd labfile scan lbs Hres
                    Hlbs), Hvec.
    + intros lbs ann Hlbs Hvec.
      rewrite (nusc_getitem_eq E self index t token sd labfile scan lbs Hres Hlbs),
        Hvec.
      split.
      * by intros ->.
      * intros bs -> Hmod. by rewrite decide_False.
Qed.

Lemma nusc_access_failures_witness :
  run (SemKITTI_nusc.__getitem__ Fixture.E
         (SemKITTI_nusc.Build false Fixture.learning_map
            [{[ "lidar_path" := "./data/nuscenes/samples/LIDAR_TOP/0.bin";
                "token" := "tok9" ]}]
            "/nusc" (Some Fixture.nusc)) 0) []
  = (([] ++ [EvCatalogue "sample" "tok9"])%list, Err (KeyError (KStr "tok9"))) ∧
  run (SemKITTI_nusc.__getitem__ Fixture.E (Fixture.nuscenes false) 1) []
  = (([] ++ [EvCatalogue "sample" "tok1"; EvCatalogue "lidarseg" "sd1";
             EvOpen "/nusc/lidarseg/1_lidarseg.bin"])%list,
     Err (KeyError (KInt 9))).
Proof.
  split.
  - apply (proj1 (proj2 (nusc_access_failures Fixture.E
                    (SemKITTI_nusc.Build false Fixture.learning_map
                       [{[ "lidar_path" := "./data/nuscenes/samples/LIDAR_TOP/0.bin";
                           "token" := "tok9" ]}]
                       "/nusc" (Some Fixture.nusc)) 0 []
                    {[ "lidar_path" := "./data/nuscenes/samples/LIDAR_TOP/0.bin";
                       "token" := "tok9" ]} eq_refl))
             Fixture.nusc "tok9"); [by eexists|reflexivity..].
  - refine (proj1 (proj2 (proj2 (proj2 (nusc_access_failures Fixture.E
                    (Fixture.nuscenes false) 1 []
                    {[ "lidar_path" := "./data/nuscenes/samples/LIDAR_TOP/1.bin";
                       "token" := "tok1" ]} eq_refl))
              "tok1" "sd1" "/nusc/lidarseg/1_lidarseg.bin"
              "/nusc/samples/LIDAR_TOP/1.bin" _))
              [x01; x09] (KeyError (KInt 9)) eq_refl eq_refl).
    eexists _, _, Fixture.nusc, _, _, _, _. repeat (split; [reflexivity|]).
    reflexivity.
Defined.

(** ** The registry after import, and registrations one after another *)

(** X12.  Importing the module leaves, whatever the registry held, exactly the
    four variants in it, each under its class name: none of the four
    decorators trips the assertion, each of the four names resolves to
    its class, and every other name is refused. *)
Theorem import_registers_the_four_variants (reg : registry) :
  ∃ reg',
    run import_module reg = (reg', Ok tt) ∧
    ∀ name,
      run (get_pc_model_class name) reg' =
      (reg',
       if decide (name ∈ dataset_classes) then Ok (PyClass module_name name)
       else Err (AssertionError "available class: " reg')).
Proof.
  eexists. split; [reflexivity|].
  intros name. unfold get_pc_model_class.
  rewrite run_bind. cbn [get_state run].
  unfold dataset_classes. case_decide as Hin.
  - rewrite !elem_of_cons, elem_of_nil in Hin.
    destruct Hin as [->|[->|[->|[->|[]]]]]; reflexivity.
  - rewrite !not_elem_of_cons in Hin. destruct Hin as (? & ? & ? & ? & _).
    cbn [cls_name].
    rewrite !lookup_insert_ne, lookup_empty by done. reflexivity.
Qed.

(** X13.  A registration leaves every other name as it was, and registering
    the same class a second time under its own name is refused. *)
Theorem register_keeps_other_names (C : pyclass) (name : option string)
    (reg : registry) (other : string) :
  reg !! default (cls_name C) name = None →
  other ≠ default (cls_name C) name →
  run (register_dataset C name ;; get_pc_model_class other) reg
  = (<[default (cls_name C) name := C]> reg,
     match reg !! other with
     | Some D => Ok D
     | None => Err (AssertionError "available class: "
                      (<[default (cls_name C) name := C]> reg))
     end) ∧
  run (register_dataset C name ;; register_dataset C name) reg
  = (<[default (cls_name C) name := C]> reg,
     Err (AssertionError "exist class: "
            (<[default (cls_name C) name := C]> reg))).
Proof.
  intros Hfree Hother.
  assert (Hname : match name with None => cls_name C | Some n => n end
                  = default (cls_name C) name) by (by destruct name).
  assert (Hreg : run (register_dataset C name) reg
                 = (<[default (cls_name C) name := C]> reg, Ok C)).
  { unfold register_dataset. rewrite Hname.
    rewrite run_bind. cbn [get_state run]. by rewrite Hfree. }
  split.
  - rewrite run_bind, Hreg. unfold get_pc_model_class.
    rewrite run_bind. cbn [get_state run].
    rewrite lookup_insert_ne by done.
    by destruct (reg !! other).
  - rewrite run_bind, Hreg. unfold register_dataset. rewrite Hname.
    rewrite run_bind. cbn [get_state run].
    by rewrite lookup_insert_eq.
Qed.

Lemma register_keeps_other_names_witness :
  run (register_dataset (PyClass module_name "Dense") None ;;
       get_pc_model_class "SemKITTI_sk")
      {[ "SemKITTI_sk" := PyClass module_name "SemKITTI_sk" ]}
  = (<[default (cls_name (PyClass module_name "Dense")) None
         := PyClass module_name "Dense"]>
       {[ "SemKITTI_sk" := PyClass module_name "SemKITTI_sk" ]},
     match ({[ "SemKITTI_sk" := PyClass module_name "SemKITTI_sk" ]} : registry)
             !! "SemKITTI_sk" with
     | Some D => Ok D
     | None => Err (AssertionError "available class: "
                      (<[default (cls_name (PyClass module_name "Dense")) None
                           := PyClass module_name "Dense"]>
                         {[ "SemKITTI_sk" := PyClass module_name "SemKITTI_sk" ]}))
     end) ∧
  run (register_dataset (PyClass module_name "Dense") None ;;
       register_dataset (PyClass module_name "Dense") None)
      {[ "SemKITTI_sk" := PyClass module_name "SemKITTI_sk" ]}
  = (<[default (cls_name (PyClass module_name "Dense")) None
         := PyClass module_name "Dense"]>
       {[ "SemKITTI_sk" := PyClass module_name "SemKITTI_sk" ]},
     Err (AssertionError "exist class: "
            (<[default (cls_name (PyClass module_name "Dense")) None
                 := PyClass module_name "Dense"]>
               {[ "SemKITTI_sk" := PyClass module_name "SemKITTI_sk" ]}))).
Proof.
  apply (register_keeps_other_names (PyClass module_name "Dense") None
           {[ "SemKITTI_sk" := PyClass module_name "SemKITTI_sk" ]} "SemKITTI_sk").
  - reflexivity.
  - discriminate.
Defined.

(** ** The ignore label *)

Lemma wrap_pred_is_255 (dt : dtype) (k : Z) :
  wrap dt k = k → k ≠ 0%Z → (wrap dt (k - 1) = 255%Z ↔ k = 256%Z).
Proof.
  unfold wrap. intros Hk Hk0.
  destruct dt; cbn [dtype_bits dtype_signed andb] in *.
  - change (2 ^ 8)%Z with 256%Z in *.
    pose proof (Z.mod_pos_bound k 256 ltac:(lia)).
    pose proof (Z.mod_pos_bound (k - 1) 256 ltac:(lia)).
    rewrite (Z.mod_small (k - 1) 256) by lia. lia.
  - change (2 ^ 32)%Z with 4294967296%Z in *.
    repeat case_bool_decide; Z.div_mod_to_equations; lia.
  - change (2 ^ 64)%Z with 18446744073709551616%Z in *.
    repeat case_bool_decide; Z.div_mod_to_equations; lia.
Qed.

(** X14.  After the transformation an element is 255 exactly when it was 0
    or, in an array wide enough to hold it, 256.  In a [uint8] array the
    255 stands for a former 0 and for nothing else, and the assignment
    of 255 only repeats what the wrap-around of the decrement gives. *)
Theorem ignore_label_marks_zeros (a : larray) (i : nat) (k : Z) :
  flat (la_data a) !! i = Some k →
  wrap (la_dtype a) k = k →
  (flat (la_data (single_update a)) !! i = Some 255%Z ↔ k = 0%Z ∨ k = 256%Z) ∧
  (la_dtype a = uint8 →
   (flat (la_data (single_update a)) !! i = Some 255%Z ↔ k = 0%Z) ∧
   flat (la_data (single_update a)) !! i = Some ((k - 1) mod 256)%Z).
Proof.
  intros Hi Hk. rewrite (single_update_lookup a i k Hi).
  split.
  - case_decide as H0; [naive_solver|].
    split.
    + intros [= H255]. right. by apply (wrap_pred_is_255 (la_dtype a)).
    + intros [? | ->]; [done|]. f_equal. by apply wrap_pred_is_255.
  - intros Hdt. rewrite Hdt in *. unfold wrap in *.
    cbn [dtype_bits dtype_signed andb] in *.
    change (2 ^ 8)%Z with 256%Z in *.
    pose proof (Z.mod_pos_bound k 256 ltac:(lia)).
    case_decide as H0.
    + subst k. split; [done|]. reflexivity.
    + split; [|done]. split; [|done].
      intros [= H255]. rewrite Z.mod_small in H255 by lia. lia.
Qed.

Lemma ignore_label_marks_zeros_witness :
  ((flat (la_data (single_update (LArray int32 (NdArray [3] [0; 256; 7]%Z)))) !! 1
    = Some 255%Z ↔ 256%Z = 0%Z ∨ 256%Z = 256%Z) ∧
   (la_dtype (LArray int32 (NdArray [3] [0; 256; 7]%Z)) = uint8 →
    (flat (la_data (single_update (LArray int32 (NdArray [3] [0; 256; 7]%Z)))) !! 1
     = Some 255%Z ↔ 256%Z = 0%Z) ∧
    flat (la_data (single_update (LArray int32 (NdArray [3] [0; 256; 7]%Z)))) !! 1
    = Some ((256 - 1) mod 256)%Z)) ∧
  ((flat (la_data (single_update (LArray uint8 (NdArray [3] [0; 1; 255]%Z)))) !! 2
    = Some 255%Z ↔ 255%Z = 0%Z) ∧
   flat (la_data (single_update (LArray uint8 (NdArray [3] [0; 1; 255]%Z)))) !! 2
   = Some ((255 - 1) mod 256)%Z).
Proof.
  split.
  - apply (ignore_label_marks_zeros (LArray int32 (NdArray [3] [0; 256; 7]%Z))
             1 256); reflexivity.
  - apply (proj2 (ignore_label_marks_zeros
                    (LArray uint8 (NdArray [3] [0; 1; 255]%Z)) 2 255
                    eq_refl eq_refl)).
    reflexivity.
Defined.

(** ** Where the points come from *)

Lemma omap_lookup_all {A B} (f : A → option B) (l : list A) (i : nat) :
  Forall (λ x, is_Some (f x)) l → omap f l !! i = l !! i ≫= f.
Proof.
  intros HF. revert i. induction HF as [|x l [y Hy] _ IH]; intros i; [done|].
  cbn. rewrite Hy. destruct i as [|i]; cbn; [done|]. apply IH.
Qed.

Lemma column_lookup {A} (c j r : nat) (l : list A) (i : nat) :
  j < c → (r * c ≤ length l)%nat → i < r →
  column c j r l !! i = l !! (i * c + j)%nat.
Proof.
  intros Hj Hl Hi. unfold column. rewrite omap_lookup_all.
  - by rewrite lookup_seq_lt.
  - apply Forall_forall. intros x Hx. apply elem_of_seq in Hx.
    apply lookup_lt_is_Some. nia.
Qed.

Lemma rows_lookup {A} (l : list A) (N c k i j : nat) :
  (k ≤ c)%nat → (N * c ≤ length l)%nat → i < N → j < k →
  (seq 0 N ≫= λ i, take k (drop (i * c) l)) !! (i * k + j)%nat
  = l !! (i * c + j)%nat.
Proof.
  intros Hk Hl Hi Hj.
  rewrite (lookup_bind_blocks (λ i, take k (drop (i * c) l)) k); [| |done].
  - rewrite lookup_seq_lt by done. cbn.
    rewrite lookup_take_lt by done. by rewrite lookup_drop.
  - intros x Hx. apply elem_of_seq in Hx.
    rewrite length_take, length_drop. nia.
Qed.

Lemma items_lookup {A} (k : nat) (dec : list byte → A) (bs : list byte) (i : nat) :
  i < length bs / k →
  items k dec bs !! i = Some (dec (take k (drop (i * k) bs))).
Proof.
  intros Hi. unfold items. rewrite list_lookup_fmap, lookup_seq_lt by done.
  reflexivity.
Qed.

Section scan_files.
Context (E : env).

Lemma sk_getitem_points (self : SemKITTI_sk.t) index t t' r :
  run (SemKITTI_sk.__getitem__ E self index) t = (t', Ok r) →
  ∃ scan bs lab,
    py_index (SemKITTI_sk.im_idx self) index = Some scan ∧
    fs E !! scan = Some bs ∧
    (length bs / 4) mod 4 = 0 ∧
    r = TFloat (NdArray [length bs / 4 / 4; 3]
                  (seq 0 (length bs / 4 / 4) ≫= λ i,
                   take 3 (drop (i * 4) (items 4 (f32_of_bytes E) bs))))
        :: lab
        :: (if SemKITTI_sk.return_ref self
            then [TFloat (NdArray [length bs / 4 / 4]
                            (column 4 3 (length bs / 4 / 4)
                               (items 4 (f32_of_bytes E) bs)))]
            else []).
Proof.
  unfold SemKITTI_sk.__getitem__.
  rewrite run_bind, run_lift. unfold list_getitem.
  destruct (py_index _ _) as [scan|] eqn:Hidx; [|discriminate].
  rewrite run_bind, run_np_fromfile.
  destruct (fs E !! scan) as [bs|] eqn:Hbs; [|discriminate].
  rewrite run_bind, run_lift. unfold reshape_rows_auto. cbn [flat].
  rewrite length_items.
  case_decide as Hmod; [|discriminate].
  rewrite run_bind.
  match goal with
  | |- context [run ?m (t ++ [EvOpen scan])%list] =>
      destruct (run m (t ++ [EvOpen scan])%list) as [t1 [ann|e]]
  end; [|discriminate].
  rewrite run_bind, run_lift. unfold slice_cols. cbn [shape flat].
  change (3 `min` 4) with 3.
  destruct (SemKITTI_sk.return_ref self).
  - rewrite run_bind, run_lift. unfold get_col. cbn [shape flat].
    rewrite decide_True by lia. rewrite run_ret.
    intros [= <- <-]. eexists scan, bs, _. by destruct Hmod.
  - rewrite run_ret.
    intros [= <- <-]. eexists scan, bs, _. by destruct Hmod.
Qed.

End scan_files.

(** X15.  The points of [SemKITTI_sk] and [SemKITTI_nusc] are the words of the
    scan file in the order of the file: point [i] has for coordinates
    words [0..2] of record [i] (four words a record for [SemKITTI_sk],
    five for [SemKITTI_nusc]) and for reference value word [3]; the
    fifth word of a nuScenes record is read and dropped. *)
Theorem points_from_scan_file (E : env) (index : Z) (t t' : list event)
    (r : list (tensor E)) :
  (∀ self : SemKITTI_sk.t,
     run (SemKITTI_sk.__getitem__ E self index) t = (t', Ok r) →
     ∃ scan bs xyz,
       py_index (SemKITTI_sk.im_idx self) index = Some scan ∧
       fs E !! scan = Some bs ∧
       r !! 0 = Some (TFloat xyz) ∧
       (∀ i j, i < length bs / 4 / 4 → j < 3 →
          flat xyz !! (i * 3 + j)%nat
          = Some (f32_of_bytes E (take 4 (drop ((i * 4 + j) * 4) bs)))) ∧
       (SemKITTI_sk.return_ref self = true →
        ∃ ref, r !! 2 = Some (TFloat ref) ∧
          ∀ i, i < length bs / 4 / 4 →
            flat ref !! i
            = Some (f32_of_bytes E (take 4 (drop ((i * 4 + 3) * 4) bs))))) ∧
  (∀ self : SemKITTI_nusc.t,
     run (SemKITTI_nusc.__getitem__ E self index) t = (t', Ok r) →
     ∃ token sd labfile scan bs xyz,
       SemKITTI_nusc.resolves self index token sd labfile scan ∧
       fs E !! scan = Some bs ∧
       r !! 0 = Some (TFloat xyz) ∧
       (∀ i j, i < length bs / 4 / 5 → j < 3 →
          flat xyz !! (i * 3 + j)%nat
          = Some (f32_of_bytes E (take 4 (drop ((i * 5 + j) * 4) bs)))) ∧
       (SemKITTI_nusc.return_ref self = true →
        ∃ ref, r !! 2 = Some (TFloat ref) ∧
          ∀ i, i < length bs / 4 / 5 →
            flat ref !! i
            = Some (f32_of_bytes E (take 4 (drop ((i * 5 + 3) * 4) bs))))).
Proof.
  split.
  - intros self Hrun.
    apply sk_getitem_points in Hrun as (scan & bs & lab & Hidx & Hbs & Hmod & ->).
    pose proof (div_mul_exact (length bs / 4) 4 ltac:(lia) Hmod) as Hlen.
    eexists scan, bs, _. split; [done|]. split; [done|]. split; [reflexivity|].
    cbn [flat]. split.
    + intros i j Hi Hj.
      rewrite rows_lookup; [|lia|by rewrite length_items, Hlen|done|done].
      apply items_lookup. rewrite <- Hlen.
      generalize dependent (length bs / 4 / 4). intros; nia.
    + intros Href. rewrite Href. eexists. split; [reflexivity|].
      cbn [flat]. intros i Hi.
      rewrite column_lookup; [|lia|by rewrite length_items, Hlen|done].
      apply items_lookup. rewrite <- Hlen.
      generalize dependent (length bs / 4 / 4). intros; nia.
  - intros self Hrun.
    pose proof Hrun as Hres.
    apply nusc_getitem_resolves in Hres
      as (token & sd & labfile & scan & lbs & bs & Hres & Hlbs & Hbs & Hmod).
    rewrite (nusc_getitem_eq E self index t token sd labfile scan lbs Hres Hlbs)
      in Hrun.
    destruct (np_vectorize _ _) as [ann|e]; [|discriminate].
    rewrite Hbs, decide_True in Hrun by done.
    injection Hrun as _ <-.
    pose proof (div_mul_exact (length bs / 4) 5 ltac:(lia) Hmod) as Hlen.
    eexists token, sd, labfile, scan, bs, _.
    split; [done|]. split; [done|]. split; [reflexivity|].
    cbn [flat]. split.
    + intros i j Hi Hj.
      rewrite rows_lookup; [|lia| |done|done].
      2:{ change (length bs / 4 / 5 * 5 ≤ length (items 4 (f32_of_bytes E) bs))%nat.
          by rewrite length_items, Hlen. }
      apply items_lookup. rewrite <- Hlen.
      generalize dependent (length bs / 4 / 5). intros; nia.
    + intros Href. rewrite Href. eexists. split; [reflexivity|].
      cbn [flat]. intros i Hi.
      rewrite column_lookup; [|lia| |done].
      2:{ change (length bs / 4 / 5 * 5 ≤ length (items 4 (f32_of_bytes E) bs))%nat.
          by rewrite length_items, Hlen. }
      apply items_lookup. rewrite <- Hlen.
      generalize dependent (length bs / 4 / 5). intros; nia.
Qed.

Lemma points_from_scan_file_witness :
  (∃ t' r,
     run (SemKITTI_sk.__getitem__ Fixture.E
            (Fixture.sk "train" true ["/data/00/velodyne/000000.bin"]) 0) []
       = (t', Ok r) ∧
     ∃ scan bs (xyz : ndarray (float32 Fixture.E)),
       py_index ["/data/00/velodyne/000000.bin"] 0 = Some scan ∧
       fs Fixture.E !! scan = Some bs ∧
       r !! 0 = Some (TFloat xyz) ∧
       (∀ i j, i < length bs / 4 / 4 → j < 3 →
          flat xyz !! (i * 3 + j)%nat
          = Some (f32_of_bytes Fixture.E (take 4 (drop ((i * 4 + j) * 4) bs)))) ∧
       (true = true →
        ∃ ref : ndarray (float32 Fixture.E), r !! 2 = Some (TFloat ref) ∧
          ∀ i, i < length bs / 4 / 4 →
            flat ref !! i
            = Some (f32_of_bytes Fixture.E (take 4 (drop ((i * 4 + 3) * 4) bs))))) ∧
  (∃ t' r,
     run (SemKITTI_nusc.__getitem__ Fixture.E (Fixture.nuscenes true) 0) []
       = (t', Ok r) ∧
     ∃ token sd labfile scan bs (xyz : ndarray (float32 Fixture.E)),
       SemKITTI_nusc.resolves (Fixture.nuscenes true) 0 token sd labfile scan ∧
       fs Fixture.E !! scan = Some bs ∧
       r !! 0 = Some (TFloat xyz) ∧
       (∀ i j, i < length bs / 4 / 5 → j < 3 →
          flat xyz !! (i * 3 + j)%nat
          = Some (f32_of_bytes Fixture.E (take 4 (drop ((i * 5 + j) * 4) bs)))) ∧
       (true = true →
        ∃ ref : ndarray (float32 Fixture.E), r !! 2 = Some (TFloat ref) ∧
          ∀ i, i < length bs / 4 / 5 →
            flat ref !! i
            = Some (f32_of_bytes Fixture.E (take 4 (drop ((i * 5 + 3) * 4) bs))))).
Proof.
  split.
  - run_exists.
    exact (proj1 (points_from_scan_file Fixture.E 0 [] _ _)
             (Fixture.sk "train" true ["/data/00/velodyne/000000.bin"]) Hrun).
  - run_exists.
    exact (proj2 (points_from_scan_file Fixture.E 0 [] _ _)
             (Fixture.nuscenes true) Hrun).
Defined.

Section containers_points.
Context (E : env).

Lemma dense_getitem_points (self : Dense.t) index t t' r :
  run (Dense.__getitem__ E self index) t = (t', Ok r) →
  ∃ path P (fl : list (float32 E)) lab,
    py_index (Dense.im_idx self) index = Some path ∧
    run (load_channels E path) t = (t', Ok (NdArray [6; P] fl)) ∧
    length fl = (6 * P)%nat ∧
    r = TFloat (NdArray [P; 3] (seq 0 P ≫= λ j, column P j 3 (take (3 * P) fl)))
        :: lab
        :: (if Dense.return_ref self
            then [TFloat (NdArray [P; 1] (take P (drop (3 * P) fl)))]
            else []).
Proof.
  unfold Dense.__getitem__.
  rewrite run_bind, run_lift. unfold list_getitem.
  destruct (py_index _ _) as [path|] eqn:Hidx; [|discriminate].
  rewrite run_bind.
  destruct (run (load_channels E path) t) as [t1 [raw|e]] eqn:Hload;
    [|discriminate].
  destruct (load_channels_Ok _ _ _ _ _ Hload) as (P & bs & f & Hsh & Hlen & _).
  destruct raw as [sh fl]. cbn in Hsh, Hlen. subst sh.
  rewrite run_bind, run_lift.
  match goal with
  | |- match ?x with Ok _ => _ | Err _ => _ end = _ → _ =>
      destruct x as [ann|e]
  end; [|discriminate].
  rewrite run_bind, run_lift.
  unfold slice_rows. cbn [shape flat]. change (3 `min` 6) with 3.
  rewrite run_bind, run_lift. unfold transpose_10. cbn [shape flat].
  cbn zeta. destruct (Dense.return_ref self).
  - rewrite run_bind, run_lift. unfold get_row. cbn [shape flat].
    rewrite decide_True by lia.
    rewrite run_bind, run_lift.
    rewrite reshape_column_vector by (by apply length_row; [|lia]).
    rewrite run_ret. intros [= <- <-].
    eexists path, P, fl, _. done.
  - rewrite run_ret. intros [= <- <-].
    eexists path, P, fl, _. done.
Qed.

Lemma cycledense_getitem_run (self : CycleDense.t) index t path t1 P
    (fl : list (float32 E)) :
  py_index (CycleDense.im_idx self) index = Some path →
  run (load_channels E path) t = (t1, Ok (NdArray [6; P] fl)) →
  length fl = (6 * P)%nat →
  run (CycleDense.__getitem__ E self index) t
  = ((t1 ++ if CycleDense.return_ref self then [EvStdout "2"] else [])%list,
     Ok (TFloat (NdArray [P; 3] (seq 0 P ≫= λ j, column P j 3 (take (3 * P) fl)))
         :: (if CycleDense.return_ref self
             then [TFloat (NdArray [P; 1] (take P (drop (3 * P) fl)))]
             else []))).
Proof.
  intros Hidx Hload Hlen. unfold CycleDense.__getitem__.
  rewrite run_bind, run_lift. unfold list_getitem. rewrite Hidx.
  rewrite run_bind, Hload.
  rewrite run_bind, run_lift.
  unfold slice_rows. cbn [shape flat]. change (3 `min` 6) with 3.
  rewrite run_bind, run_lift. unfold transpose_10. cbn [shape flat].
  cbn zeta. destruct (CycleDense.return_ref self).
  - rewrite run_bind, run_lift. unfold get_row. cbn [shape flat].
    rewrite decide_True by lia.
    rewrite run_bind, run_lift.
    rewrite reshape_column_vector by (by apply length_row; [|lia]).
    rewrite run_bind, run_emit, run_ret. reflexivity.
  - rewrite run_ret. by rewrite app_nil_r.
Qed.

Lemma cycledense_getitem_points (self : CycleDense.t) index t t' r :
  run (CycleDense.__getitem__ E self index) t = (t', Ok r) →
  ∃ path t1 P (fl : list (float32 E)),
    py_index (CycleDense.im_idx self) index = Some path ∧
    run (load_channels E path) t = (t1, Ok (NdArray [6; P] fl)) ∧
    length fl = (6 * P)%nat ∧
    r = TFloat (NdArray [P; 3] (seq 0 P ≫= λ j, column P j 3 (take (3 * P) fl)))
        :: (if CycleDense.return_ref self
            then [TFloat (NdArray [P; 1] (take P (drop (3 * P) fl)))]
            else []).
Proof.
  intros Hrun.
  destruct (cycledense_getitem_loads _ _ _ _ _ _ Hrun)
    as (path & t1 & raw & Hidx & Hload).
  destruct (load_channels_Ok _ _ _ _ _ Hload) as (P & bs & f & Hsh & Hlen & _).
  destruct raw as [sh fl]. cbn in Hsh, Hlen. subst sh.
  exists path, t1, P, fl. split; [done|]. split; [done|]. split; [done|].
  rewrite (cycledense_getitem_run self index t path t1 P fl Hidx Hload Hlen)
    in Hrun.
  by injection Hrun as _ <-.
Qed.

(** Row [p] of the coordinates transposed out of six channel rows. *)
Lemma transposed_rows_lookup {A} (P : nat) (l0 l1 l2 rest : list A) (p : nat) :
  length l0 = P → length l1 = P → length l2 = P → p < P →
  let xyz := seq 0 P ≫= λ j,
             column P j 3 (take (3 * P) (l0 ++ l1 ++ l2 ++ rest)) in
  xyz !! (p * 3)%nat = l0 !! p ∧
  xyz !! (p * 3 + 1)%nat = l1 !! p ∧
  xyz !! (p * 3 + 2)%nat = l2 !! p.
Proof.
  intros H0 H1 H2 Hp xyz.
  assert (Htake : take (3 * P) (l0 ++ l1 ++ l2 ++ rest) = (l0 ++ l1 ++ l2)%list).
  { rewrite !(assoc_L (++)). rewrite take_app_length'; [done|].
    rewrite !length_app. lia. }
  assert (Hcell : ∀ j, j < 3 →
    xyz !! (p * 3 + j)%nat = (l0 ++ l1 ++ l2)%list !! (j * P + p)%nat).
  { intros j Hj. subst xyz. rewrite Htake.
    rewrite (lookup_bind_blocks _ 3); [| |done].
    - rewrite lookup_seq_lt by done. cbn [mbind option_bind].
      apply column_lookup; [done| |done]. rewrite !length_app. lia.
    - intros x Hx. apply elem_of_seq in Hx.
      apply length_column; [lia|]. rewrite !length_app. lia. }
  split; [|split].
  - rewrite <- (Nat.add_0_r (p * 3)), Hcell by lia.
    cbn. by rewrite lookup_app_l by lia.
  - rewrite Hcell by lia.
    rewrite lookup_app_r by lia. rewrite lookup_app_l by lia.
    f_equal. lia.
  - rewrite Hcell by lia.
    rewrite lookup_app_r by lia. rewrite lookup_app_r by lia.
    f_equal. lia.
Qed.

End containers_points.

(** X16.  The points of [Dense] and [CycleDense] are the pixels of the
    container in row-major order: point [p] has for coordinates pixel [p]
    of the channels [sensorX_1], [sensorY_1] and [sensorZ_1].  Stacking,
    transposing and reshaping do not mix pixels or channels. *)
Theorem points_from_container (E : env) (index : Z) (t t' : list event)
    (r : list (tensor E)) (path : string) (bs : list byte) (f : h5file E)
    (h w : nat) (x y z distance intensity labels : ndarray (h5val E)) :
  fs E !! path = Some bs → h5py_File E bs = Some f →
  stored f "sensorX_1" x → stored f "sensorY_1" y → stored f "sensorZ_1" z →
  stored f "distance_m_1" distance → stored f "intensity_1" intensity →
  stored f "labels_1" labels →
  Forall (λ d, shape d = [h; w]) [x; y; z; distance; intensity; labels] →
  (∀ self : Dense.t,
     py_index (Dense.im_idx self) index = Some path →
     run (Dense.__getitem__ E self index) t = (t', Ok r) →
     ∃ xyz, r !! 0 = Some (TFloat xyz) ∧ shape xyz = [h * w; 3] ∧
       ∀ p, p < h * w →
         flat xyz !! (p * 3)%nat = h5_to_f32 E <$> flat x !! p ∧
         flat xyz !! (p * 3 + 1)%nat = h5_to_f32 E <$> flat y !! p ∧
         flat xyz !! (p * 3 + 2)%nat = h5_to_f32 E <$> flat z !! p) ∧
  (∀ self : CycleDense.t,
     py_index (CycleDense.im_idx self) index = Some path →
     run (CycleDense.__getitem__ E self index) t = (t', Ok r) →
     ∃ xyz, r !! 0 = Some (TFloat xyz) ∧ shape xyz = [h * w; 3] ∧
       ∀ p, p < h * w →
         flat xyz !! (p * 3)%nat = h5_to_f32 E <$> flat x !! p ∧
         flat xyz !! (p * 3 + 1)%nat = h5_to_f32 E <$> flat y !! p ∧
         flat xyz !! (p * 3 + 2)%nat = h5_to_f32 E <$> flat z !! p).
Proof.
  intros Hbs Hf Hx Hy Hz Hd Hi Hl Hsh.
  pose proof (load_channels_eq E path t bs f h w x y z distance intensity labels
                Hbs Hf Hx Hy Hz Hd Hi Hl Hsh) as Hload.
  assert (Hlen : ∀ d : ndarray (h5val E),
            shape d = [h; w] → length (flat d) = numel (shape d) →
            length (h5_to_f32 E <$> flat d) = (h * w)%nat).
  { intros d Hs Hn. rewrite length_fmap, Hn, Hs. cbn. lia. }
  pose proof Hsh as Hsh'.
  apply Forall_cons in Hsh' as [Hsx Hsh'].
  apply Forall_cons in Hsh' as [Hsy Hsh'].
  apply Forall_cons in Hsh' as [Hsz _].
  assert (Hrows : ∀ p, p < h * w →
    let xyz := seq 0 (h * w) ≫= λ j,
               column (h * w) j 3
                 (take (3 * (h * w))
                    (h5_to_f32 E <$>
                     (flat x ++ flat y ++ flat z ++ flat distance
                        ++ flat intensity ++ flat labels)%list)) in
    xyz !! (p * 3)%nat = h5_to_f32 E <$> flat x !! p ∧
    xyz !! (p * 3 + 1)%nat = h5_to_f32 E <$> flat y !! p ∧
    xyz !! (p * 3 + 2)%nat = h5_to_f32 E <$> flat z !! p).
  { intros p Hp. rewrite !fmap_app, <- !list_lookup_fmap.
    apply transposed_rows_lookup; [apply Hlen; [done|apply Hx]
                                  |apply Hlen; [done|apply Hy]
                                  |apply Hlen; [done|apply Hz]|done]. }
  split.
  - intros self Hidx Hrun.
    apply dense_getitem_points in Hrun
      as (path' & P & fl & lab & Hidx' & Hload' & _ & ->).
    assert (path' = path) as -> by congruence.
    rewrite Hload in Hload'. injection Hload' as _ <- <-.
    eexists. split; [reflexivity|]. split; [reflexivity|]. exact Hrows.
  - intros self Hidx Hrun.
    apply cycledense_getitem_points in Hrun
      as (path' & t1 & P & fl & Hidx' & Hload' & _ & ->).
    assert (path' = path) as -> by congruence.
    rewrite Hload in Hload'. injection Hload' as _ <- <-.
    eexists. split; [reflexivity|]. split; [reflexivity|]. exact Hrows.
Qed.

Lemma points_from_container_witness :
  (∃ t' r,
     run (Dense.__getitem__ Fixture.E
            (Fixture.dense "train" true ["/dense/train_01/a.hdf5"]) 0) []
       = (t', Ok r) ∧
     ∃ xyz : ndarray (float32 Fixture.E),
       r !! 0 = Some (TFloat xyz) ∧ shape xyz = [1 * 2; 3] ∧
       ∀ p, p < 1 * 2 →
         flat xyz !! (p * 3)%nat
         = h5_to_f32 Fixture.E <$> flat (Fixture.grid 10 11) !! p ∧
         flat xyz !! (p * 3 + 1)%nat
         = h5_to_f32 Fixture.E <$> flat (Fixture.grid 20 21) !! p ∧
         flat xyz !! (p * 3 + 2)%nat
         = h5_to_f32 Fixture.E <$> flat (Fixture.grid 30 31) !! p) ∧
  (∃ t' r,
     run (CycleDense.__getitem__ Fixture.E (Fixture.cycledense true) 0) []
       = (t', Ok r) ∧
     ∃ xyz : ndarray (float32 Fixture.E),
       r !! 0 = Some (TFloat xyz) ∧ shape xyz = [1 * 2; 3] ∧
       ∀ p, p < 1 * 2 →
         flat xyz !! (p * 3)%nat
         = h5_to_f32 Fixture.E <$> flat (Fixture.grid 10 11) !! p ∧
         flat xyz !! (p * 3 + 1)%nat
         = h5_to_f32 Fixture.E <$> flat (Fixture.grid 20 21) !! p ∧
         flat xyz !! (p * 3 + 2)%nat
         = h5_to_f32 Fixture.E <$> flat (Fixture.grid 30 31) !! p).
Proof.
  split.
  - run_exists.
    exact (proj1 (points_from_container Fixture.E 0 [] _ _
                    "/dense/train_01/a.hdf5" [x10] Fixture.container 1 2
                    (Fixture.grid 10 11) (Fixture.grid 20 21) (Fixture.grid 30 31)
                    (Fixture.grid 40 41) (Fixture.grid 50 51)
                    (Fixture.grid 65537 5) eq_refl eq_refl
                    (conj eq_refl eq_refl) (conj eq_refl eq_refl)
                    (conj eq_refl eq_refl) (conj eq_refl eq_refl)
                    (conj eq_refl eq_refl) (conj eq_refl eq_refl)
                    ltac:(repeat constructor))
             (Fixture.dense "train" true ["/dense/train_01/a.hdf5"])
             eq_refl Hrun).
  - run_exists.
    exact (proj2 (points_from_container Fixture.E 0 [] _ _
                    "/dense/train_01/a.hdf5" [x10] Fixture.container 1 2
                    (Fixture.grid 10 11) (Fixture.grid 20 21) (Fixture.grid 30 31)
                    (Fixture.grid 40 41) (Fixture.grid 50 51)
                    (Fixture.grid 65537 5) eq_refl eq_refl
                    (conj eq_refl eq_refl) (conj eq_refl eq_refl)
                    (conj eq_refl eq_refl) (conj eq_refl eq_refl)
                    (conj eq_refl eq_refl) (conj eq_refl eq_refl)
                    ltac:(repeat constructor))
             (Fixture.cycledense true) eq_refl Hrun).
Defined.

(** X17.  [CycleDense] is [Dense] without the labels.  Over the same
    files and with the same [return_ref], whenever an access of [Dense]
    returns, the access of [CycleDense] returns too: the same tuple with
    its label element left out, after the same reads (and its own line
    of output). *)
Theorem cycledense_is_dense_without_labels (E : env) (d : Dense.t)
    (c : CycleDense.t) (index : Z) (t t' : list event) (r : list (tensor E)) :
  Dense.im_idx d = CycleDense.im_idx c →
  Dense.return_ref d = CycleDense.return_ref c →
  run (Dense.__getitem__ E d index) t = (t', Ok r) →
  ∃ xyz lab rest,
    r = xyz :: lab :: rest ∧
    run (CycleDense.__getitem__ E c index) t
    = ((t' ++ if CycleDense.return_ref c then [EvStdout "2"] else [])%list,
       Ok (xyz :: rest)).
Proof.
  intros Hfiles Href Hrun.
  apply dense_getitem_points in Hrun
    as (path & P & fl & lab & Hidx & Hload & Hlen & ->).
  rewrite Hfiles in Hidx. rewrite Href.
  eexists _, lab, _. split; [reflexivity|].
  exact (cycledense_getitem_run E c index t path t' P fl Hidx Hload Hlen).
Qed.

Lemma cycledense_is_dense_without_labels_witness :
  ∃ t' r,
    run (Dense.__getitem__ Fixture.E
           (Fixture.dense "train" true ["/dense/train_01/a.hdf5"]) 0) []
      = (t', Ok r) ∧
    ∃ xyz lab rest,
      r = xyz :: lab :: rest ∧
      run (CycleDense.__getitem__ Fixture.E (Fixture.cycledense true) 0) []
      = ((t' ++ if CycleDense.return_ref (Fixture.cycledense true)
                then [EvStdout "2"] else [])%list,
         Ok (xyz :: rest)).
Proof.
  run_exists.
  exact (cycledense_is_dense_without_labels Fixture.E
           (Fixture.dense "train" true ["/dense/train_01/a.hdf5"])
           (Fixture.cycledense true) 0 [] _ _ eq_refl eq_refl Hrun).
Defined.

(** ** Accesses that fail *)

(** X18.  How an access of [SemKITTI_sk] fails on its files.  A scan file
    that is missing, or whose words do not make whole points, fails the
    access with the scan as the only file opened; outside the test split
    a missing label file fails it after both files were opened, and a
    label file with no whole word fails it in the remapping. *)
Theorem sk_access_failures (E : env) (self : SemKITTI_sk.t) (index : Z)
    (t : list event) (scan : string) :
  py_index (SemKITTI_sk.im_idx self) index = Some scan →
  (fs E !! scan = None →
   run (SemKITTI_sk.__getitem__ E self index) t
   = ((t ++ [EvOpen scan])%list, Err (FileNotFoundError scan))) ∧
  (∀ bs, fs E !! scan = Some bs → (length bs / 4) mod 4 ≠ 0 →
   run (SemKITTI_sk.__getitem__ E self index) t
   = ((t ++ [EvOpen scan])%list, Err (ValueError "cannot reshape array"))) ∧
  (∀ bs, fs E !! scan = Some bs → (length bs / 4) mod 4 = 0 →
   SemKITTI_sk.imageset self ≠ "test" →
   (fs E !! SemKITTI_sk.label_path scan = None →
    run (SemKITTI_sk.__getitem__ E self index) t
    = ((t ++ [EvOpen scan; EvOpen (SemKITTI_sk.label_path scan)])%list,
       Err (FileNotFoundError (SemKITTI_sk.label_path scan)))) ∧
   (∀ lbs, fs E !! SemKITTI_sk.label_path scan = Some lbs → length lbs < 4 →
    run (SemKITTI_sk.__getitem__ E self index) t
    = ((t ++ [EvOpen scan; EvOpen (SemKITTI_sk.label_path scan)])%list,
       Err (ValueError
              "cannot call `vectorize` on size 0 inputs unless `otypes` is set")))).
Proof.
  intros Hidx. split; [|split].
  - intros Hbs. unfold SemKITTI_sk.__getitem__, list_getitem.
    rewrite run_bind, run_lift, Hidx.
    rewrite run_bind, run_np_fromfile, Hbs. reflexivity.
  - intros bs Hbs Hmod. unfold SemKITTI_sk.__getitem__, list_getitem.
    rewrite run_bind, run_lift, Hidx.
    rewrite run_bind, run_np_fromfile, Hbs.
    rewrite run_bind, run_lift. unfold reshape_rows_auto. cbn [flat].
    rewrite length_items. rewrite decide_False by (intros [_ ?]; done).
    reflexivity.
  - intros bs Hbs Hmod Htest.
    destruct (sk_getitem_eq E self index t scan bs Hidx Hbs Hmod)
      as (xyz & ref & _ & _ & Heq).
    rewrite decide_False in Heq by done. split.
    + intros Hlbs. by rewrite Heq, Hlbs.
    + intros lbs Hlbs Hshort. rewrite Heq, Hlbs.
      unfold items. rewrite Nat.div_small by done. reflexivity.
Qed.

Lemma sk_access_failures_witness :
  run (SemKITTI_sk.__getitem__ Broken.E
         (Fixture.sk "train" false ["/bad/00/velodyne/gone.bin"]) 0) []
  = (([] ++ [EvOpen "/bad/00/velodyne/gone.bin"])%list,
     Err (FileNotFoundError "/bad/00/velodyne/gone.bin")) ∧
  run (SemKITTI_sk.__getitem__ Broken.E
         (Fixture.sk "train" false ["/bad/00/velodyne/cut.bin"]) 0) []
  = (([] ++ [EvOpen "/bad/00/velodyne/cut.bin"])%list,
     Err (ValueError "cannot reshape array")) ∧
  run (SemKITTI_sk.__getitem__ Broken.E
         (Fixture.sk "train" false ["/data/11/velodyne/000000.bin"]) 0) []
  = (([] ++ [EvOpen "/data/11/velodyne/000000.bin";
             EvOpen (SemKITTI_sk.label_path "/data/11/velodyne/000000.bin")])%list,
     Err (FileNotFoundError
            (SemKITTI_sk.label_path "/data/11/velodyne/000000.bin"))) ∧
  run (SemKITTI_sk.__getitem__ Broken.E
         (Fixture.sk "train" false ["/bad/00/velodyne/000000.bin"]) 0) []
  = (([] ++ [EvOpen "/bad/00/velodyne/000000.bin";
             EvOpen (SemKITTI_sk.label_path "/bad/00/velodyne/000000.bin")])%list,
     Err (ValueError
            "cannot call `vectorize` on size 0 inputs unless `otypes` is set")).
Proof.
  split; [|split; [|split]].
  - apply (proj1 (sk_access_failures Broken.E
                    (Fixture.sk "train" false ["/bad/00/velodyne/gone.bin"]) 0 []
                    "/bad/00/velodyne/gone.bin" eq_refl)).
    reflexivity.
  - apply (proj1 (proj2 (sk_access_failures Broken.E
                    (Fixture.sk "train" false ["/bad/00/velodyne/cut.bin"]) 0 []
                    "/bad/00/velodyne/cut.bin" eq_refl))
             (take 20 Fixture.scan_bytes)); [reflexivity|discriminate].
  - apply (proj1 (proj2 (proj2 (sk_access_failures Broken.E
                    (Fixture.sk "train" false ["/data/11/velodyne/000000.bin"]) 0 []
                    "/data/11/velodyne/000000.bin" eq_refl))
             Fixture.scan_bytes eq_refl eq_refl ltac:(discriminate))).
    reflexivity.
  - apply (proj2 (proj2 (proj2 (sk_access_failures Broken.E
                    (Fixture.sk "train" false ["/bad/00/velodyne/000000.bin"]) 0 []
                    "/bad/00/velodyne/000000.bin" eq_refl))
             Fixture.scan_bytes eq_refl eq_refl ltac:(discriminate))
             [x01; x00]); [reflexivity|cbn; lia].
Defined.

(** X19.  How loading a container fails: a file that is missing or is no
    container; the first channel, in the order of the reads, that the
    container does not hold, the channels after it not being read; and
    channels that do not agree on their shape, after all six were read.
    An access of [Dense] or [CycleDense] fails as the load does. *)
Theorem container_failures (E : env) (path : string) (t : list event) :
  (fs E !! path = None →
   run (load_channels E path) t
   = ((t ++ [EvOpen path])%list, Err (FileNotFoundError path))) ∧
  (∀ bs, fs E !! path = Some bs → h5py_File E bs = None →
   run (load_channels E path) t = ((t ++ [EvOpen path])%list, Err (OSError path))) ∧
  (∀ bs f k name,
     fs E !! path = Some bs → h5py_File E bs = Some f →
     channel_names !! k = Some name →
     Forall (λ n, ∃ d, stored f n d) (take k channel_names) →
     f !! name = None →
     run (load_channels E path) t
     = ((t ++ EvOpen path :: (EvDataset path <$> take (S k) channel_names))%list,
        Err (KeyError (KStr name)))) ∧
  (∀ bs f h w x y z distance intensity labels,
     fs E !! path = Some bs → h5py_File E bs = Some f →
     stored f "sensorX_1" x → stored f "sensorY_1" y → stored f "sensorZ_1" z →
     stored f "distance_m_1" distance → stored f "intensity_1" intensity →
     stored f "labels_1" labels →
     shape x = [h; w] →
     Exists (λ d, ∃ h' w', shape d = [h'; w'] ∧ (h', w') ≠ (h, w))
            [y; z; distance; intensity; labels] →
     run (load_channels E path) t
     = ((t ++ container_reads path)%list,
        Err (ValueError "all the input array dimensions must match"))) ∧
  (∀ t1 e,
     run (load_channels E path) t = (t1, Err e) →
     (∀ (self : Dense.t) index,
        py_index (Dense.im_idx self) index = Some path →
        run (Dense.__getitem__ E self index) t = (t1, Err e)) ∧
     (∀ (self : CycleDense.t) index,
        py_index (CycleDense.im_idx self) index = Some path →
        run (CycleDense.__getitem__ E self index) t = (t1, Err e))).
Proof.
  split; [|split; [|split; [|split]]].
  - intros Hbs. unfold load_channels. by rewrite run_bind, run_open_h5, Hbs.
  - intros bs Hbs Hf. unfold load_channels.
    by rewrite run_bind, run_open_h5, Hbs, Hf.
  - intros bs f k name Hbs Hf Hname HF Hnone.
    unfold load_channels. rewrite run_bind, run_open_h5, Hbs, Hf.
    unfold channel_names in *.
    do 6 (try destruct k as [|k]); cbn in Hname; simplify_eq;
      cbn [take] in HF;
      repeat (apply Forall_cons in HF as [(? & ? & ?) HF]);
      repeat (rewrite run_bind, run_read_dataset;
              match goal with
              | H : f !! ?n = Some _ |- context [f !! ?n] =>
                  rewrite H, decide_True by done
              end);
      rewrite run_bind, run_read_dataset, Hnone;
      rewrite <- !(assoc_L (++)); reflexivity.
  - intros bs f h w x y z distance intensity labels Hbs Hf
      [Hx Hx'] [Hy Hy'] [Hz Hz'] [Hd Hd'] [Hi Hi'] [Hl Hl'] Hsx Hex.
    unfold load_channels.
    rewrite run_bind, run_open_h5, Hbs, Hf.
    rewrite run_bind, run_read_dataset, Hx, decide_True by done.
    rewrite run_bind, run_read_dataset, Hy, decide_True by done.
    rewrite run_bind, run_read_dataset, Hz, decide_True by done.
    rewrite run_bind, run_read_dataset, Hd, decide_True by done.
    rewrite run_bind, run_read_dataset, Hi, decide_True by done.
    rewrite run_bind, run_read_dataset, Hl, decide_True by done.
    rewrite run_lift, <- !(assoc_L (++)). cbn [app]. f_equal.
    unfold np_dstack. rewrite decide_False; [reflexivity|].
    intros HF. apply Forall_cons in HF as [_ HF].
    rewrite Forall_forall in HF.
    apply Exists_exists in Hex as (d & Hin & h' & w' & Hsd & Hne).
    destruct (HF d Hin) as [Hout _].
    rewrite Hsd, Hsx in Hout. cbn in Hout. congruence.
  - intros t1 e Hload. split.
    + intros self index Hidx. unfold Dense.__getitem__, list_getitem.
      by rewrite run_bind, run_lift, Hidx, run_bind, Hload.
    + intros self index Hidx. unfold CycleDense.__getitem__, list_getitem.
      by rewrite run_bind, run_lift, Hidx, run_bind, Hload.
Qed.

Lemma container_failures_witness :
  run (load_channels Broken.E "/bad/gone.hdf5") []
  = (([] ++ [EvOpen "/bad/gone.hdf5"])%list,
     Err (FileNotFoundError "/bad/gone.hdf5")) ∧
  run (load_channels Broken.E "/bad/noise.hdf5") []
  = (([] ++ [EvOpen "/bad/noise.hdf5"])%list, Err (OSError "/bad/noise.hdf5")) ∧
  run (load_channels Broken.E "/bad/shallow.hdf5") []
  = (([] ++ EvOpen "/bad/shallow.hdf5"
         :: (EvDataset "/bad/shallow.hdf5" <$> take 3 channel_names))%list,
     Err (KeyError (KStr "sensorZ_1"))) ∧
  run (load_channels Broken.E "/bad/ragged.hdf5") []
  = (([] ++ container_reads "/bad/ragged.hdf5")%list,
     Err (ValueError "all the input array dimensions must match")) ∧
  run (Dense.__getitem__ Broken.E
         (Fixture.dense "train" true ["/bad/shallow.hdf5"]) 0) []
  = (([] ++ EvOpen "/bad/shallow.hdf5"
         :: (EvDataset "/bad/shallow.hdf5" <$> take 3 channel_names))%list,
     Err (KeyError (KStr "sensorZ_1"))).
Proof.
  assert (Hshallow :
    run (load_channels Broken.E "/bad/shallow.hdf5") []
    = (([] ++ EvOpen "/bad/shallow.hdf5"
           :: (EvDataset "/bad/shallow.hdf5" <$> take 3 channel_names))%list,
       Err (KeyError (KStr "sensorZ_1")))).
  { apply (proj1 (proj2 (proj2 (container_failures Broken.E "/bad/shallow.hdf5" [])))
             [x13] Broken.shallow_container 2 "sensorZ_1" eq_refl eq_refl eq_refl);
      [|reflexivity].
    repeat constructor.
    - exists (Fixture.grid 10 11). by split.
    - exists (Fixture.grid 20 21). by split. }
  split; [|split; [|split; [|split]]].
  - apply (proj1 (container_failures Broken.E "/bad/gone.hdf5" [])). reflexivity.
  - apply (proj1 (proj2 (container_failures Broken.E "/bad/noise.hdf5" []))
             [x00]); reflexivity.
  - exact Hshallow.
  - apply (proj1 (proj2 (proj2 (proj2
             (container_failures Broken.E "/bad/ragged.hdf5" []))))
             [x14] Broken.ragged_container 1 2
             (Fixture.grid 10 11) (Fixture.grid 20 21) (Fixture.grid 30 31)
             (Fixture.grid 40 41) (NdArray [2; 1] [50; 51]%Z)
             (Fixture.grid 65537 5) eq_refl eq_refl
             (conj eq_refl eq_refl) (conj eq_refl eq_refl) (conj eq_refl eq_refl)
             (conj eq_refl eq_refl) (conj eq_refl eq_refl) (conj eq_refl eq_refl)
             eq_refl).
    do 3 apply Exists_cons_tl. apply Exists_cons_hd.
    exists 2, 1. split; [reflexivity|discriminate].
  - apply (proj1 (proj2 (proj2 (proj2 (proj2
             (container_failures Broken.E "/bad/shallow.hdf5" []))))
             _ _ Hshallow)
             (Fixture.dense "train" true ["/bad/shallow.hdf5"]) 0%Z).
    reflexivity.
Defined.

(** ** Inputs that hold nothing *)

(** X20.  A scan or a container that holds no point.  On the test split
    [SemKITTI_sk] returns arrays of no row for a scan file without a
    whole word; [CycleDense] returns arrays of no row for a container of
    empty channels; [Dense] fails on such a container, on the test split
    in the column it takes to fabricate the labels and elsewhere in the
    remapping. *)
Theorem accesses_to_empty_inputs (E : env) (index : Z) (t : list event) :
  (∀ (self : SemKITTI_sk.t) scan bs,
     SemKITTI_sk.imageset self = "test" →
     py_index (SemKITTI_sk.im_idx self) index = Some scan →
     fs E !! scan = Some bs → length bs < 4 →
     run (SemKITTI_sk.__getitem__ E self index) t
     = ((t ++ [EvOpen scan])%list,
        Ok (TFloat (NdArray [0; 3] [])
            :: TInt uint8 (NdArray [0; 1] [])
            :: (if SemKITTI_sk.return_ref self then [TFloat (NdArray [0] [])]
                else [])))) ∧
  (∀ path bs f h w x y z distance intensity labels,
     fs E !! path = Some bs → h5py_File E bs = Some f →
     stored f "sensorX_1" x → stored f "sensorY_1" y → stored f "sensorZ_1" z →
     stored f "distance_m_1" distance → stored f "intensity_1" intensity →
     stored f "labels_1" labels →
     Forall (λ d, shape d = [h; w]) [x; y; z; distance; intensity; labels] →
     (h * w = 0)%nat →
     (∀ self : Dense.t,
        py_index (Dense.im_idx self) index = Some path →
        run (Dense.__getitem__ E self index) t
        = ((t ++ container_reads path)%list,
           Err (if decide (Dense.imageset self = "test") then IndexError
                else ValueError
                       "cannot call `vectorize` on size 0 inputs unless `otypes` is set"))) ∧
     (∀ self : CycleDense.t,
        py_index (CycleDense.im_idx self) index = Some path →
        run (CycleDense.__getitem__ E self index) t
        = (if CycleDense.return_ref self
           then (t ++ container_reads path ++ [EvStdout "2"])%list
           else (t ++ container_reads path)%list,
           Ok (TFloat (NdArray [0; 3] [])
               :: (if CycleDense.return_ref self
                   then [TFloat (NdArray [0; 1] [])] else []))))).
Proof.
  split.
  - intros self scan bs Htest Hidx Hbs Hshort.
    unfold SemKITTI_sk.__getitem__, list_getitem.
    rewrite run_bind, run_lift, Hidx.
    rewrite run_bind, run_np_fromfile, Hbs.
    unfold items. rewrite Nat.div_small by done. cbn [seq fmap list_fmap].
    rewrite run_bind, run_lift. unfold reshape_rows_auto. cbn [flat length].
    rewrite decide_True by (split; [lia|done]).
    rewrite run_bind, (decide_True (P := SemKITTI_sk.imageset self = "test"))
      by done.
    by destruct (SemKITTI_sk.return_ref self).
  - intros path bs f h w x y z distance intensity labels Hbs Hf Hx Hy Hz Hd Hi Hl
      Hsh HP.
    pose proof (load_channels_eq E path t bs f h w x y z distance intensity labels
                  Hbs Hf Hx Hy Hz Hd Hi Hl Hsh) as Hload.
    assert (Hnil : ∀ d : ndarray (h5val E),
              shape d = [h; w] → length (flat d) = numel (shape d) → flat d = []).
    { intros d Hs Hn. apply length_zero_iff_nil. rewrite Hn, Hs. cbn. lia. }
    pose proof Hsh as Hsh'.
    repeat (apply Forall_cons in Hsh' as [? Hsh']).
    rewrite (Hnil x), (Hnil y), (Hnil z), (Hnil distance), (Hnil intensity),
      (Hnil labels) in Hload by (done || apply Hx || apply Hy || apply Hz
                                  || apply Hd || apply Hi || apply Hl).
    rewrite HP in Hload. cbn [app fmap list_fmap] in Hload.
    split.
    + intros self Hidx. unfold Dense.__getitem__, list_getitem.
      rewrite run_bind, run_lift, Hidx, run_bind, Hload.
      rewrite run_bind, run_lift.
      case_decide; reflexivity.
    + intros self Hidx. unfold CycleDense.__getitem__, list_getitem.
      rewrite run_bind, run_lift, Hidx, run_bind, Hload.
      destruct (CycleDense.return_ref self); cbn; by rewrite <- ?(assoc_L (++)).
Qed.

Lemma accesses_to_empty_inputs_witness :
  run (SemKITTI_sk.__getitem__ Broken.E
         (Fixture.sk "test" true ["/bad/00/velodyne/empty.bin"]) 0) []
  = (([] ++ [EvOpen "/bad/00/velodyne/empty.bin"])%list,
     Ok [TFloat (NdArray [0; 3] []); TInt uint8 (NdArray [0; 1] []);
         TFloat (NdArray [0] [])]) ∧
  run (Dense.__getitem__ Broken.E
         (Fixture.dense "test" true ["/bad/void.hdf5"]) 0) []
  = (([] ++ container_reads "/bad/void.hdf5")%list, Err IndexError) ∧
  run (CycleDense.__getitem__ Broken.E
         (CycleDense.Build true Fixture.learning_map "train" ["/bad/void.hdf5"])
         0) []
  = (([] ++ container_reads "/bad/void.hdf5" ++ [EvStdout "2"])%list,
     Ok [TFloat (NdArray [0; 3] []); TFloat (NdArray [0; 1] [])]).
Proof.
  pose proof (proj2 (accesses_to_empty_inputs Broken.E 0 [])
                "/bad/void.hdf5" [x15] Broken.void_container 0 2
                (NdArray [0; 2] []) (NdArray [0; 2] []) (NdArray [0; 2] [])
                (NdArray [0; 2] []) (NdArray [0; 2] []) (NdArray [0; 2] [])
                eq_refl eq_refl
                (conj eq_refl eq_refl) (conj eq_refl eq_refl) (conj eq_refl eq_refl)
                (conj eq_refl eq_refl) (conj eq_refl eq_refl) (conj eq_refl eq_refl)
                ltac:(repeat constructor) eq_refl) as [Hdense Hcycle].
  split; [|split].
  - apply (proj1 (accesses_to_empty_inputs Broken.E 0 [])
             (Fixture.sk "test" true ["/bad/00/velodyne/empty.bin"])
             "/bad/00/velodyne/empty.bin" []); [reflexivity..|cbn; lia].
  - apply (Hdense (Fixture.dense "test" true ["/bad/void.hdf5"])). reflexivity.
  - apply (Hcycle (CycleDense.Build true Fixture.learning_map "train"
                     ["/bad/void.hdf5"])). reflexivity.
Defined.

(** ** Label-name tables that cannot be filled *)

Lemma foldM_stops {A B} (f : B → A → result B) (b : B) (la : list A) (x : A)
    (lb : list A) (e : exn) :
  (∀ y, y ∈ la → ∀ b, ∃ b', f b y = Ok b') →
  (∀ b, f b x = Err e) →
  foldM f b (la ++ x :: lb) = Err e.
Proof.
  intros Hla Hx. revert b. induction la as [|y la IH]; intros b.
  - cbn [app foldM]. by rewrite Hx.
  - cbn [app foldM]. destruct (Hla y ltac:(by left) b) as [b' ->].
    apply IH. intros z Hz. apply Hla. by right.
Qed.

(** The keys at and above a key, in the order of the loop. *)
Lemma keys_descending_split {V} (d : gmap Z V) (raw : Z) :
  is_Some (d !! raw) →
  ∃ hi lo, keys_descending d = (hi ++ raw :: lo)%list ∧
           ∀ y, y ∈ hi → (raw < y)%Z ∧ is_Some (d !! y).
Proof.
  intros Hraw.
  destruct (keys_descending_spec d) as (asc & Hkeys & Hsorted & Hasc).
  assert (Hnd : NoDup asc).
  { assert (Hasc' : asc = merge_sort Z.le (map_to_list d).*1).
    { apply (inj reverse). by rewrite <- Hkeys. }
    rewrite Hasc', merge_sort_Permutation. apply NoDup_fst_map_to_list. }
  assert (Hin : raw ∈ asc) by (by apply Hasc).
  apply list_elem_of_split in Hin as (l1 & l2 & Hsplit).
  exists (reverse l2), (reverse l1). split.
  - rewrite Hkeys, Hsplit, reverse_app, reverse_cons, <- (assoc_L (++)).
    reflexivity.
  - intros y Hy. rewrite elem_of_reverse in Hy. rewrite Hsplit in Hsorted, Hnd.
    apply StronglySorted_app_1_r in Hsorted.
    apply StronglySorted_cons in Hsorted as [Hle _].
    apply NoDup_app in Hnd as (_ & _ & Hnd). apply NoDup_cons in Hnd as [Hnot _].
    rewrite Forall_forall in Hle. split.
    + pose proof (Hle y Hy). assert (y ≠ raw) by (by intros ->). lia.
    + apply Hasc. rewrite Hsplit, elem_of_app, elem_of_cons. auto.
Qed.

Lemma keys_descending_head {V} (d : gmap Z V) :
  d ≠ ∅ → ∃ x rest, keys_descending d = x :: rest ∧ is_Some (d !! x).
Proof.
  intros Hne.
  destruct (keys_descending_spec d) as (asc & Hkeys & _ & Hasc).
  destruct (keys_descending d) as [|x rest] eqn:Hk.
  - apply map_choose in Hne as (i & v & Hi).
    assert (i ∈ asc) as Hin by (apply Hasc; by eexists).
    apply elem_of_reverse in Hin. rewrite <- Hkeys in Hin.
    by apply elem_of_nil in Hin.
  - exists x, rest. split; [done|]. apply Hasc, elem_of_reverse.
    rewrite <- Hkeys. by left.
Qed.

(** X21.  When a label-name table cannot be filled.  An empty learning map
    gives an empty table, whatever else the document holds or misses.
    Otherwise a document without the name section fails the helper on
    the section, and a raw id without a name ([get_SemKITTI_label_name])
    or a training label without a name ([get_nuScenes_label_name]) fails
    it on that id: the loop goes through the raw ids from the greatest
    down, so it is the greatest such raw id that is reported. *)
Theorem label_name_table_failures (E : env) (label_mapping : string)
    (t : list event) (bs : list byte) (doc : yaml_doc) (lm : gmap Z Z) :
  fs E !! label_mapping = Some bs →
  yaml_safe_load E bs = Some doc →
  y_learning_map doc = Some lm →
  (lm = ∅ →
   run (get_SemKITTI_label_name E label_mapping) t
   = ((t ++ [EvOpen label_mapping])%list, Ok ∅) ∧
   run (get_nuScenes_label_name E label_mapping) t
   = ((t ++ [EvOpen label_mapping])%list, Ok ∅)) ∧
  (lm ≠ ∅ →
   (y_labels doc = None →
    run (get_SemKITTI_label_name E label_mapping) t
    = ((t ++ [EvOpen label_mapping])%list, Err (KeyError (KStr "labels")))) ∧
   (y_labels_16 doc = None →
    run (get_nuScenes_label_name E label_mapping) t
    = ((t ++ [EvOpen label_mapping])%list, Err (KeyError (KStr "labels_16"))))) ∧
  (∀ labels raw,
     y_labels doc = Some labels →
     is_Some (lm !! raw) → labels !! raw = None →
     (∀ raw', (raw < raw')%Z → is_Some (lm !! raw') → is_Some (labels !! raw')) →
     run (get_SemKITTI_label_name E label_mapping) t
     = ((t ++ [EvOpen label_mapping])%list, Err (KeyError (KInt raw)))) ∧
  (∀ labels_16 raw m,
     y_labels_16 doc = Some labels_16 →
     lm !! raw = Some m → labels_16 !! m = None →
     (∀ raw' m', (raw < raw')%Z → lm !! raw' = Some m' →
                 is_Some (labels_16 !! m')) →
     run (get_nuScenes_label_name E label_mapping) t
     = ((t ++ [EvOpen label_mapping])%list, Err (KeyError (KInt m)))).
Proof.
  intros Hfs Hy Hlm.
  assert (Hsk : ∀ res,
    foldM (λ (tbl : gmap Z string) i,
             labels ← doc_getitem "labels" (y_labels doc);
             name ← dict_getitem KInt labels i;
             mapped ← dict_getitem KInt lm i;
             Ok (<[mapped := name]> tbl))
          ∅ (keys_descending lm) = res →
    run (get_SemKITTI_label_name E label_mapping) t
    = ((t ++ [EvOpen label_mapping])%list, res)).
  { intros res <-. unfold get_SemKITTI_label_name.
    rewrite run_bind, run_load_yaml, Hfs, Hy.
    rewrite run_bind, run_lift, Hlm. cbn [doc_getitem].
    by rewrite run_lift. }
  assert (Hnu : ∀ res,
    foldM (λ (tbl : gmap Z string) i,
             val_ ← dict_getitem KInt lm i;
             labels_16 ← doc_getitem "labels_16" (y_labels_16 doc);
             name ← dict_getitem KInt labels_16 val_;
             Ok (<[val_ := name]> tbl))
          ∅ (keys_descending lm) = res →
    run (get_nuScenes_label_name E label_mapping) t
    = ((t ++ [EvOpen label_mapping])%list, res)).
  { intros res <-. unfold get_nuScenes_label_name.
    rewrite run_bind, run_load_yaml, Hfs, Hy.
    rewrite run_bind, run_lift, Hlm. cbn [doc_getitem].
    by rewrite run_lift. }
  split; [|split; [|split]].
  - intros ->.
    assert (Hnil : keys_descending (∅ : gmap Z Z) = []).
    { unfold keys_descending. by rewrite map_to_list_empty. }
    split; [apply Hsk|apply Hnu]; by rewrite Hnil.
  - intros Hne.
    destruct (keys_descending_head lm Hne) as (x & rest & Hkeys & [m Hm]).
    split; intros Hnone; [apply Hsk|apply Hnu]; rewrite Hkeys.
    + cbn [foldM]. by rewrite Hnone.
    + cbn [foldM]. rewrite (dict_getitem_Some _ _ _ _ Hm), Hnone. reflexivity.
  - intros labels raw Hlabels Hraw Hnone Hnamed. apply Hsk.
    destruct (keys_descending_split lm raw Hraw) as (hi & lo & -> & Hhi).
    apply foldM_stops.
    + intros y Hin b. destruct (Hhi y Hin) as [Hlt [m Hm]].
      destruct (Hnamed y Hlt ltac:(by eexists)) as [name Hname].
      eexists. rewrite Hlabels. cbn [doc_getitem mbind result_bind].
      rewrite (dict_getitem_Some _ _ _ _ Hname), (dict_getitem_Some _ _ _ _ Hm).
      reflexivity.
    + intros b. rewrite Hlabels. cbn [doc_getitem mbind result_bind].
      by rewrite (dict_getitem_None _ _ _ Hnone).
  - intros labels_16 raw m Hlabels Hraw Hnone Hnamed. apply Hnu.
    destruct (keys_descending_split lm raw ltac:(by eexists))
      as (hi & lo & -> & Hhi).
    apply foldM_stops.
    + intros y Hin b. destruct (Hhi y Hin) as [Hlt [m' Hm']].
      destruct (Hnamed y m' Hlt Hm') as [name Hname].
      eexists. rewrite (dict_getitem_Some _ _ _ _ Hm'), Hlabels.
      cbn [doc_getitem mbind result_bind].
      rewrite (dict_getitem_Some _ _ _ _ Hname). reflexivity.
    + intros b. rewrite (dict_getitem_Some _ _ _ _ Hraw), Hlabels.
      cbn [doc_getitem mbind result_bind].
      by rewrite (dict_getitem_None _ _ _ Hnone).
Qed.

Lemma label_name_table_failures_witness :
  (run (get_SemKITTI_label_name Broken.E "blank.yaml") []
   = (([] ++ [EvOpen "blank.yaml"])%list, Ok ∅) ∧
   run (get_nuScenes_label_name Broken.E "blank.yaml") []
   = (([] ++ [EvOpen "blank.yaml"])%list, Ok ∅)) ∧
  run (get_nuScenes_label_name Broken.E "semantic-kitti.yaml") []
  = (([] ++ [EvOpen "semantic-kitti.yaml"])%list,
     Err (KeyError (KStr "labels_16"))) ∧
  run (get_SemKITTI_label_name Broken.E "nameless.yaml") []
  = (([] ++ [EvOpen "nameless.yaml"])%list, Err (KeyError (KInt 5))) ∧
  run (get_nuScenes_label_name Broken.E "nameless.yaml") []
  = (([] ++ [EvOpen "nameless.yaml"])%list, Err (KeyError (KInt 2))).
Proof.
  split; [|split; [|split]].
  - apply (proj1 (label_name_table_failures Broken.E "blank.yaml" [] [x07]
                    Broken.blank_doc ∅ eq_refl eq_refl eq_refl)).
    reflexivity.
  - apply (proj2 (proj1 (proj2 (label_name_table_failures Broken.E
                    "semantic-kitti.yaml" [] [x01] Fixture.kitti_doc
                    Fixture.learning_map eq_refl eq_refl eq_refl))
             ltac:(by_decide))).
    reflexivity.
  - apply (proj1 (proj2 (proj2 (label_name_table_failures Broken.E
                    "nameless.yaml" [] [x06] Broken.nameless_doc
                    Fixture.learning_map eq_refl eq_refl eq_refl)))
             {[ 1%Z := "car"; 2%Z := "bicycle" ]} 5%Z eq_refl).
    + by eexists.
    + reflexivity.
    + intros raw' Hlt [m Hm]. exfalso. revert Hm. unfold Fixture.learning_map.
      rewrite !lookup_insert_Some, lookup_singleton_Some. lia.
  - apply (proj2 (proj2 (proj2 (label_name_table_failures Broken.E
                    "nameless.yaml" [] [x06] Broken.nameless_doc
                    Fixture.learning_map eq_refl eq_refl eq_refl)))
             {[ 0%Z := "noise"; 1%Z := "barrier" ]} 5%Z 2%Z eq_refl eq_refl eq_refl).
    intros raw' m' Hlt Hm. exfalso. revert Hm. unfold Fixture.learning_map.
    rewrite !lookup_insert_Some, lookup_singleton_Some. lia.
Defined.

(** ** The module run as a script *)

Lemma stdout_app t1 t2 : stdout (t1 ++ t2) = (stdout t1 ++ stdout t2)%list.
Proof. apply omap_app. Qed.





(** ** What is printed *)

Lemma quiet_ret {A} (a : A) : quiet (mret a).
Proof. by intros t t' r [= <- _]. Qed.

Lemma quiet_lift {A} (x : result A) : quiet (lift x).
Proof. by intros t t' r [= <- _]. Qed.

Lemma quiet_bind {A B} (m : IO A) (f : A → IO B) :
  quiet m → (∀ a, quiet (f a)) → quiet (m ≫= f).
Proof.
  intros Hm Hf t t' r. rewrite run_bind.
  destruct (run m t) as [t1 [a|e]] eqn:Hrun.
  - intros Hk. apply Hf in Hk. apply Hm in Hrun. congruence.
  - intros [= <- _]. by apply Hm in Hrun.
Qed.

Lemma quiet_emit (e : event) :
  (∀ line, e ≠ EvStdout line) → quiet (emit e).
Proof.
  intros He t t' r. rewrite run_emit. intros [= <- _].
  rewrite stdout_app. destruct e; cbn; try by rewrite app_nil_r.
  by destruct (He line).
Qed.

Ltac quiet_step :=
  first
    [ apply quiet_ret
    | apply quiet_lift
    | apply quiet_emit; discriminate
    | apply quiet_bind; [|intros ?]
    | match goal with
      | |- quiet (match ?x with _ => _ end) => destruct x
      | |- quiet (raise _) => apply quiet_lift
      end ].

Ltac to_quiet :=
  match goal with
  | |- run ?m _ = _ → _ =>
      let Hq := fresh "Hq" in enough (Hq : quiet m) by apply Hq
  end.

Lemma quiet_read_file E path : quiet (read_file E path).
Proof. unfold read_file. repeat quiet_step. Qed.

Lemma quiet_np_fromfile {A} E path k (dec : list byte → A) :
  quiet (np_fromfile E path k dec).
Proof. unfold np_fromfile. apply quiet_bind; [apply quiet_read_file|]. intros. quiet_step. Qed.

Lemma quiet_load_yaml E path : quiet (load_yaml E path).
Proof.
  unfold load_yaml. apply quiet_bind; [apply quiet_read_file|]. intros.
  repeat quiet_step.
Qed.

Lemma quiet_load_pickle E path : quiet (load_pickle E path).
Proof.
  unfold load_pickle. apply quiet_bind; [apply quiet_read_file|]. intros.
  repeat quiet_step.
Qed.

Lemma quiet_collect_paths {A} E (dir : A → result string) split :
  quiet (collect_paths E dir split).
Proof.
  induction split as [|x split IH]; cbn [collect_paths]; [apply quiet_ret|].
  apply quiet_bind; [apply quiet_lift|]. intros d.
  apply quiet_bind; [unfold absoluteFilePaths; repeat quiet_step|]. intros ps.
  apply quiet_bind; [exact IH|]. intros. apply quiet_ret.
Qed.

Lemma quiet_load_channels E path : quiet (load_channels E path).
Proof.
  unfold load_channels, open_h5, read_dataset. repeat quiet_step.
Qed.

Lemma quiet_nusc_get nusc table token : quiet (SemKITTI_nusc.nusc_get nusc table token).
Proof. unfold SemKITTI_nusc.nusc_get. repeat quiet_step. Qed.

(** X23.  Only [CycleDense] prints.  An access of [SemKITTI_sk], [Dense]
    or [SemKITTI_nusc] prints nothing, whether it returns or fails, and
    neither does any of the four constructors.  An access of
    [CycleDense] prints one line, [2], when it returns with [return_ref]
    set, and nothing otherwise. *)
Theorem only_cycledense_prints (E : env) (index : Z) (t t' : list event) :
  (∀ (self : SemKITTI_sk.t) r,
     run (SemKITTI_sk.__getitem__ E self index) t = (t', r) →
     stdout t' = stdout t) ∧
  (∀ (self : Dense.t) r,
     run (Dense.__getitem__ E self index) t = (t', r) → stdout t' = stdout t) ∧
  (∀ (self : SemKITTI_nusc.t) r,
     run (SemKITTI_nusc.__getitem__ E self index) t = (t', r) →
     stdout t' = stdout t) ∧
  (∀ (self : CycleDense.t) r,
     run (CycleDense.__getitem__ E self index) t = (t', r) →
     stdout t'
     = (stdout t ++ match r with
                    | Ok _ => if CycleDense.return_ref self then ["2"] else []
                    | Err _ => []
                    end)%list) ∧
  (∀ data_path imageset clss return_ref label_mapping nusc,
     (∀ r, run (SemKITTI_sk.__init__ E data_path imageset return_ref
                  label_mapping nusc) t = (t', r) → stdout t' = stdout t) ∧
     (∀ r, run (Dense.__init__ E data_path imageset return_ref
                  label_mapping nusc) t = (t', r) → stdout t' = stdout t) ∧
     (∀ r, run (CycleDense.__init__ E data_path imageset clss return_ref
                  label_mapping nusc) t = (t', r) → stdout t' = stdout t) ∧
     (∀ r, run (SemKITTI_nusc.__init__ E data_path imageset return_ref
                  label_mapping nusc) t = (t', r) → stdout t' = stdout t)).
Proof.
  split; [|split; [|split; [|split]]].
  - intros self r. to_quiet.
    unfold SemKITTI_sk.__getitem__.
    apply quiet_bind; [apply quiet_lift|]. intros scan.
    apply quiet_bind; [apply quiet_np_fromfile|]. intros raw.
    apply quiet_bind; [apply quiet_lift|]. intros raw_data.
    apply quiet_bind.
    { case_decide; [apply quiet_lift|].
      apply quiet_bind; [apply quiet_np_fromfile|]. intros lab.
      repeat quiet_step. }
    intros ann. repeat quiet_step.
  - intros self r. to_quiet.
    unfold Dense.__getitem__.
    apply quiet_bind; [apply quiet_lift|]. intros path.
    apply quiet_bind; [apply quiet_load_channels|]. intros raw.
    repeat quiet_step.
  - intros self r. to_quiet.
    unfold SemKITTI_nusc.__getitem__.
    apply quiet_bind; [apply quiet_lift|]. intros info.
    apply quiet_bind; [apply quiet_lift|]. intros lp.
    apply quiet_bind; [apply quiet_nusc_get|]. intros sample.
    apply quiet_bind; [apply quiet_lift|]. intros sdata.
    apply quiet_bind; [apply quiet_lift|]. intros sd.
    apply quiet_bind; [repeat quiet_step|]. intros root.
    apply quiet_bind; [apply quiet_nusc_get|]. intros seg.
    apply quiet_bind; [apply quiet_lift|]. intros filename.
    apply quiet_bind; [apply quiet_np_fromfile|]. intros lab.
    apply quiet_bind; [apply quiet_lift|]. intros pl.
    apply quiet_bind; [apply quiet_lift|]. intros pl'.
    apply quiet_bind; [apply quiet_np_fromfile|]. intros pts.
    repeat quiet_step.
  - intros self r. unfold CycleDense.__getitem__.
    rewrite run_bind, run_lift.
    destruct (list_getitem _ _) as [path|e];
      [|intros [= <- <-]; by rewrite app_nil_r].
    rewrite run_bind.
    destruct (run (load_channels E path) t) as [t1 [raw|e]] eqn:Hload;
      apply quiet_load_channels in Hload;
      [|intros [= <- <-]; by rewrite app_nil_r].
    rewrite run_bind, run_lift.
    destruct (slice_rows raw 3) as [top|e];
      [|intros [= <- <-]; by rewrite app_nil_r].
    rewrite run_bind, run_lift.
    destruct (transpose_10 top) as [xyz|e];
      [|intros [= <- <-]; by rewrite app_nil_r].
    cbn zeta. destruct (CycleDense.return_ref self).
    + rewrite run_bind, run_lift.
      destruct (get_row raw 3) as [r3|e];
        [|intros [= <- <-]; by rewrite app_nil_r].
      rewrite run_bind, run_lift.
      destruct (reshape_rows_auto 1 r3) as [ref|e];
        [|intros [= <- <-]; by rewrite app_nil_r].
      rewrite run_bind, run_emit, run_ret. intros [= <- <-].
      rewrite stdout_app, Hload. reflexivity.
    + rewrite run_ret. intros [= <- <-]. by rewrite app_nil_r.
  - intros data_path imageset clss return_ref label_mapping nusc.
    split; [|split; [|split]]; intros r; to_quiet.
    + unfold SemKITTI_sk.__init__. cbn zeta.
      apply quiet_bind; [apply quiet_load_yaml|]. intros doc.
      apply quiet_bind; [apply quiet_lift|]. intros lmap.
      apply quiet_bind; [apply quiet_lift|]. intros split.
      apply quiet_bind; [apply quiet_collect_paths|]. intros. apply quiet_ret.
    + unfold Dense.__init__. cbn zeta.
      apply quiet_bind; [apply quiet_load_yaml|]. intros doc.
      apply quiet_bind; [apply quiet_lift|]. intros lmap.
      apply quiet_bind; [apply quiet_lift|]. intros split.
      apply quiet_bind; [apply quiet_collect_paths|]. intros. apply quiet_ret.
    + unfold CycleDense.__init__. cbn zeta.
      apply quiet_bind; [apply quiet_load_yaml|]. intros doc.
      apply quiet_bind; [apply quiet_lift|]. intros lmap.
      apply quiet_bind; [apply quiet_lift|]. intros split.
      apply quiet_bind; [apply quiet_collect_paths|]. intros. apply quiet_ret.
    + unfold SemKITTI_nusc.__init__. cbn zeta.
      apply quiet_bind; [apply quiet_load_pickle|]. intros data.
      apply quiet_bind; [apply quiet_load_yaml|]. intros doc.
      repeat quiet_step.
Qed.

Lemma only_cycledense_prints_witness :
  (∃ t' r,
     run (SemKITTI_sk.__getitem__ Fixture.E
            (Fixture.sk "train" true ["/data/00/velodyne/000000.bin"]) 0) []
       = (t', Ok r) ∧
     stdout t' = stdout []) ∧
  (∃ t' r,
     run (CycleDense.__getitem__ Fixture.E (Fixture.cycledense true) 0) []
       = (t', Ok r) ∧
     stdout t' = (stdout [] ++ ["2"])%list) ∧
  (∃ t' r,
     run (CycleDense.__getitem__ Fixture.E (Fixture.cycledense false) 0) []
       = (t', Ok r) ∧
     stdout t' = (stdout [] ++ [])%list).
Proof.
  split; [|split].
  - run_exists.
    exact (proj1 (only_cycledense_prints Fixture.E 0 [] _)
             (Fixture.sk "train" true ["/data/00/velodyne/000000.bin"]) _ Hrun).
  - run_exists.
    exact (proj1 (proj2 (proj2 (proj2 (only_cycledense_prints Fixture.E 0 [] _))))
             (Fixture.cycledense true) _ Hrun).
  - run_exists.
    exact (proj1 (proj2 (proj2 (proj2 (only_cycledense_prints Fixture.E 0 [] _))))
             (Fixture.cycledense false) _ Hrun).
Defined.
